(** * MasterX streaming chat: the client-side stream consumer

  A shallow embedding of the store of [context/AppContext.js] (the
  reducer [appReducer]), of the stream consumers [sendMessage] and
  [sendPremiumMessage] of the same file, of [startAdvancedStream] of
  [components/AdvancedStreamingInterface.js] and of the submit handler
  of [components/ChatInterface.js], followed by the properties of the
  streaming relay that concern the client. Further properties cover
  the request and gamification actions of the provider, the handlers
  of [components/Sidebar.js] and of the welcome card, the context-aware
  chat of [components/ModelManagement.js] and the onboarding form
  [components/UserOnboarding.js].

  Conventions.
  - A JavaScript string is a Rocq [string]; its characters stand for
    code units below 256.
  - A JavaScript value is a [value]; objects are association lists in
    insertion order. The Number type, [JSON.parse], the formatting of
    dates and the environment are a [Runtime], over which the model and
    the theorems are generic; [Engine.runtime] is a concrete one, on
    which the model runs.
  - A thrown exception is an explicit result ([None], [Throws]).
  - [dispatch] is asynchronous in React: a consumer emits a trace of
    effects, and the UI state is obtained by replaying the dispatched
    actions through [appReducer].
  - The clock is an oracle: [clock k] is its [k]-th reading by a call.
  - A response body is the list of the texts its reads decode to. *)

From Stdlib Require Import String Ascii List ZArith Bool DecimalString Lia.
Import ListNotations.
Local Open Scope string_scope.
Local Open Scope list_scope.

Set Implicit Arguments.

(* ===================================================================== *)
(** ** JavaScript strings *)
(* ===================================================================== *)

Module JsString.

(** The line feed, ['\n']. *)
Definition LF : ascii := "010"%char.

(** [s.startsWith(p)]. *)
Definition startsWith (s p : string) : bool := String.prefix p s.

(** [s.slice(n)] for a non-negative [n]. *)
Fixpoint slice (n : nat) (s : string) : string :=
  match n, s with
  | O, _ => s
  | S _, EmptyString => EmptyString
  | S k, String _ r => slice k r
  end.

(** [s.split(sep)] for a one-character separator: the pieces between
    the separators, so that the empty string gives one empty piece. *)
Fixpoint split (sep : ascii) (s : string) : list string :=
  match s with
  | EmptyString => [EmptyString]
  | String c r =>
      if Ascii.eqb c sep then EmptyString :: split sep r
      else match split sep r with
           | [] => [String c EmptyString]
           | h :: t => String c h :: t
           end
  end.

(** White space and line terminators among the code units below 256,
    as [String.prototype.trim] sees them. *)
Definition isWhiteSpace (c : ascii) : bool :=
  let n := nat_of_ascii c in
  (Nat.leb 9 n && Nat.leb n 13) || Nat.eqb n 32 || Nat.eqb n 160.

Fixpoint trimStart (s : string) : string :=
  match s with
  | EmptyString => EmptyString
  | String c r => if isWhiteSpace c then trimStart r else s
  end.

Fixpoint trimEnd (s : string) : string :=
  match s with
  | EmptyString => EmptyString
  | String c r =>
      match trimEnd r with
      | EmptyString => if isWhiteSpace c then EmptyString else String c EmptyString
      | r' => String c r'
      end
  end.

(** [s.trim()]. *)
Definition trim (s : string) : string := trimEnd (trimStart s).

(** A string is truthy when it is not empty. *)
Definition nonEmpty (s : string) : bool :=
  match s with EmptyString => false | String _ _ => true end.

(** No line feed occurs in [s]. *)
Fixpoint oneLine (s : string) : bool :=
  match s with
  | EmptyString => true
  | String c r => negb (Ascii.eqb c LF) && oneLine r
  end.

(** The texts of a list, one after the other. *)
Fixpoint concat (l : list string) : string :=
  match l with
  | [] => EmptyString
  | x :: r => (x ++ concat r)%string
  end.

(** Decimal form of an integer, as [Number.prototype.toString] gives it
    for integers. *)
Definition ofZ (z : Z) : string := NilZero.string_of_int (Z.to_int z).

Definition ofNat (n : nat) : string := NilZero.string_of_uint (Nat.to_uint n).

End JsString.
Import JsString.

(* ===================================================================== *)
(** ** JavaScript values *)
(* ===================================================================== *)

Section Values.

(** The Number type of the runtime is kept abstract. *)
Variable number : Type.

#[warnings="-register-all"]
Inductive value : Type :=
| VUndefined
| VNull
| VBool (b : bool)
| VNumber (n : number)
| VString (s : string)
| VArray (elements : list value)
| VObject (fields : list (string * value)).

(** Own property of an object literal. *)
Fixpoint lookup (k : string) (fields : list (string * value)) : option value :=
  match fields with
  | [] => None
  | (k', v) :: r => if String.eqb k k' then Some v else lookup k r
  end.

(** [o[k] = v]: an existing key keeps its place. *)
Fixpoint assign (k : string) (v : value) (fields : list (string * value))
  : list (string * value) :=
  match fields with
  | [] => [(k, v)]
  | (k', v') :: r =>
      if String.eqb k k' then (k, v) :: r else (k', v') :: assign k v r
  end.

Definition nullish (v : value) : bool :=
  match v with VUndefined | VNull => true | _ => false end.

(** [v.k] on a value that is neither [null] nor [undefined], for a key
    [k] that is not an array index and names nothing on the built-in
    prototypes ([type], [content], [message], [suggestions], ...). *)
Definition field (v : value) (k : string) : value :=
  match v with
  | VObject fields =>
      match lookup k fields with Some x => x | None => VUndefined end
  | _ => VUndefined
  end.

(** [v.k]; [None] is the TypeError of reading a property of [null] or
    [undefined]. *)
Definition get (v : value) (k : string) : option value :=
  if nullish v then None else Some (field v k).

(** [v?.k]. *)
Definition getOpt (v : value) (k : string) : value :=
  if nullish v then VUndefined else field v k.

(** [a === 'literal']. *)
Definition isString (v : value) (s : string) : bool :=
  match v with VString s' => String.eqb s' s | _ => false end.

End Values.

Arguments VUndefined {number}.
Arguments VNull {number}.
Arguments VBool {number} b.
Arguments VString {number} s.
Arguments VArray {number} elements.
Arguments VObject {number} fields.

(** The part of the runtime the client code calls into. *)
Class Runtime : Type := {
  number : Type;
  (** ToBoolean on a Number. *)
  Number_truthy : number -> bool;
  (** ToString on a Number. *)
  Number_toString : number -> string;
  (** [JSON.parse]; [None] is the SyntaxError it throws. *)
  JSON_parse : string -> option (value number);
  (** [new Date(ms).toISOString()]. *)
  toISOString : Z -> string;
  (** [process.env.REACT_APP_BACKEND_URL]. *)
  REACT_APP_BACKEND_URL : string
}.

Section Coercions.

Context {R : Runtime}.

Definition val : Type := value number.

(** ToBoolean. *)
Definition truthy (v : val) : bool :=
  match v with
  | VUndefined | VNull => false
  | VBool b => b
  | VNumber n => Number_truthy n
  | VString s => nonEmpty s
  | VArray _ | VObject _ => true
  end.

(** [a || b]. *)
Definition or_else (a b : val) : val := if truthy a then a else b.

(** ToString, as string concatenation [s + v] applies it; [None] is the
    TypeError thrown when an object carries an own [toString] property
    (which, coming from JSON, is not callable). Arrays are joined with
    commas, [null] and [undefined] elements giving the empty string. *)
Fixpoint ToString (v : val) : option string :=
  match v with
  | VUndefined => Some "undefined"
  | VNull => Some "null"
  | VBool true => Some "true"
  | VBool false => Some "false"
  | VNumber n => Some (Number_toString n)
  | VString s => Some s
  | VArray l =>
      let element x := if nullish x then Some EmptyString else ToString x in
      (fix join (l : list val) : option string :=
         match l with
         | [] => Some EmptyString
         | [x] => element x
         | x :: r =>
             match element x, join r with
             | Some a, Some b => Some (a ++ "," ++ b)%string
             | _, _ => None
             end
         end) l
  | VObject fields =>
      match lookup "toString" fields with
      | Some _ => None
      | None => Some "[object Object]"
      end
  end.

(** The own enumerable properties copied by an object spread [{...v}]. *)
Fixpoint indexed (i : nat) (l : list val) : list (string * val) :=
  match l with
  | [] => []
  | x :: r => (ofNat i, x) :: indexed (S i) r
  end.

Fixpoint characters (s : string) : list val :=
  match s with
  | EmptyString => []
  | String c r => VString (String c EmptyString) :: characters r
  end.

Definition ownProperties (v : val) : list (string * val) :=
  match v with
  | VObject fields => fields
  | VArray l => indexed 0 l
  | VString s => indexed 0 (characters s)
  | _ => []
  end.

(** [{...a, ...b}]; integer-like keys are kept in insertion order. *)
Definition spread2 (a b : val) : val :=
  VObject (fold_left (fun o kv => assign (fst kv) (snd kv) o)
                     (ownProperties a ++ ownProperties b) []).

(** The elements an array spread [[...v]] iterates over; [None] is the
    TypeError for a value that is not iterable. *)
Definition iterate (v : val) : option (list val) :=
  match v with
  | VArray l => Some l
  | VString s => Some (characters s)
  | _ => None
  end.

End Coercions.

(* ===================================================================== *)
(** ** The read loop of the stream consumers *)
(* ===================================================================== *)

(** [sendMessage], [sendPremiumMessage] and [startAdvancedStream] run the
    same loop over the response body and differ in what they do with the
    payload of a frame:
<<
    while (true) {
      const { done, value } = await reader.read();
      if (done) break;
      const chunk = new TextDecoder().decode(value);
      const lines = chunk.split('\n');
      for (const line of lines) {
        if (line.startsWith('data: ')) {
          try { const data = JSON.parse(line.slice(6)); ... } catch (e) { ... }
        }
      }
    }
>>
    [on_frame] is the [try] statement, applied to [line.slice(6)]. *)
Module Stream.

Section Loop.

Variables Locals Effect : Type.
Variable on_frame : Locals -> string -> list Effect * Locals.

(** The body of [for (const line of lines)]. *)
Definition on_line (loc : Locals) (line : string) : list Effect * Locals :=
  if startsWith line "data: " then on_frame loc (slice 6 line) else ([], loc).

(** [for (const line of lines) ...]. *)
Fixpoint for_lines (loc : Locals) (lines : list string) : list Effect * Locals :=
  match lines with
  | [] => ([], loc)
  | line :: rest =>
      let (e1, loc1) := on_line loc line in
      let (e2, loc2) := for_lines loc1 rest in
      (e1 ++ e2, loc2)
  end.

(** [while (true)] over the reads that deliver a value: the text of each
    read is split at the line feeds on its own. *)
Fixpoint read_loop (loc : Locals) (values : list string) : list Effect * Locals :=
  match values with
  | [] => ([], loc)
  | chunk :: rest =>
      let (e1, loc1) := for_lines loc (split LF chunk) in
      let (e2, loc2) := read_loop loc1 rest in
      (e1 ++ e2, loc2)
  end.

(** One run after another: the effects follow each other, the locals are
    handed over. *)
Definition andThen (first : list Effect * Locals)
  (next : Locals -> list Effect * Locals) : list Effect * Locals :=
  (fst first ++ fst (next (snd first)), snd (next (snd first))).

End Loop.

(** An [Error] object that reaches an outer [catch]. *)
Record Error : Type := { error_message : string }.

(** How the body of the response ends: [done], or a read that rejects. *)
Inductive BodyEnd : Type := Done | ReadRejects (e : Error).

(** The response body as the reader delivers it: [reads] holds, for each
    read with [done] false, the text [TextDecoder.decode(value)] gives. *)
Record Body : Type := { reads : list string; ending : BodyEnd }.

(** The outcome of [fetch]. *)
Inductive FetchResult : Type :=
| FetchRejects (e : Error)
| Response (ok : bool) (body : Body).

(** What the [catch] around the handling of one frame receives. *)
Inductive Caught : Type := SyntaxError | TypeError.

(** The line the relay writes for a frame with the given JSON text. *)
Definition frameLine (payload : string) : string :=
  ("data: " ++ payload ++ String LF EmptyString)%string.

(** The text of a response made of the given frames. *)
Definition wire (payloads : list string) : string :=
  concat (map frameLine payloads).

(** The text of a read ends where a line ends. *)
Fixpoint wholeLines (s : string) : bool :=
  match s with
  | EmptyString => true
  | String c EmptyString => Ascii.eqb c LF
  | String _ r => wholeLines r
  end.

End Stream.
Import Stream.

(* ===================================================================== *)
(** ** [context/AppContext.js]: the store *)
(* ===================================================================== *)

Module AppContext.

Section Store.

Context {R : Runtime}.

Record AppState : Type := {
  user : val;
  currentSession : val;
  sessions : list val;
  messages : list val;
  isLoading : bool;
  error : val;
  isTyping : bool;
  streamingMessage : string;
  darkMode : bool;
  progress : val;
  gamificationData : val;
  achievements : val;
  streak : val;
  rewards : val
}.

Definition initialState : AppState := {|
  user := VNull;
  currentSession := VNull;
  sessions := [];
  messages := [];
  isLoading := false;
  error := VNull;
  isTyping := false;
  streamingMessage := EmptyString;
  darkMode := true;
  progress := VObject [];
  gamificationData := VNull;
  achievements := VArray [];
  streak := VNull;
  rewards := VNull
|}.

(** The actions, each with the payload its case of the reducer reads;
    [OTHER] is any action type the reducer does not know. *)
Inductive Action : Type :=
| SET_LOADING (payload : bool)
| SET_ERROR (payload : val)
| SET_USER (payload : val)
| SET_CURRENT_SESSION (payload : val)
| SET_SESSIONS (payload : list val)
| ADD_SESSION (payload : val)
| SET_MESSAGES (payload : list val)
| ADD_MESSAGE (payload : val)
| SET_TYPING (payload : bool)
| SET_STREAMING_MESSAGE (payload : val)
| CLEAR_STREAMING_MESSAGE
| TOGGLE_DARK_MODE
| SET_PROGRESS (payload : val)
| SET_GAMIFICATION_DATA (payload : val)
| UPDATE_STREAK (payload : val)
| ADD_ACHIEVEMENT (payload : val)
| UPDATE_REWARDS (payload : val)
| OTHER (type : string).

(** [appReducer(state, action)]; [None] is a TypeError thrown by the
    reducer (a string concatenation or an array spread that fails). *)
Definition appReducer (state : AppState) (action : Action) : option AppState :=
  match action with
  | SET_LOADING payload =>
      Some {| user := user state; currentSession := currentSession state;
              sessions := sessions state; messages := messages state;
              isLoading := payload;
              error := error state; isTyping := isTyping state;
              streamingMessage := streamingMessage state;
              darkMode := darkMode state; progress := progress state;
              gamificationData := gamificationData state;
              achievements := achievements state; streak := streak state;
              rewards := rewards state |}
  | SET_ERROR payload =>
      Some {| user := user state; currentSession := currentSession state;
              sessions := sessions state; messages := messages state;
              isLoading := false;
              error := payload;
              isTyping := isTyping state;
              streamingMessage := streamingMessage state;
              darkMode := darkMode state; progress := progress state;
              gamificationData := gamificationData state;
              achievements := achievements state; streak := streak state;
              rewards := rewards state |}
  | SET_USER payload =>
      Some {| user := payload;
              currentSession := currentSession state;
              sessions := sessions state; messages := messages state;
              isLoading := isLoading state; error := error state;
              isTyping := isTyping state;
              streamingMessage := streamingMessage state;
              darkMode := darkMode state; progress := progress state;
              gamificationData := gamificationData state;
              achievements := achievements state; streak := streak state;
              rewards := rewards state |}
  | SET_CURRENT_SESSION payload =>
      Some {| user := user state;
              currentSession := payload;
              sessions := sessions state; messages := messages state;
              isLoading := isLoading state; error := error state;
              isTyping := isTyping state;
              streamingMessage := streamingMessage state;
              darkMode := darkMode state; progress := progress state;
              gamificationData := gamificationData state;
              achievements := achievements state; streak := streak state;
              rewards := rewards state |}
  | SET_SESSIONS payload =>
      Some {| user := user state; currentSession := currentSession state;
              sessions := payload;
              messages := messages state;
              isLoading := isLoading state; error := error state;
              isTyping := isTyping state;
              streamingMessage := streamingMessage state;
              darkMode := darkMode state; progress := progress state;
              gamificationData := gamificationData state;
              achievements := achievements state; streak := streak state;
              rewards := rewards state |}
  | ADD_SESSION payload =>
      Some {| user := user state; currentSession := currentSession state;
              sessions := payload :: sessions state;
              messages := messages state;
              isLoading := isLoading state; error := error state;
              isTyping := isTyping state;
              streamingMessage := streamingMessage state;
              darkMode := darkMode state; progress := progress state;
              gamificationData := gamificationData state;
              achievements := achievements state; streak := streak state;
              rewards := rewards state |}
  | SET_MESSAGES payload =>
      Some {| user := user state; currentSession := currentSession state;
              sessions := sessions state;
              messages := payload;
              isLoading := isLoading state; error := error state;
              isTyping := isTyping state;
              streamingMessage := streamingMessage state;
              darkMode := darkMode state; progress := progress state;
              gamificationData := gamificationData state;
              achievements := achievements state; streak := streak state;
              rewards := rewards state |}
  | ADD_MESSAGE payload =>
      Some {| user := user state; currentSession := currentSession state;
              sessions := sessions state;
              messages := messages state ++ [payload];
              isLoading := isLoading state; error := error state;
              isTyping := isTyping state;
              streamingMessage := streamingMessage state;
              darkMode := darkMode state; progress := progress state;
              gamificationData := gamificationData state;
              achievements := achievements state; streak := streak state;
              rewards := rewards state |}
  | SET_TYPING payload =>
      Some {| user := user state; currentSession := currentSession state;
              sessions := sessions state; messages := messages state;
              isLoading := isLoading state; error := error state;
              isTyping := payload;
              streamingMessage := streamingMessage state;
              darkMode := darkMode state; progress := progress state;
              gamificationData := gamificationData state;
              achievements := achievements state; streak := streak state;
              rewards := rewards state |}
  | SET_STREAMING_MESSAGE payload =>
      match ToString payload with
      | None => None
      | Some text =>
          Some {| user := user state; currentSession := currentSession state;
                  sessions := sessions state; messages := messages state;
                  isLoading := isLoading state; error := error state;
                  isTyping := isTyping state;
                  streamingMessage := (streamingMessage state ++ text)%string;
                  darkMode := darkMode state; progress := progress state;
                  gamificationData := gamificationData state;
                  achievements := achievements state; streak := streak state;
                  rewards := rewards state |}
      end
  | CLEAR_STREAMING_MESSAGE =>
      Some {| user := user state; currentSession := currentSession state;
              sessions := sessions state; messages := messages state;
              isLoading := isLoading state; error := error state;
              isTyping := isTyping state;
              streamingMessage := EmptyString;
              darkMode := darkMode state; progress := progress state;
              gamificationData := gamificationData state;
              achievements := achievements state; streak := streak state;
              rewards := rewards state |}
  | TOGGLE_DARK_MODE =>
      Some {| user := user state; currentSession := currentSession state;
              sessions := sessions state; messages := messages state;
              isLoading := isLoading state; error := error state;
              isTyping := isTyping state;
              streamingMessage := streamingMessage state;
              darkMode := negb (darkMode state);
              progress := progress state;
              gamificationData := gamificationData state;
              achievements := achievements state; streak := streak state;
              rewards := rewards state |}
  | SET_PROGRESS payload =>
      Some {| user := user state; currentSession := currentSession state;
              sessions := sessions state; messages := messages state;
              isLoading := isLoading state; error := error state;
              isTyping := isTyping state;
              streamingMessage := streamingMessage state;
              darkMode := darkMode state;
              progress := spread2 (progress state) payload;
              gamificationData := gamificationData state;
              achievements := achievements state; streak := streak state;
              rewards := rewards state |}
  | SET_GAMIFICATION_DATA payload =>
      Some {| user := user state; currentSession := currentSession state;
              sessions := sessions state; messages := messages state;
              isLoading := isLoading state; error := error state;
              isTyping := isTyping state;
              streamingMessage := streamingMessage state;
              darkMode := darkMode state; progress := progress state;
              gamificationData := payload;
              achievements :=
                or_else (getOpt (getOpt payload "achievements") "details")
                        (VArray []);
              streak := or_else (getOpt payload "streak") VNull;
              rewards := or_else (getOpt payload "rewards") VNull |}
  | UPDATE_STREAK payload =>
      Some {| user := user state; currentSession := currentSession state;
              sessions := sessions state; messages := messages state;
              isLoading := isLoading state; error := error state;
              isTyping := isTyping state;
              streamingMessage := streamingMessage state;
              darkMode := darkMode state; progress := progress state;
              gamificationData := gamificationData state;
              achievements := achievements state;
              streak := spread2 (streak state) payload;
              rewards := rewards state |}
  | ADD_ACHIEVEMENT payload =>
      match iterate (achievements state) with
      | None => None
      | Some earlier =>
          Some {| user := user state; currentSession := currentSession state;
                  sessions := sessions state; messages := messages state;
                  isLoading := isLoading state; error := error state;
                  isTyping := isTyping state;
                  streamingMessage := streamingMessage state;
                  darkMode := darkMode state; progress := progress state;
                  gamificationData := gamificationData state;
                  achievements := VArray (earlier ++ [payload]);
                  streak := streak state;
                  rewards := rewards state |}
      end
  | UPDATE_REWARDS payload =>
      Some {| user := user state; currentSession := currentSession state;
              sessions := sessions state; messages := messages state;
              isLoading := isLoading state; error := error state;
              isTyping := isTyping state;
              streamingMessage := streamingMessage state;
              darkMode := darkMode state; progress := progress state;
              gamificationData := gamificationData state;
              achievements := achievements state; streak := streak state;
              rewards := spread2 (rewards state) payload |}
  | OTHER _ => Some state
  end.

(** The state after a sequence of dispatched actions. *)
Fixpoint replay (state : AppState) (actions : list Action) : option AppState :=
  match actions with
  | [] => Some state
  | a :: rest =>
      match appReducer state a with
      | None => None
      | Some state' => replay state' rest
      end
  end.

End Store.

(* --------------------------------------------------------------------- *)
(** *** The stream consumers [sendMessage] and [sendPremiumMessage] *)
(* --------------------------------------------------------------------- *)

Section Consumer.

Context {R : Runtime}.

(** What a call does, in the order it does it. *)
Inductive Effect : Type :=
| Dispatch (action : Action)
| Fetch (url : string) (body : val)
| ConsoleError (label : string) (e : Caught).

(** How an [async] call settles. *)
Inductive Completion : Type :=
| Returns (result : string)
| Throws (e : Error).

(** The two consumers differ in the endpoint, the request, the texts
    and the fields of the mentor message. *)
Inductive Variant : Type := Regular | Premium (context : val).

(** The locals of a call: [fullResponse], and how many times the call
    has read the clock so far. *)
Record Local : Type := { fullResponse : string; ticks : nat }.

Section Call.

Variable variant : Variant.
Variables sessionId message : val.

(** [clock k] is what the clock shows the [k]-th time this call reads
    it ([Date.now()], [new Date()]). *)
Variable clock : nat -> Z.

Definition endpoint : string :=
  match variant with
  | Regular => (REACT_APP_BACKEND_URL ++ "/api/chat/stream")%string
  | Premium _ => (REACT_APP_BACKEND_URL ++ "/api/chat/premium/stream")%string
  end.

Definition request : val :=
  match variant with
  | Regular =>
      VObject [("session_id", sessionId); ("user_message", message)]
  | Premium context =>
      VObject [("session_id", sessionId); ("user_message", message);
               ("context", context)]
  end.

Definition notOk : Error :=
  match variant with
  | Regular => {| error_message := "Failed to send message" |}
  | Premium _ => {| error_message := "Failed to send premium message" |}
  end.

Definition parseLabel : string :=
  match variant with
  | Regular => "Error parsing streaming data:"
  | Premium _ => "Error parsing premium streaming data:"
  end.

Definition userMessage : val :=
  VObject [("id", VString (ofZ (clock 0)));
           ("session_id", sessionId);
           ("message", message);
           ("sender", VString "user");
           ("timestamp", VString (toISOString (clock 1)))].

(** The mentor message built on a complete frame; [None] is the
    TypeError of [context.learning_mode] on a [null] context. *)
Definition aiMessage (loc : Local) (data : val) : option val :=
  let common :=
    [("id", VString (ofZ (clock (ticks loc) + 1)));
     ("session_id", sessionId);
     ("message", VString (fullResponse loc));
     ("sender", VString "mentor");
     ("timestamp", VString (toISOString (clock (S (ticks loc)))));
     ("suggestions", or_else (field data "suggestions") (VArray []))] in
  match variant with
  | Regular => Some (VObject common)
  | Premium context =>
      let learning_mode :=
        if truthy (field data "mode") then Some (field data "mode")
        else get context "learning_mode" in
      match learning_mode with
      | None => None
      | Some mode =>
          Some (VObject (common ++ [("next_steps", field data "next_steps");
                                    ("learning_mode", mode)]))
      end
  end.

(** The [try] statement of the loop: the effects of one frame and the
    locals after it. *)
Definition on_frame (loc : Local) (payload : string) : list Effect * Local :=
  match JSON_parse payload with
  | None => ([ConsoleError parseLabel SyntaxError], loc)
  | Some data =>
      match get data "type" with
      | None => ([ConsoleError parseLabel TypeError], loc)
      | Some type =>
          if isString type "chunk" && truthy (field data "content") then
            match ToString (field data "content") with
            | None => ([ConsoleError parseLabel TypeError], loc)
            | Some text =>
                ([Dispatch (SET_STREAMING_MESSAGE (field data "content"))],
                 {| fullResponse := (fullResponse loc ++ text)%string;
                    ticks := ticks loc |})
            end
          else if isString type "complete" then
            let loc' := {| fullResponse := fullResponse loc;
                           ticks := S (S (ticks loc)) |} in
            match aiMessage loc data with
            | None =>
                ([Dispatch (SET_TYPING false);
                  ConsoleError parseLabel TypeError], loc')
            | Some ai =>
                ([Dispatch (SET_TYPING false);
                  Dispatch (ADD_MESSAGE ai);
                  Dispatch CLEAR_STREAMING_MESSAGE], loc')
            end
          else if isString type "error" then
            ([Dispatch (SET_TYPING false);
              Dispatch (SET_ERROR (field data "message"));
              Dispatch CLEAR_STREAMING_MESSAGE], loc)
          else ([], loc)
      end
  end.

(** The outer [catch]. *)
Definition on_failure (e : Error) : list Effect :=
  [Dispatch (SET_TYPING false);
   Dispatch CLEAR_STREAMING_MESSAGE;
   Dispatch (SET_ERROR (VString (error_message e)))].

(** What comes before the request: the user message is added, the typing
    indicator set, the streaming text cleared. *)
Definition prologue : list Effect :=
  [Dispatch (ADD_MESSAGE userMessage);
   Dispatch (SET_TYPING true);
   Dispatch CLEAR_STREAMING_MESSAGE;
   Fetch endpoint request].

(** The body shared by [sendMessage] and [sendPremiumMessage]. *)
Definition consume (net : FetchResult) : list Effect * Completion :=
  match net with
  | FetchRejects e => (prologue ++ on_failure e, Throws e)
  | Response false _ => (prologue ++ on_failure notOk, Throws notOk)
  | Response true body =>
      let (effects, loc) :=
        read_loop on_frame {| fullResponse := EmptyString; ticks := 2 |}
                  (reads body) in
      match ending body with
      | Done => (prologue ++ effects, Returns (fullResponse loc))
      | ReadRejects e => (prologue ++ effects ++ on_failure e, Throws e)
      end
  end.

End Call.

(** [actions.sendMessage(sessionId, message)]. *)
Definition sendMessage (sessionId message : val) (clock : nat -> Z)
  (net : FetchResult) : list Effect * Completion :=
  consume Regular sessionId message clock net.

(** [actions.sendPremiumMessage(sessionId, message, context = {})]: an
    [undefined] context is replaced by the empty object. *)
Definition sendPremiumMessage (sessionId message context : val)
  (clock : nat -> Z) (net : FetchResult) : list Effect * Completion :=
  let context' := match context with VUndefined => VObject [] | _ => context end in
  consume (Premium context') sessionId message clock net.

(** The actions a trace dispatches, in order. *)
Fixpoint dispatched (effects : list Effect) : list Action :=
  match effects with
  | [] => []
  | Dispatch a :: rest => a :: dispatched rest
  | _ :: rest => dispatched rest
  end.

(** The UI state once the store has applied the actions of a trace. *)
Definition ui_after (state : AppState) (effects : list Effect) : option AppState :=
  replay state (dispatched effects).

End Consumer.
End AppContext.

(* ===================================================================== *)
(** ** [components/ChatInterface.js]: submitting a message *)
(* ===================================================================== *)

Module ChatInterface.
Import AppContext.

Section Component.

Context {R : Runtime}.

(** The [useState] cells of the component that submitting reads. *)
Record Local : Type := {
  inputMessage : string;
  learningMode : string;
  useAdvancedStreaming : bool;
  useContextAwareness : bool
}.

(** How an awaited call settles. *)
Inductive Settled : Type := Resolves | Rejects.

(** What [handleSendMessage] does, in order. *)
Inductive Step : Type :=
| PreventDefault
| SetInputMessage (text : string)
| SendContextAwareMessage (message : string) (conversationContext : list val)
| SendPremiumMessage (sessionId : val) (message : string) (context : val)
| SendMessage (sessionId : val) (message : string)
| LogError (label : string).

(** The condition of the early [return] of [handleSendMessage]. *)
Definition rejects (state : AppState) (local : Local) : bool :=
  negb (nonEmpty (trim (inputMessage local)))
  || negb (truthy (currentSession state))
  || isTyping state.

(** [state.messages.map(msg => ({sender, message, timestamp}))]; [None]
    is the TypeError on a [null] or [undefined] entry. *)
Fixpoint conversationContext (msgs : list val) : option (list val) :=
  match msgs with
  | [] => Some []
  | msg :: rest =>
      match get msg "sender", conversationContext rest with
      | Some sender, Some rest' =>
          Some (VObject [("sender", sender);
                         ("message", field msg "message");
                         ("timestamp", field msg "timestamp")] :: rest')
      | _, _ => None
      end
  end.

(** The [catch] of [handleSendMessage]: fall back to [sendMessage]. *)
Definition fallback (state : AppState) (message : string) (second : Settled)
  : list Step :=
  LogError "Error sending premium message:"
  :: SendMessage (field (currentSession state) "id") message
  :: match second with
     | Resolves => []
     | Rejects => [LogError "Error sending fallback message:"]
     end.

(** [handleSendMessage(e)], given how the call it awaits in the [try]
    settles ([first]) and how the fallback call does ([second]). *)
Definition handleSendMessage (state : AppState) (local : Local)
  (first second : Settled) : list Step :=
  PreventDefault ::
  if rejects state local then []
  else
    let message := trim (inputMessage local) in
    SetInputMessage EmptyString ::
    if useContextAwareness local then
      match conversationContext (messages state) with
      | None => fallback state message second
      | Some context =>
          SendContextAwareMessage message context
          :: match first with
             | Resolves => []
             | Rejects => fallback state message second
             end
      end
    else if useAdvancedStreaming local then []
    else
      SendPremiumMessage
        (field (currentSession state) "id") message
        (VObject [("learning_mode", VString (learningMode local));
                  ("user_preferences",
                   VObject [("difficulty_preference", VString "adaptive");
                            ("interaction_style", VString "collaborative")])])
      :: match first with
         | Resolves => []
         | Rejects => fallback state message second
         end.

(** The chat form is rendered only when a session is current; without
    one the component returns the welcome card. *)
Definition formRendered (state : AppState) : bool :=
  truthy (currentSession state).

(** [disabled] of the submit button. *)
Definition submitDisabled (state : AppState) (local : Local) : bool :=
  negb (nonEmpty (trim (inputMessage local))) || isTyping state.

(** [disabled] of the text input. *)
Definition inputDisabled (state : AppState) : bool := isTyping state.

(** A step that opens a request for a reply. *)
Definition opensRequest (s : Step) : bool :=
  match s with
  | SendContextAwareMessage _ _ | SendPremiumMessage _ _ _ | SendMessage _ _ => true
  | _ => false
  end.

End Component.
End ChatInterface.

(* ===================================================================== *)
(** ** [components/AdvancedStreamingInterface.js] *)
(* ===================================================================== *)

Module AdvancedStreamingInterface.

Section Component.

Context {R : Runtime}.

(** The [useState] cells the stream writes. *)
Record State : Type := {
  isStreaming : bool;
  streamContent : string;
  streamMetadata : val;
  canInterrupt : val;
  factChecks : val
}.

(** The state updates the stream requests. *)
Inductive Update : Type :=
| SetIsStreaming (b : bool)
| SetStreamContent (text : string)
| AppendStreamContent (content : val)
| SetFactChecks (checks : val)
| SetStreamMetadata (metadata : val)
| MergeStreamMetadata (metadata : val)
| SetCanInterrupt (flag : val).

(** One update applied; [None] is the TypeError of [prev + content]. *)
Definition apply (state : State) (u : Update) : option State :=
  match u with
  | SetIsStreaming b =>
      Some {| isStreaming := b; streamContent := streamContent state;
              streamMetadata := streamMetadata state;
              canInterrupt := canInterrupt state;
              factChecks := factChecks state |}
  | SetStreamContent text =>
      Some {| isStreaming := isStreaming state; streamContent := text;
              streamMetadata := streamMetadata state;
              canInterrupt := canInterrupt state;
              factChecks := factChecks state |}
  | AppendStreamContent content =>
      match ToString content with
      | None => None
      | Some text =>
          Some {| isStreaming := isStreaming state;
                  streamContent := (streamContent state ++ text)%string;
                  streamMetadata := streamMetadata state;
                  canInterrupt := canInterrupt state;
                  factChecks := factChecks state |}
      end
  | SetFactChecks checks =>
      Some {| isStreaming := isStreaming state;
              streamContent := streamContent state;
              streamMetadata := streamMetadata state;
              canInterrupt := canInterrupt state;
              factChecks := checks |}
  | SetStreamMetadata metadata =>
      Some {| isStreaming := isStreaming state;
              streamContent := streamContent state;
              streamMetadata := metadata;
              canInterrupt := canInterrupt state;
              factChecks := factChecks state |}
  | MergeStreamMetadata metadata =>
      Some {| isStreaming := isStreaming state;
              streamContent := streamContent state;
              streamMetadata := spread2 (streamMetadata state) metadata;
              canInterrupt := canInterrupt state;
              factChecks := factChecks state |}
  | SetCanInterrupt flag =>
      Some {| isStreaming := isStreaming state;
              streamContent := streamContent state;
              streamMetadata := streamMetadata state;
              canInterrupt := flag;
              factChecks := factChecks state |}
  end.

(** What the stream does, in order. *)
Inductive Effect : Type :=
| SetState (u : Update)
| Fetch (url : string) (body : val)
| OnStreamComplete (result : val)
| ConsoleError (label : string)
| ConsoleLog (label : string).

Section Call.

(** The props, and the state cells the closure has captured. *)
Variables message sessionId streamingConfig : val.
Variable onStreamComplete : bool.
Variable user : val.
Variable readingSpeed : string.
Variable capturedContent : string.

(** [handleStreamChunk(data)]; [None] is the TypeError of [data.type] on
    [null]. *)
Definition handleStreamChunk (data : val) : option (list Effect) :=
  match get data "type" with
  | None => None
  | Some type =>
      let metadata := field data "metadata" in
      if isString type "chunk" then
        Some [SetState (AppendStreamContent (field data "content"));
              SetState (MergeStreamMetadata metadata);
              SetState (SetCanInterrupt
                     (or_else (getOpt metadata "can_interrupt") (VBool false)))]
      else if isString type "complete" then
        Some ([SetState (SetIsStreaming false);
               SetState (MergeStreamMetadata metadata)]
              ++ (if truthy (getOpt metadata "fact_checks")
                  then [SetState (SetFactChecks (field metadata "fact_checks"))]
                  else [])
              ++ (if onStreamComplete
                  then [OnStreamComplete
                          (VObject [("content", VString capturedContent);
                                    ("metadata", metadata)])]
                  else []))
      else if isString type "error" then
        Some [ConsoleError "Stream error:"; SetState (SetIsStreaming false)]
      else Some [ConsoleLog "Unknown stream data type:"]
  end.

(** The [try] statement of the loop. *)
Definition on_frame (loc : unit) (payload : string) : list Effect * unit :=
  match JSON_parse payload with
  | None => ([ConsoleError "Error parsing stream data:"], loc)
  | Some data =>
      match handleStreamChunk data with
      | None => ([ConsoleError "Error parsing stream data:"], loc)
      | Some effects => (effects, loc)
      end
  end.

(** The outer [catch]: the error is logged, not thrown again. *)
Definition on_failure : list Effect :=
  [ConsoleError "Streaming error:"; SetState (SetIsStreaming false)].

Definition prologue : list Effect :=
  [SetState (SetIsStreaming true);
   SetState (SetStreamContent EmptyString);
   SetState (SetFactChecks (VArray []));
   SetState (SetStreamMetadata (VObject []))].

(** The body of the request that creates the streaming session; [None]
    is the TypeError of [state.user.id] or of a [null] configuration. *)
Definition sessionRequest : option val :=
  let config := match streamingConfig with
                | VUndefined => VObject []
                | c => c
                end in
  match get user "id", get config "multiBranch" with
  | Some id, Some multiBranch =>
      let factCheck :=
        match field config "factCheck" with
        | VBool false => false
        | _ => true
        end in
      Some (VObject
              [("session_id", sessionId);
               ("user_id", id);
               ("preferences",
                spread2
                  (VObject [("reading_speed", VString readingSpeed);
                            ("interrupt_enabled", VBool true);
                            ("multi_branch_mode",
                             or_else multiBranch (VBool false));
                            ("fact_check_enabled", VBool factCheck)])
                  config)])
  | _, _ => None
  end.

Definition chatRequest : val :=
  VObject [("message", message);
           ("context",
            VObject [("streaming_preferences",
                      VObject [("reading_speed", VString readingSpeed);
                               ("adaptive_pacing", VBool true)])])].

(** [startAdvancedStream()], given how the two requests settle. *)
Definition startAdvancedStream (session chat : FetchResult) : list Effect :=
  prologue ++
  match sessionRequest with
  | None => on_failure
  | Some body1 =>
      Fetch (REACT_APP_BACKEND_URL ++ "/api/streaming/session")%string body1 ::
      match session with
      | FetchRejects _ | Response false _ => on_failure
      | Response true _ =>
          match ToString sessionId with
          | None => on_failure
          | Some id =>
              Fetch (REACT_APP_BACKEND_URL ++ "/api/streaming/" ++ id ++ "/chat")%string
                    chatRequest ::
              match chat with
              | FetchRejects _ | Response false _ => on_failure
              | Response true body =>
                  fst (read_loop on_frame tt (reads body))
                  ++ match ending body with
                     | Done => []
                     | ReadRejects _ => on_failure
                     end
              end
          end
      end
  end.

End Call.
End Component.
End AdvancedStreamingInterface.

(* ===================================================================== *)
(** ** A concrete runtime, to run the model on concrete streams *)
(* ===================================================================== *)

(** Numbers are the integers between -(2^53 - 1) and 2^53 - 1, strings
    hold code units below 256. [JSON_parse] follows the JSON grammar;
    on a text with a number or a code unit outside of this range it
    answers [None], and it is not used on such a text below. *)
Module Engine.

Definition jsValue : Type := value Z.

Definition quote : ascii := "034"%char.
Definition backslash : ascii := "092"%char.

Definition isJsonSpace (c : ascii) : bool :=
  let n := nat_of_ascii c in
  Nat.eqb n 32 || Nat.eqb n 9 || Nat.eqb n 10 || Nat.eqb n 13.

Fixpoint skipSpace (s : string) : string :=
  match s with
  | String c r => if isJsonSpace c then skipSpace r else s
  | EmptyString => EmptyString
  end.

Definition digit (c : ascii) : option Z :=
  let n := nat_of_ascii c in
  if Nat.leb 48 n && Nat.leb n 57 then Some (Z.of_nat (n - 48)) else None.

Definition hexDigit (c : ascii) : option nat :=
  let n := nat_of_ascii c in
  if Nat.leb 48 n && Nat.leb n 57 then Some (n - 48)
  else if Nat.leb 65 n && Nat.leb n 70 then Some (n - 55)
  else if Nat.leb 97 n && Nat.leb n 102 then Some (n - 87)
  else None.

(** The character an escape letter stands for. *)
Definition escaped (c : ascii) : option ascii :=
  let n := nat_of_ascii c in
  if Nat.eqb n 34 then Some quote
  else if Nat.eqb n 92 then Some backslash
  else if Nat.eqb n 47 then Some "/"%char
  else if Nat.eqb n 98 then Some "008"%char
  else if Nat.eqb n 102 then Some "012"%char
  else if Nat.eqb n 110 then Some "010"%char
  else if Nat.eqb n 114 then Some "013"%char
  else if Nat.eqb n 116 then Some "009"%char
  else None.

(** The characters of a string literal after its opening quote, and the
    text after its closing quote. *)
Fixpoint stringBody (s : string) : option (string * string) :=
  match s with
  | EmptyString => None
  | String c r =>
      if Ascii.eqb c quote then Some (EmptyString, r)
      else if Ascii.eqb c backslash then
        match r with
        | String "u" (String h1 (String h2 (String h3 (String h4 r')))) =>
            match hexDigit h1, hexDigit h2, hexDigit h3, hexDigit h4,
                  stringBody r' with
            | Some 0, Some 0, Some a, Some b, Some (body, rest) =>
                Some (String (ascii_of_nat (16 * a + b)) body, rest)
            | _, _, _, _, _ => None
            end
        | String e r' =>
            match escaped e, stringBody r' with
            | Some c', Some (body, rest) => Some (String c' body, rest)
            | _, _ => None
            end
        | EmptyString => None
        end
      else if Nat.ltb (nat_of_ascii c) 32 then None
      else
        match stringBody r with
        | Some (body, rest) => Some (String c body, rest)
        | None => None
        end
  end.

Fixpoint digits (acc : Z) (s : string) : Z * string :=
  match s with
  | String c r =>
      match digit c with
      | Some d => digits (10 * acc + d) r
      | None => (acc, s)
      end
  | EmptyString => (acc, s)
  end.

(** An integer literal: [0], or a non-zero digit and more digits; a
    fraction or an exponent after it is outside of the range. *)
Definition natural (s : string) : option (Z * string) :=
  match s with
  | String c r =>
      match digit c with
      | None => None
      | Some d =>
          let (n, rest) := if Z.eqb d 0 then (0%Z, r) else digits d r in
          match rest with
          | String "." _ | String "e" _ | String "E" _ => None
          | _ => if Z.leb n 9007199254740991 then Some (n, rest) else None
          end
      end
  | EmptyString => None
  end.

Definition keyword (word : string) (v : jsValue) (s : string)
  : option (jsValue * string) :=
  if String.prefix word s then Some (v, slice (String.length word) s) else None.

Fixpoint parseValue (fuel : nat) (s : string) {struct fuel}
  : option (jsValue * string) :=
  match fuel with
  | O => None
  | S fuel' =>
      match skipSpace s with
      | EmptyString => None
      | String c r =>
          if Ascii.eqb c quote then
            match stringBody r with
            | Some (body, rest) => Some (VString body, rest)
            | None => None
            end
          else if Ascii.eqb c "["%char then
            match skipSpace r with
            | String "]" rest => Some (VArray [], rest)
            | _ =>
                match parseElements fuel' r with
                | Some (l, rest) => Some (VArray l, rest)
                | None => None
                end
            end
          else if Ascii.eqb c "{"%char then
            match skipSpace r with
            | String "}" rest => Some (VObject [], rest)
            | _ =>
                match parseMembers fuel' r with
                | Some (l, rest) =>
                    Some (VObject (fold_left
                                     (fun o kv => assign (fst kv) (snd kv) o)
                                     l []), rest)
                | None => None
                end
            end
          else if Ascii.eqb c "t"%char then keyword "true" (VBool true) (String c r)
          else if Ascii.eqb c "f"%char then keyword "false" (VBool false) (String c r)
          else if Ascii.eqb c "n"%char then keyword "null" VNull (String c r)
          else if Ascii.eqb c "-"%char then
            match natural r with
            | Some (n, rest) => Some (VNumber (- n)%Z, rest)
            | None => None
            end
          else
            match natural (String c r) with
            | Some (n, rest) => Some (VNumber n, rest)
            | None => None
            end
      end
  end
with parseElements (fuel : nat) (s : string) {struct fuel}
  : option (list jsValue * string) :=
  match fuel with
  | O => None
  | S fuel' =>
      match parseValue fuel' s with
      | None => None
      | Some (v, rest) =>
          match skipSpace rest with
          | String "]" rest' => Some ([v], rest')
          | String "," rest' =>
              match parseElements fuel' rest' with
              | Some (l, rest'') => Some (v :: l, rest'')
              | None => None
              end
          | _ => None
          end
      end
  end
with parseMembers (fuel : nat) (s : string) {struct fuel}
  : option (list (string * jsValue) * string) :=
  match fuel with
  | O => None
  | S fuel' =>
      match skipSpace s with
      | String c r =>
          if Ascii.eqb c quote then
            match stringBody r with
            | None => None
            | Some (key, rest) =>
                match skipSpace rest with
                | String ":" rest' =>
                    match parseValue fuel' rest' with
                    | None => None
                    | Some (v, rest'') =>
                        match skipSpace rest'' with
                        | String "}" rest3 => Some ([(key, v)], rest3)
                        | String "," rest3 =>
                            match parseMembers fuel' rest3 with
                            | Some (l, rest4) => Some ((key, v) :: l, rest4)
                            | None => None
                            end
                        | _ => None
                        end
                    end
                | _ => None
                end
            end
          else None
      | EmptyString => None
      end
  end.

(** [JSON.parse(text)]. *)
Definition parse (text : string) : option jsValue :=
  match parseValue (2 * String.length text + 2) text with
  | Some (v, rest) =>
      match skipSpace rest with
      | EmptyString => Some v
      | String _ _ => None
      end
  | None => None
  end.

(** A string literal for [s]: quotes and backslashes are escaped. *)
Fixpoint literalBody (s : string) : string :=
  match s with
  | EmptyString => String quote EmptyString
  | String c r =>
      if Ascii.eqb c quote || Ascii.eqb c backslash
      then String backslash (String c (literalBody r))
      else String c (literalBody r)
  end.

Definition literal (s : string) : string := String quote (literalBody s).

(** The JSON text of an object whose fields are all strings, as the
    relay writes its frames. *)
Fixpoint membersText (fields : list (string * string)) : string :=
  match fields with
  | [] => EmptyString
  | [(k, v)] => (literal k ++ ":" ++ literal v)%string
  | (k, v) :: rest => (literal k ++ ":" ++ literal v ++ "," ++ membersText rest)%string
  end.

Definition objectText (fields : list (string * string)) : string :=
  ("{" ++ membersText fields ++ "}")%string.

(** Two digits, three digits, and so on, with leading zeros. *)
Fixpoint padded (width : nat) (n : Z) : string :=
  match width with
  | O => EmptyString
  | S w => (padded w (n / 10) ++ ofZ (n mod 10))%string
  end.

(** [new Date(ms).toISOString()], through the days since the epoch and
    the civil calendar. *)
Definition isoString (ms : Z) : string :=
  let day := (ms / 86400000)%Z in
  let rest := (ms mod 86400000)%Z in
  let z := (day + 719468)%Z in
  let era := (z / 146097)%Z in
  let doe := (z - era * 146097)%Z in
  let yoe := ((doe - doe / 1460 + doe / 36524 - doe / 146096) / 365)%Z in
  let doy := (doe - (365 * yoe + yoe / 4 - yoe / 100))%Z in
  let mp := ((5 * doy + 2) / 153)%Z in
  let d := (doy - (153 * mp + 2) / 5 + 1)%Z in
  let m := (if Z.ltb mp 10 then mp + 3 else mp - 9)%Z in
  let y := (yoe + era * 400 + (if Z.leb m 2 then 1 else 0))%Z in
  let year :=
    if Z.leb 0 y && Z.leb y 9999 then padded 4 y
    else if Z.ltb y 0 then ("-" ++ padded 6 (- y))%string
    else ("+" ++ padded 6 y)%string in
  (year ++ "-" ++ padded 2 m ++ "-" ++ padded 2 d ++ "T"
   ++ padded 2 (rest / 3600000) ++ ":"
   ++ padded 2 (rest / 60000 mod 60) ++ ":"
   ++ padded 2 (rest / 1000 mod 60) ++ "."
   ++ padded 3 (rest mod 1000) ++ "Z")%string.

Definition runtime : Runtime := {|
  number := Z;
  Number_truthy := fun n => negb (Z.eqb n 0);
  Number_toString := ofZ;
  JSON_parse := parse;
  toISOString := isoString;
  REACT_APP_BACKEND_URL := "http://localhost:8001"
|}.

End Engine.

(* ===================================================================== *)
(** ** Frames on the wire *)
(* ===================================================================== *)

Module Frames.
Import AppContext.

Section Frames.

Context {R : Runtime}.

(** [payload] is the one-line JSON text of a chunk frame whose content is
    the string [content]. *)
Definition chunkFrame (payload content : string) : Prop :=
  oneLine payload = true /\
  exists data, JSON_parse payload = Some data /\
               field data "type" = VString "chunk" /\
               field data "content" = VString content.

(** [payload] is the one-line JSON text of the complete frame [data]. *)
Definition completeFrame (payload : string) (data : val) : Prop :=
  oneLine payload = true /\ JSON_parse payload = Some data /\
  field data "type" = VString "complete".

(** [payload] is the one-line JSON text of the error frame [data]. *)
Definition errorFrame (payload : string) (data : val) : Prop :=
  oneLine payload = true /\ JSON_parse payload = Some data /\
  field data "type" = VString "error".


(** [payload] is the one-line JSON text of a chunk frame whose content is
    missing, [null] or the empty string. *)
Definition emptyChunkFrame (payload : string) : Prop :=
  oneLine payload = true /\
  exists data, JSON_parse payload = Some data /\
               field data "type" = VString "chunk" /\
               (field data "content" = VUndefined \/
                field data "content" = VNull \/
                field data "content" = VString EmptyString).

(** A message of the chat history shows the text [text]. *)
Definition shows (msg : val) (text : string) : Prop :=
  field msg "message" = VString text.

(** The text [text] is visible in the UI state: as the streaming text or
    as the text of a message of the history. *)
Definition visible (state : AppState) (text : string) : Prop :=
  streamingMessage state = text \/ exists msg, In msg (messages state) /\ shows msg text.

(** The actions that name the streaming text. *)
Definition touchesStreaming (action : Action) : bool :=
  match action with
  | SET_STREAMING_MESSAGE _ | CLEAR_STREAMING_MESSAGE => true
  | _ => false
  end.

(** Some action of the list clears the streaming text. *)
Fixpoint clears (actions : list Action) : bool :=
  match actions with
  | [] => false
  | CLEAR_STREAMING_MESSAGE :: _ => true
  | _ :: rest => clears rest
  end.

(** The actions dispatched since the most recent
    [CLEAR_STREAMING_MESSAGE], after [earlier] ones. *)
Fixpoint sinceClear (earlier actions : list Action) : list Action :=
  match actions with
  | [] => earlier
  | CLEAR_STREAMING_MESSAGE :: rest => sinceClear [] rest
  | a :: rest => sinceClear (earlier ++ [a]) rest
  end.

(** The payloads of the [SET_STREAMING_MESSAGE] actions of a list, as
    text, in dispatch order. *)
Fixpoint payloads (actions : list Action) : list string :=
  match actions with
  | [] => []
  | SET_STREAMING_MESSAGE payload :: rest =>
      match ToString payload with
      | Some text => text :: payloads rest
      | None => payloads rest
      end
  | _ :: rest => payloads rest
  end.

(** The state [s] with the fields the consumers write replaced. *)
Definition withChat (s : AppState) (msgs : list val) (typing : bool)
  (streaming : string) (err : val) (loading : bool) : AppState :=
  {| user := user s; currentSession := currentSession s;
     sessions := sessions s;
     messages := msgs;
     isLoading := loading;
     error := err;
     isTyping := typing;
     streamingMessage := streaming;
     darkMode := darkMode s; progress := progress s;
     gamificationData := gamificationData s;
     achievements := achievements s; streak := streak s;
     rewards := rewards s |}.

(** What a consumer does on chunk frames with the given contents. *)
Fixpoint chunkEffects (contents : list string) : list Effect :=
  match contents with
  | [] => []
  | c :: rest =>
      (if nonEmpty c then [Dispatch (SET_STREAMING_MESSAGE (VString c))] else [])
      ++ chunkEffects rest
  end.

(** What a consumer does on a complete frame that yields the mentor
    message [ai]. *)
Definition completeEffects (ai : val) : list Effect :=
  [Dispatch (SET_TYPING false);
   Dispatch (ADD_MESSAGE ai);
   Dispatch CLEAR_STREAMING_MESSAGE].

(** What a consumer does on the error frame [data]. *)
Definition errorEffects (data : val) : list Effect :=
  [Dispatch (SET_TYPING false);
   Dispatch (SET_ERROR (field data "message"));
   Dispatch CLEAR_STREAMING_MESSAGE].

(** The effects keep the store in the shape the consumers leave it in:
    messages are only added, and the other fields the consumers write
    are the only ones that change. *)
Definition extendsChat (effects : list Effect) : Prop :=
  forall (s : AppState) msgs typing streaming err loading,
  exists later typing' streaming' err' loading',
    ui_after (withChat s msgs typing streaming err loading) effects =
    Some (withChat s (msgs ++ later) typing' streaming' err' loading').

End Frames.
End Frames.
Import AppContext Frames.

(* ===================================================================== *)
(** ** Concrete streams *)
(* ===================================================================== *)

Module Scenario.
Import AppContext Engine.

Definition clock (k : nat) : Z := (1700000000000 + Z.of_nat k)%Z.

Definition sessionId : jsValue := VString "s1".
Definition question : jsValue := VString "Explain recursion".

Definition chunk (content : string) : string :=
  objectText [("type", "chunk"); ("content", content)].

Definition complete : string :=
  ("{" ++ literal "type" ++ ":" ++ literal "complete" ++ ","
       ++ literal "suggestions" ++ ":[" ++ literal "Try an example" ++ "]}")%string.

Definition failure : string :=
  objectText [("type", "error"); ("message", "upstream failed")].

(** The parsed complete and error frames. *)
Definition completeData : jsValue :=
  VObject [("type", VString "complete");
           ("suggestions", VArray [VString "Try an example"])].

Definition failureData : jsValue :=
  VObject [("type", VString "error"); ("message", VString "upstream failed")].

(** The chunks of the reply, with their contents. *)
Definition reply : list (string * string) :=
  [(chunk "Recur", "Recur"); (chunk "sion is", "sion is"); (chunk "...", "...")].

(** A state with a current session and an empty history. *)
Definition fresh : AppState (R := runtime) :=
  {| user := VObject [("id", VString "u1")];
     currentSession := VObject [("id", VString "s1")];
     sessions := []; messages := [];
     isLoading := false; error := VNull; isTyping := false;
     streamingMessage := EmptyString; darkMode := true;
     progress := VObject []; gamificationData := VNull;
     achievements := VArray []; streak := VNull; rewards := VNull |}.

(** A response body that delivers the given reads and ends. *)
Definition delivered (values : list string) : FetchResult :=
  Response true {| reads := values; ending := Done |}.

(** One chunk frame and the complete frame, each in a read of its own. *)
Definition wholeFrame : list string :=
  [frameLine (chunk "Hi"); frameLine complete].

(** The same text, the chunk frame cut after its first eleven
    characters, in the middle of the key of its type. *)
Definition cutFrame : list string :=
  [substring 0 11 (frameLine (chunk "Hi"));
   slice 11 (frameLine (chunk "Hi"));
   frameLine complete].

(** The user message of the call. *)
Definition asked : jsValue :=
  VObject [("id", VString "1700000000000");
           ("session_id", VString "s1");
           ("message", VString "Explain recursion");
           ("sender", VString "user");
           ("timestamp", VString "2023-11-14T22:13:20.001Z")].

(** A mentor message with the given text, built at the given reading of
    the clock. *)
Definition answered (id stamp text : string) : jsValue :=
  VObject [("id", VString id);
           ("session_id", VString "s1");
           ("message", VString text);
           ("sender", VString "mentor");
           ("timestamp", VString stamp);
           ("suggestions", VArray [VString "Try an example"])].

(** The chunk frame with content [Hi] followed by the error frame, each
    in a read of its own. *)
Definition startedThenFailed : list string :=
  [frameLine (chunk "Hi"); frameLine failure].

(** A complete frame, then a chunk frame with content [late]. *)
Definition chunkAfterComplete : list string :=
  [frameLine complete; frameLine (chunk "late")].

(** A complete frame, a chunk frame with content [late], and a second
    complete frame. *)
Definition completeTwice : list string :=
  [frameLine complete; frameLine (chunk "late"); frameLine complete].

(** A chunk frame without content. *)
Definition bare : string := objectText [("type", "chunk")].


(** The store while a reply is streaming in. *)
Definition streaming : AppState (R := runtime) :=
  withChat fresh [asked] true "Recur" VNull false.

(** The cells of the chat component with a question typed in. *)
Definition typed : ChatInterface.Local :=
  {| ChatInterface.inputMessage := " What is a monad? ";
     ChatInterface.learningMode := "adaptive";
     ChatInterface.useAdvancedStreaming := false;
     ChatInterface.useContextAwareness := true |}.

(** A network failure. *)
Definition offline : Error := {| error_message := "Failed to fetch" |}.

(** Actions dispatched one after the other. *)
Definition dispatches : list (Action (R := runtime)) :=
  [SET_STREAMING_MESSAGE (VString "a");
   CLEAR_STREAMING_MESSAGE;
   SET_STREAMING_MESSAGE (VString "b");
   SET_TYPING true;
   SET_STREAMING_MESSAGE (VString "c")].

(** The locals of a call before the first read. *)
Definition atStart : Local := {| fullResponse := EmptyString; ticks := 2 |}.

End Scenario.

(* ===================================================================== *)
(** ** Readings of a sequence of actions *)
(* ===================================================================== *)

Module Views.
Import AppContext.

Section Views.

Context {R : Runtime}.

(** Some action of the list is [SET_MESSAGES]. *)
Fixpoint setsMessages (actions : list Action) : bool :=
  match actions with
  | [] => false
  | SET_MESSAGES _ :: _ => true
  | _ :: rest => setsMessages rest
  end.

(** The payloads of the [ADD_MESSAGE] actions, in dispatch order. *)
Fixpoint addedMessages (actions : list Action) : list val :=
  match actions with
  | [] => []
  | ADD_MESSAGE payload :: rest => payload :: addedMessages rest
  | _ :: rest => addedMessages rest
  end.

(** Some action of the list is [SET_SESSIONS]. *)
Fixpoint setsSessions (actions : list Action) : bool :=
  match actions with
  | [] => false
  | SET_SESSIONS _ :: _ => true
  | _ :: rest => setsSessions rest
  end.

(** The payloads of the [ADD_SESSION] actions, in dispatch order. *)
Fixpoint addedSessions (actions : list Action) : list val :=
  match actions with
  | [] => []
  | ADD_SESSION payload :: rest => payload :: addedSessions rest
  | _ :: rest => addedSessions rest
  end.

(** How many [TOGGLE_DARK_MODE] actions the list holds. *)
Fixpoint toggles (actions : list Action) : nat :=
  match actions with
  | [] => 0
  | TOGGLE_DARK_MODE :: rest => S (toggles rest)
  | _ :: rest => toggles rest
  end.

Definition isArray (v : val) : bool :=
  match v with VArray _ => true | _ => false end.

(** What [SET_GAMIFICATION_DATA] stores in [achievements]. *)
Definition achievementsOf (payload : val) : val :=
  or_else (getOpt (getOpt payload "achievements") "details") (VArray []).

(** An action on which the reducer cannot throw, as long as
    [achievements] is an array: a streaming payload that has a string
    form, gamification data whose achievement details are an array or
    missing. *)
Definition wellFormed (action : Action) : bool :=
  match action with
  | SET_STREAMING_MESSAGE payload =>
      match ToString payload with Some _ => true | None => false end
  | SET_GAMIFICATION_DATA payload => isArray (achievementsOf payload)
  | _ => true
  end.

(** The payloads of the [ADD_ACHIEVEMENT] actions, in dispatch order. *)
Fixpoint addedAchievements (actions : list Action) : list val :=
  match actions with
  | [] => []
  | ADD_ACHIEVEMENT payload :: rest => payload :: addedAchievements rest
  | _ :: rest => addedAchievements rest
  end.

(** Some action of the list is [SET_GAMIFICATION_DATA]. *)
Fixpoint setsGamification (actions : list Action) : bool :=
  match actions with
  | [] => false
  | SET_GAMIFICATION_DATA _ :: _ => true
  | _ :: rest => setsGamification rest
  end.

End Views.
End Views.

(* ===================================================================== *)
(** ** Readings of a chat call *)
(* ===================================================================== *)

Module Shapes.
Import AppContext Frames.

Section Shapes.

Context {R : Runtime}.

(** A message of the mentor. *)
Definition isMentor (msg : val) : Prop := field msg "sender" = VString "mentor".

(** The effects leave the store in the shape the consumers leave it in,
    and the messages they add are messages of the mentor. *)
Definition appendsReplies (effects : list Effect) : Prop :=
  forall (s : AppState) msgs typing streaming err loading,
  exists later typing' streaming' err' loading',
    Forall isMentor later /\
    ui_after (withChat s msgs typing streaming err loading) effects =
    Some (withChat s (msgs ++ later) typing' streaming' err' loading').

(** The lines of a response that carry the marker, in order of arrival,
    each read split on its own. *)
Definition markedLines (values : list string) : list string :=
  filter (fun line => startsWith line "data: ")
         (flat_map (split LF) values).

(** Two actions are the same, but for the message an [ADD_MESSAGE]
    carries. *)
Definition sameAction (a b : Action) : Prop :=
  match a, b with
  | ADD_MESSAGE _, ADD_MESSAGE _ => True
  | _, _ => a = b
  end.

End Shapes.
End Shapes.

(* ===================================================================== *)
(** ** Readings of a submit *)
(* ===================================================================== *)

Module Submits.
Import AppContext ChatInterface.

Section Submits.

Context {R : Runtime}.

(** The message a step sends, when it opens a request. *)
Definition carried (s : Step) : option string :=
  match s with
  | SendContextAwareMessage message _
  | SendPremiumMessage _ message _
  | SendMessage _ message => Some message
  | _ => None
  end.

(** The steps of a submit that open a request. *)
Definition requests (steps : list Step) : list Step :=
  filter opensRequest steps.

(** The step is the fallback call to [sendMessage]. *)
Definition isFallback (s : Step) : bool :=
  match s with SendMessage _ _ => true | _ => false end.

End Submits.
End Submits.

(* ===================================================================== *)
(** ** Readings of an advanced stream *)
(* ===================================================================== *)

Module AdvancedViews.
Import AdvancedStreamingInterface.

Section AdvancedViews.

Context {R : Runtime}.

(** The state updates a stream requests, in order. *)
Fixpoint updates (effects : list Effect) : list Update :=
  match effects with
  | [] => []
  | SetState u :: rest => u :: updates rest
  | _ :: rest => updates rest
  end.

(** The updates applied one after the other; [None] when one throws. *)
Fixpoint applyAll (state : State) (us : list Update) : option State :=
  match us with
  | [] => Some state
  | u :: rest =>
      match apply state u with
      | Some state' => applyAll state' rest
      | None => None
      end
  end.

(** The state of the component once React has applied the updates of a
    stream. *)
Definition after (state : State) (effects : list Effect) : option State :=
  applyAll state (updates effects).

(** What [onStreamComplete] is called with, call by call. *)
Fixpoint completions (effects : list Effect) : list val :=
  match effects with
  | [] => []
  | OnStreamComplete result :: rest => result :: completions rest
  | _ :: rest => completions rest
  end.

End AdvancedViews.
End AdvancedViews.

(* ===================================================================== *)
(** ** Concrete inputs of the further properties *)
(* ===================================================================== *)

Module Cases.
Import AppContext Engine Scenario.

(** The mentor message of a reply [Hi] completed at the fourth reading
    of the clock. *)
Definition greeted : val (R := runtime) :=
  answered "1700000000003" "2023-11-14T22:13:20.003Z" "Hi".

(** The actions of one turn of the chat. *)
Definition turn : list (Action (R := runtime)) :=
  [@ADD_MESSAGE runtime asked;
   SET_TYPING true;
   CLEAR_STREAMING_MESSAGE;
   SET_STREAMING_MESSAGE (VString "Hi");
   SET_TYPING false;
   @ADD_MESSAGE runtime greeted;
   CLEAR_STREAMING_MESSAGE].

Definition algebra : val (R := runtime) := VObject [("id", VString "s2")].
Definition logic : val (R := runtime) := VObject [("id", VString "s3")].

(** Two sessions created one after the other. *)
Definition created : list (Action (R := runtime)) :=
  [@ADD_SESSION runtime algebra; @SET_CURRENT_SESSION runtime algebra; SET_MESSAGES [];
   @ADD_SESSION runtime logic; @SET_CURRENT_SESSION runtime logic; SET_MESSAGES []].

(** The theme toggled three times, with other actions in between. *)
Definition flipped : list (Action (R := runtime)) :=
  [TOGGLE_DARK_MODE; SET_TYPING true; TOGGLE_DARK_MODE; SET_LOADING false;
   TOGGLE_DARK_MODE].

(** The initial state with the two sessions, the later one current. *)
Definition twoSessions : AppState (R := runtime) :=
  {| user := VNull;
     currentSession := logic;
     sessions := [logic; algebra]; messages := [];
     isLoading := false; error := VNull; isTyping := false;
     streamingMessage := EmptyString; darkMode := true;
     progress := VObject []; gamificationData := VNull;
     achievements := VArray []; streak := VNull; rewards := VNull |}.

(** The initial state in the light theme, with the typing indicator
    on. *)
Definition light : AppState (R := runtime) :=
  {| user := VNull;
     currentSession := VNull;
     sessions := []; messages := [];
     isLoading := false; error := VNull; isTyping := true;
     streamingMessage := EmptyString; darkMode := false;
     progress := VObject []; gamificationData := VNull;
     achievements := VArray []; streak := VNull; rewards := VNull |}.

Definition firstChat : val (R := runtime) := VObject [("id", VString "first_chat")].
Definition streak3 : val (R := runtime) := VObject [("id", VString "streak_3")].

(** Two achievements earned, with a streak update in between. *)
Definition earned : list (Action (R := runtime)) :=
  [@ADD_ACHIEVEMENT runtime firstChat;
   @UPDATE_STREAK runtime (VObject [("current", VString "3")]);
   @ADD_ACHIEVEMENT runtime streak3].

(** Gamification data whose achievement details are an object. *)
Definition keyed : val (R := runtime) :=
  VObject [("achievements", VObject [("details", VObject [])])].

(** Reads with text between the frames, and the same frames alone. *)
Definition noisy : list string :=
  [(": ping" ++ String LF (frameLine (chunk "Hi")))%string;
   ("event: done" ++ String LF (frameLine complete))%string].

(** The props and cells of an advanced stream. *)
Definition learner : val (R := runtime) := VObject [("id", VString "u1")].

Definition sessionBody : val (R := runtime) :=
  VObject [("session_id", VString "s1");
           ("user_id", VString "u1");
           ("preferences",
            VObject [("reading_speed", VString "normal");
                     ("interrupt_enabled", VBool true);
                     ("multi_branch_mode", VBool false);
                     ("fact_check_enabled", VBool true)])].

Definition idle : AdvancedStreamingInterface.State (R := runtime) :=
  {| AdvancedStreamingInterface.isStreaming := false;
     AdvancedStreamingInterface.streamContent := "earlier";
     AdvancedStreamingInterface.streamMetadata := VObject [];
     AdvancedStreamingInterface.canInterrupt := VBool false;
     AdvancedStreamingInterface.factChecks := VArray [] |}.

(** An empty response body. *)
Definition empty : Body := {| reads := []; ending := Done |}.

(** The parsed chunk frame without content. *)
Definition bareData : val (R := runtime) := VObject [("type", VString "chunk")].

(** The cells after one chunk and a read that rejects. *)
Definition stopped : AdvancedStreamingInterface.State (R := runtime) :=
  {| AdvancedStreamingInterface.isStreaming := false;
     AdvancedStreamingInterface.streamContent := "Hi";
     AdvancedStreamingInterface.streamMetadata := VObject [];
     AdvancedStreamingInterface.canInterrupt := VBool false;
     AdvancedStreamingInterface.factChecks := VArray [] |}.

(** A body that delivers one chunk frame, and whose next read rejects. *)
Definition broken : Body :=
  {| reads := [frameLine (chunk "Hi")]; ending := ReadRejects offline |}.

End Cases.

(* ===================================================================== *)
(** ** [context/AppContext.js]: the request actions *)
(* ===================================================================== *)

(** The actions of the provider that await the api service or [fetch]
    and report to the store. Each is given how the call it awaits
    settles, and answers the steps it takes, in order, and how it settles
    itself. Console output is left out. *)
Module Requests.
Import AppContext.

Section Requests.

Context {R : Runtime}.

(** How an awaited call settles. The api service rejects with the
    [Error] its response interceptor builds. *)
Inductive Outcome (A : Type) : Type :=
| Resolved (data : A)
| Rejected (e : Error).

Arguments Resolved {A} data.
Arguments Rejected {A} e.

(** A step of an action or of a handler: an action dispatched to the
    store, a call to the api service (by the name of its method) or to
    [fetch] (by its URL), a [useState] cell of the calling component
    set. *)
Inductive Step : Type :=
| Store (action : Action)
| Call (target : string) (data : val)
| SetCell (cell : string) (v : val).

Definition Run (A : Type) : Type := (list Step * Outcome A)%type.

(** The actions a run dispatches, in order. *)
Fixpoint stored (steps : list Step) : list Action :=
  match steps with
  | [] => []
  | Store a :: rest => a :: stored rest
  | _ :: rest => stored rest
  end.

(** The calls a run makes, in order. *)
Fixpoint calls (steps : list Step) : list (string * val) :=
  match steps with
  | [] => []
  | Call target data :: rest => (target, data) :: calls rest
  | _ :: rest => calls rest
  end.

(** The store once it has applied the actions of a run. *)
Definition store_after (state : AppState) (steps : list Step) : option AppState :=
  replay state (stored steps).

(** [actions.setError(error.message)]. *)
Definition reported (e : Error) : Step :=
  Store (SET_ERROR (VString (error_message e))).

(** [actions.createUser(userData)]. *)
Definition createUser (userData : val) (net : Outcome val) : Run val :=
  ([Store (SET_LOADING true); Call "createUser" userData]
     ++ match net with
        | Resolved user => [Store (SET_USER user)]
        | Rejected e => [reported e]
        end
     ++ [Store (SET_LOADING false)],
   net).

(** [actions.getUserByEmail(email)]. *)
Definition getUserByEmail (email : val) (net : Outcome val) : Run val :=
  (Call "getUserByEmail" email ::
   match net with
   | Resolved _ => []
   | Rejected e => [reported e]
   end,
   net).

(** [actions.createSession(sessionData)]. *)
Definition createSession (sessionData : val) (net : Outcome val) : Run val :=
  ([Store (SET_LOADING true); Call "createSession" sessionData]
     ++ match net with
        | Resolved session =>
            [Store (ADD_SESSION session);
             Store (SET_CURRENT_SESSION session);
             Store (SET_MESSAGES [])]
        | Rejected e => [reported e]
        end
     ++ [Store (SET_LOADING false)],
   net).

(** [actions.loadSessionMessages(sessionId)]; the data of the response
    is taken to be an array, as the payload of [SET_MESSAGES] is. *)
Definition loadSessionMessages (sessionId : val) (net : Outcome (list val))
  : Run (list val) :=
  (Call "getSessionMessages" sessionId ::
   match net with
   | Resolved messages => [Store (SET_MESSAGES messages)]
   | Rejected e => [reported e]
   end,
   net).

(** The URL of a gamification endpoint of the user with the given id. *)
Definition gamification (id path : string) : string :=
  (REACT_APP_BACKEND_URL ++ "/api/users/" ++ id ++ "/gamification" ++ path)%string.

(** The [catch] of the gamification actions: the error is logged and
    reported with a fixed text, and the action resolves with
    [undefined]. *)
Definition failed (text : string) : Step := Store (SET_ERROR (VString text)).

(** [actions.loadGamificationData(userId)]; [net] is how [fetch] and
    then [response.json()] settle. *)
Definition loadGamificationData (userId : val) (net : Outcome val) : Run val :=
  match ToString userId with
  | None => ([failed "Failed to load gamification data"], Resolved VUndefined)
  | Some id =>
      match net with
      | Resolved data =>
          ([Call (gamification id EmptyString) VUndefined;
            Store (SET_GAMIFICATION_DATA data)],
           Resolved data)
      | Rejected _ =>
          ([Call (gamification id EmptyString) VUndefined;
            failed "Failed to load gamification data"],
           Resolved VUndefined)
      end
  end.

(** [if (v) actions.update(v)]. *)
Definition whenTruthy (v : val) (update : val -> Action) : list Step :=
  if truthy v then [Store (update v)] else [].

(** [if (result.new_achievements) result.new_achievements.forEach(...)],
    on a [result] that is not [null]: the steps taken, and whether the
    statement ends without a TypeError. A truthy value that is not an
    array has no callable [forEach]. *)
Definition newAchievements (result : val) : list Step * bool :=
  let added := field result "new_achievements" in
  if truthy added then
    match added with
    | VArray l => (map (fun a => Store (ADD_ACHIEVEMENT a)) l, true)
    | _ => ([], false)
    end
  else ([], true).

(** [actions.recordSessionCompletion(userId, sessionId, context = {})]. *)
Definition recordSessionCompletion (userId sessionId context : val)
  (net : Outcome val) : Run val :=
  let text := "Failed to record session completion" in
  let context' := match context with VUndefined => VObject [] | _ => context end in
  match ToString userId with
  | None => ([failed text], Resolved VUndefined)
  | Some id =>
      let call :=
        Call (gamification id "/session-complete")
             (VObject [("session_id", sessionId); ("context", context')]) in
      match net with
      | Rejected _ => ([call; failed text], Resolved VUndefined)
      | Resolved result =>
          if nullish result then ([call; failed text], Resolved VUndefined)
          else
            let updates :=
              whenTruthy (field result "streak") UPDATE_STREAK
                ++ whenTruthy (field result "points") UPDATE_REWARDS
                ++ fst (newAchievements result) in
            if snd (newAchievements result)
            then (call :: updates, Resolved result)
            else (call :: updates ++ [failed text], Resolved VUndefined)
      end
  end.

(** [actions.recordConceptMastery(userId, concept, subject,
    difficulty = 'medium')]. *)
Definition recordConceptMastery (userId concept subject difficulty : val)
  (net : Outcome val) : Run val :=
  let text := "Failed to record concept mastery" in
  let difficulty' :=
    match difficulty with VUndefined => VString "medium" | _ => difficulty end in
  match ToString userId with
  | None => ([failed text], Resolved VUndefined)
  | Some id =>
      let call :=
        Call (gamification id "/concept-mastered")
             (VObject [("concept", concept); ("subject", subject);
                       ("difficulty", difficulty');
                       ("first_time", VBool true)]) in
      match net with
      | Rejected _ => ([call; failed text], Resolved VUndefined)
      | Resolved result =>
          if nullish result then ([call; failed text], Resolved VUndefined)
          else
            let updates :=
              whenTruthy (field result "points") UPDATE_REWARDS
                ++ fst (newAchievements result) in
            if snd (newAchievements result)
            then (call :: updates, Resolved result)
            else (call :: updates ++ [failed text], Resolved VUndefined)
      end
  end.

End Requests.

Arguments Resolved {A} data.
Arguments Rejected {A} e.

End Requests.

(* ===================================================================== *)
(** ** [components/Sidebar.js]: the handlers *)
(* ===================================================================== *)

Module Sidebar.
Import AppContext Requests.

Section Component.

Context {R : Runtime}.

(** How [handleSessionSelect] settles: it does not catch. *)
Inductive Selected : Type :=
| Loaded
| LoadRejects (e : Error)
| NoSession.

(** [handleSessionSelect(session)]; [NoSession] is the TypeError of
    [session.id] on [null] or [undefined], thrown once the current
    session has been set. *)
Definition handleSessionSelect (session : val) (net : Outcome (list val))
  : list Step * Selected :=
  match get session "id" with
  | None => ([Store (SET_CURRENT_SESSION session)], NoSession)
  | Some id =>
      (Store (SET_CURRENT_SESSION session) :: fst (loadSessionMessages id net),
       match net with
       | Resolved _ => Loaded
       | Rejected e => LoadRejects e
       end)
  end.

(** [handleLogout()], given the answer to [window.confirm]. The removal
    of the saved user from the local storage is left out. *)
Definition handleLogout (confirmed : bool) : list Step :=
  if confirmed then
    [Store (SET_USER VNull);
     Store (SET_CURRENT_SESSION VNull);
     Store (SET_SESSIONS []);
     Store (SET_MESSAGES [])]
  else [].

End Component.
End Sidebar.

(* ===================================================================== *)
(** ** [components/ChatInterface.js]: the welcome card *)
(* ===================================================================== *)

Module Welcome.
Import AppContext Requests.

Section Component.

Context {R : Runtime}.

Definition sessionData (state : AppState) (subject : string)
  (objectives : list string) : val :=
  VObject [("user_id", field (user state) "id");
           ("subject", VString subject);
           ("difficulty_level", VString "intermediate");
           ("learning_objectives", VArray (map VString objectives))].

(** The [onClick] handlers of the quick-start buttons, which differ in
    the subject and the objectives of the session they ask for. *)
Definition quickStart (state : AppState) (subject : string)
  (objectives : list string) (net : Outcome val) : list Step :=
  if negb (truthy (getOpt (user state) "id")) then
    [Store (SET_ERROR (VString "User not found. Please refresh and try again."));
     Store (SET_LOADING false)]
  else
    Store (SET_LOADING true)
      :: fst (createSession (sessionData state subject objectives) net)
      ++ match net with
         | Resolved _ => []
         | Rejected _ =>
             [Store (SET_ERROR
                       (VString "Failed to create session. Please try again."))]
         end
      ++ [Store (SET_LOADING false)].

(** The button [Start Learning]. *)
Definition startLearning (state : AppState) (net : Outcome val) : list Step :=
  quickStart state "General Learning"
    ["Explore new topics"; "Interactive learning"; "Skill development"] net.

(** The button of a subject. *)
Definition startSubject (state : AppState) (subject : string)
  (net : Outcome val) : list Step :=
  quickStart state subject
    [("Learn " ++ subject)%string; "Practice skills"; "Build understanding"] net.

(** [disabled] of the quick-start buttons. *)
Definition startDisabled (state : AppState) : bool := isLoading state.

End Component.
End Welcome.

(* ===================================================================== *)
(** ** Readings of the request actions and of the handlers *)
(* ===================================================================== *)

Module Mixes.
Import AppContext Requests.

Section Mixes.

Context {R : Runtime}.

(** The state [s] once the session [session] has been added and made
    current. *)
Definition withSession (s : AppState) (session : val) : AppState :=
  {| user := user s;
     currentSession := session;
     sessions := session :: sessions s;
     messages := messages s;
     isLoading := isLoading s; error := error s;
     isTyping := isTyping s; streamingMessage := streamingMessage s;
     darkMode := darkMode s; progress := progress s;
     gamificationData := gamificationData s;
     achievements := achievements s; streak := streak s;
     rewards := rewards s |}.

(** The state [s] with another current session. *)
Definition withCurrent (s : AppState) (session : val) : AppState :=
  {| user := user s;
     currentSession := session;
     sessions := sessions s;
     messages := messages s;
     isLoading := isLoading s; error := error s;
     isTyping := isTyping s; streamingMessage := streamingMessage s;
     darkMode := darkMode s; progress := progress s;
     gamificationData := gamificationData s;
     achievements := achievements s; streak := streak s;
     rewards := rewards s |}.

(** The state [s] after a logout. *)
Definition loggedOut (s : AppState) : AppState :=
  {| user := VNull;
     currentSession := VNull;
     sessions := [];
     messages := [];
     isLoading := isLoading s; error := error s;
     isTyping := isTyping s; streamingMessage := streamingMessage s;
     darkMode := darkMode s; progress := progress s;
     gamificationData := gamificationData s;
     achievements := achievements s; streak := streak s;
     rewards := rewards s |}.

(** What the store is sent when a run takes place while a chat call is
    in flight: the call has taken the steps [before], the run takes
    place, and the call goes on with the steps [later]. *)
Definition interleaved (before : list Effect) (run : list Step)
  (later : list Effect) : list Action :=
  dispatched before ++ stored run ++ dispatched later.

(** The last action of a list is [SET_ERROR] with the given text. *)
Definition endsWithError (actions : list Action) (text : string) : Prop :=
  exists earlier, actions = earlier ++ [SET_ERROR (VString text)].

(** No action of the list is [SET_ERROR]. *)
Fixpoint reportsNothing (actions : list Action) : bool :=
  match actions with
  | [] => true
  | SET_ERROR _ :: _ => false
  | _ :: rest => reportsNothing rest
  end.

End Mixes.
End Mixes.

(* ===================================================================== *)
(** ** [components/ModelManagement.js]: the context-aware chat *)
(* ===================================================================== *)

(** [ContextAwareChatInterface], as [ChatInterface] uses it: with the
    ids of the current session and of the user as props, and with an
    [onMessage] callback that adds the reply to the history. *)
Module ContextAwareChatInterface.
Import AppContext Requests.

Section Component.

Context {R : Runtime}.

(** The props, the [adaptiveSettings] cell as the closure of the render
    has captured it, and the clock. *)
Variables sessionId userId : val.
Variable adaptiveSettings : val.
Variable clock : nat -> Z.

(** The callback [onMessage] of [ChatInterface]; [None] is the
    TypeError of [response.response] on [null] or [undefined]. *)
Definition onMessage (response : val) : option Step :=
  match get response "response" with
  | None => None
  | Some text =>
      Some (Store (ADD_MESSAGE
              (VObject [("id", VString (ofZ (clock 0)));
                        ("message", text);
                        ("sender", VString "mentor");
                        ("timestamp", VString (toISOString (clock 1)));
                        ("learning_mode", VString "context_aware");
                        ("suggestions", field response "suggested_actions");
                        ("next_steps", field response "next_steps");
                        ("metadata", field response "metadata")])))
  end.

(** [analyzeContext(message, conversationContext)], given how the
    request settles, with the data of the response; a failure is logged
    and not thrown again. *)
Definition analyzeContext (message : string) (conversationContext : list val)
  (net : Outcome val) : list Step :=
  if negb (nonEmpty (trim message)) then []
  else
    [SetCell "isAnalyzing" (VBool true);
     Call "/context/analyze"
          (VObject [("user_id", userId);
                    ("session_id", sessionId);
                    ("message", VString message);
                    ("conversation_context", VArray conversationContext)])]
    ++ match net with
       | Rejected _ => []
       | Resolved data =>
           if nullish data then []
           else
             SetCell "contextState" (field data "context_state") ::
             let recommendations := field data "recommendations" in
             if nullish recommendations then []
             else
               [SetCell "adaptiveSettings"
                  (VObject
                     [("responseComplexity",
                       field recommendations "response_complexity");
                      ("preferredPace", field recommendations "preferred_pace");
                      ("explanationDepth",
                       field recommendations "explanation_depth");
                      ("interactionStyle",
                       field recommendations "interaction_style")]);
                SetCell "learningStyleAdaptations" (field data "adaptations");
                SetCell "emotionalInsights" (field data "emotional_insights")]
       end
    ++ [SetCell "isAnalyzing" (VBool false)].

(** How [sendContextAwareMessage] settles. *)
Inductive Sent : Type :=
| Answers (data : val)
| Fails (e : Error)
| FailsTypeError.

(** The request for the reply. *)
Definition chatRequest (message : string) : val :=
  VObject [("session_id", sessionId);
           ("user_message", VString message);
           ("context",
            VObject [("learning_mode", VString "adaptive");
                     ("enable_context_awareness", VBool true);
                     ("adaptive_settings", adaptiveSettings)])].

(** [sendContextAwareMessage(message, conversationContext)], given how
    the two requests settle; an error is logged and thrown again. *)
Definition sendContextAwareMessage (message : string)
  (conversationContext : list val) (analysis chat : Outcome val)
  : list Step * Sent :=
  let asked :=
    analyzeContext message conversationContext analysis
      ++ [Call "/chat/premium-context" (chatRequest message)] in
  match chat with
  | Rejected e => (asked, Fails e)
  | Resolved data =>
      match onMessage data with
      | None => (asked, FailsTypeError)
      | Some step => (asked ++ [step], Answers data)
      end
  end.

(** How [handleSendMessage], which awaits the call, sees it settle. *)
Definition settled (s : Sent) : ChatInterface.Settled :=
  match s with
  | Answers _ => ChatInterface.Resolves
  | Fails _ | FailsTypeError => ChatInterface.Rejects
  end.

End Component.
End ContextAwareChatInterface.

(* ===================================================================== *)
(** ** Regular expressions *)
(* ===================================================================== *)

(** The part of the regular expressions of JavaScript that the
    validation of the onboarding form uses: character classes,
    sequences and repetitions, matched by derivatives. *)
Module Regex.

Inductive regex : Type :=
| Never
| Empty
| Class (p : ascii -> bool)
| Seq (a b : regex)
| Alt (a b : regex)
| Star (a : regex).

(** [a+]. *)
Definition Plus (a : regex) : regex := Seq a (Star a).

(** Any code unit. *)
Definition any : regex := Class (fun _ => true).

(** The pattern matches the empty string. *)
Fixpoint nullable (r : regex) : bool :=
  match r with
  | Never => false
  | Empty => true
  | Class _ => false
  | Seq a b => nullable a && nullable b
  | Alt a b => nullable a || nullable b
  | Star _ => true
  end.

(** What is left of the pattern once [c] has been read. *)
Fixpoint derive (c : ascii) (r : regex) : regex :=
  match r with
  | Never => Never
  | Empty => Never
  | Class p => if p c then Empty else Never
  | Seq a b =>
      if nullable a then Alt (Seq (derive c a) b) (derive c b)
      else Seq (derive c a) b
  | Alt a b => Alt (derive c a) (derive c b)
  | Star a => Seq (derive c a) (Star a)
  end.

(** The whole of [s] matches the pattern. *)
Fixpoint matches (r : regex) (s : string) : bool :=
  match s with
  | EmptyString => nullable r
  | String c rest => matches (derive c r) rest
  end.

(** [r.test(s)] for a pattern without anchors and without flags: some
    part of [s] matches. *)
Definition test (r : regex) (s : string) : bool :=
  matches (Seq (Star any) (Seq r (Star any))) s.

(** The strings of a pattern. *)
Inductive denotes : regex -> string -> Prop :=
| denotes_empty : denotes Empty EmptyString
| denotes_class (p : ascii -> bool) (c : ascii) :
    p c = true -> denotes (Class p) (String c EmptyString)
| denotes_seq (a b : regex) (s t : string) :
    denotes a s -> denotes b t -> denotes (Seq a b) (s ++ t)
| denotes_left (a b : regex) (s : string) :
    denotes a s -> denotes (Alt a b) s
| denotes_right (a b : regex) (s : string) :
    denotes b s -> denotes (Alt a b) s
| denotes_none (a : regex) : denotes (Star a) EmptyString
| denotes_more (a : regex) (s t : string) :
    denotes a s -> denotes (Star a) t -> denotes (Star a) (s ++ t).

End Regex.

(* ===================================================================== *)
(** ** [components/UserOnboarding.js]: the onboarding form *)
(* ===================================================================== *)

Module UserOnboarding.
Import AppContext Requests.

Section Component.

Context {R : Runtime}.

Record FormData : Type := {
  name : string;
  email : string;
  learningGoals : list string;
  subjects : list string;
  experience : string
}.

(** The [useState] cells of the form. *)
Record Cells : Type := {
  step : nat;
  formData : FormData;
  errors : list (string * string)
}.


Definition goalChoices : list string :=
  ["Gain new skills for career advancement";
   "Prepare for exams or certifications";
   "Explore personal interests";
   "Academic study support";
   "Professional development";
   "Creative learning"].

Definition subjectChoices : list string :=
  ["Programming & Software Development";
   "Mathematics & Statistics";
   "Science & Engineering";
   "Business & Finance";
   "Language Learning";
   "Arts & Design";
   "History & Literature";
   "Personal Development"].

Definition levels : list string := ["beginner"; "intermediate"; "advanced"].

(** [\S]. *)
Definition nonSpace : Regex.regex :=
  Regex.Class (fun c => negb (isWhiteSpace c)).

(** The pattern of an email, [\S+@\S+\.\S+]. *)
Definition emailPattern : Regex.regex :=
  Regex.Seq (Regex.Plus nonSpace)
    (Regex.Seq (Regex.Class (Ascii.eqb "@"))
       (Regex.Seq (Regex.Plus nonSpace)
          (Regex.Seq (Regex.Class (Ascii.eqb "."))
             (Regex.Plus nonSpace)))).

(** The [newErrors] of [validateStep(currentStep)], in the order the
    keys are written. *)
Definition newErrors (currentStep : nat) (data : FormData)
  : list (string * string) :=
  (if Nat.eqb currentStep 1 then
     (if nonEmpty (trim (name data)) then []
      else [("name", "Name is required")])
     ++ (if negb (nonEmpty (trim (email data)))
         then [("email", "Email is required")]
         else if negb (Regex.test emailPattern (email data))
              then [("email", "Invalid email format")]
              else [])
   else [])
  ++ (if Nat.eqb currentStep 2 then
        if Nat.eqb (length (learningGoals data)) 0
        then [("learningGoals", "Select at least one goal")]
        else []
      else [])
  ++ (if Nat.eqb currentStep 3 then
        if Nat.eqb (length (subjects data)) 0
        then [("subjects", "Select at least one subject")]
        else []
      else []).

(** What [validateStep(currentStep)] returns, having set the errors to
    [newErrors]: whether they have no key. *)
Definition validateStep (currentStep : nat) (data : FormData) : bool :=
  match newErrors currentStep data with
  | [] => true
  | _ :: _ => false
  end.

(** [toggleArrayItem(array, item)]. *)
Definition toggleArrayItem (array : list string) (item : string) : list string :=
  if existsb (String.eqb item) array
  then filter (fun i => negb (String.eqb i item)) array
  else array ++ [item].

(** [errors.key] is truthy. *)
Fixpoint hasError (key : string) (shown : list (string * string)) : bool :=
  match shown with
  | [] => false
  | (k, text) :: rest =>
      if String.eqb key k then nonEmpty text else hasError key rest
  end.

(** [handleNext()]. *)
Definition handleNext (cells : Cells) : Cells :=
  {| step := if validateStep (step cells) (formData cells)
             then S (step cells) else step cells;
     formData := formData cells;
     errors := newErrors (step cells) (formData cells) |}.

(** A step of [handleComplete]: a step of an action of the provider,
    the errors of the form set, a timer awaited. *)
Inductive Step : Type :=
| Run (step : Requests.Step)
| SetErrors (errors : list (string * string))
| Wait (ms : Z).

(** How the requests of one round settle. *)
Record Attempt : Type := {
  creation : Outcome val;
  verification : Outcome val;
  opening : Outcome val
}.

Definition maxRetries : nat := 3.

Definition userData (data : FormData) : val :=
  VObject [("name", VString (name data));
           ("email", VString (email data));
           ("learning_preferences",
            VObject [("goals", VArray (map VString (learningGoals data)));
                     ("subjects", VArray (map VString (subjects data)));
                     ("experience_level", VString (experience data))])].

Definition sessionData (data : FormData) (verifiedUser : val) : val :=
  VObject [("user_id", field verifiedUser "id");
           ("subject",
            match subjects data with
            | subject :: _ => VString subject
            | [] => VUndefined
            end);
           ("difficulty_level", VString (experience data));
           ("learning_objectives",
            VArray (map VString (firstn 3 (learningGoals data))))].

(** The [try] block of one round: its steps, and the error that reaches
    the [catch], if any. *)
Definition attemptOnce (data : FormData) (net : Attempt)
  : list Step * option Error :=
  let started :=
    [Run (Store (SET_LOADING true)); SetErrors []]
      ++ map Run (fst (createUser (userData data) (creation net))) in
  match creation net with
  | Rejected e => (started, Some e)
  | Resolved createdUser =>
      let verifiedUser :=
        match verification net with
        | Resolved verified => verified
        | Rejected _ => createdUser
        end in
      let verified :=
        started ++ [Wait 1000]
          ++ map Run (fst (getUserByEmail (VString (email data))
                             (verification net))) in
      if Nat.ltb 0 (length (subjects data)) && truthy (getOpt verifiedUser "id")
      then
        (verified
           ++ map Run (fst (createSession (sessionData data verifiedUser)
                              (opening net))),
         match opening net with
         | Resolved _ => None
         | Rejected e => Some e
         end)
      else (verified, None)
  end.

(** The general error shown after the last round. *)
Definition general (e : Error) : list (string * string) :=
  [("general",
    ("Setup failed after 3 attempts. Error: "
       ++ (if nonEmpty (error_message e) then error_message e
           else "Please check your connection and try again."))%string)].

(** The [finally] block of a round. *)
Definition finally (capturedLoading : bool) (attempt : nat) : list Step :=
  if Nat.leb maxRetries attempt || negb capturedLoading
  then [Run (Store (SET_LOADING false))]
  else [].

(** [while (attempt < maxRetries)]; [nets attempt] is how the requests
    settle in the round that starts after [attempt] failures, and
    [capturedLoading] is [state.isLoading] as the closure has captured
    it. Each round that goes on makes [attempt] grow, so that
    [maxRetries] rounds are enough. *)
Fixpoint rounds (fuel attempt : nat) (capturedLoading : bool)
  (data : FormData) (nets : nat -> Attempt) : list Step :=
  match fuel with
  | O => []
  | S fuel' =>
      if Nat.ltb attempt maxRetries then
        match attemptOnce data (nets attempt) with
        | (steps, None) => steps ++ finally capturedLoading attempt
        | (steps, Some e) =>
            steps
              ++ (if Nat.leb maxRetries (S attempt)
                  then [SetErrors (general e)]
                  else [Wait (1000 * Z.of_nat (S attempt))])
              ++ finally capturedLoading (S attempt)
              ++ rounds fuel' (S attempt) capturedLoading data nets
        end
      else []
  end.

(** [handleComplete()]. *)
Definition handleComplete (cells : Cells) (capturedLoading : bool)
  (nets : nat -> Attempt) : list Step :=
  SetErrors (newErrors (step cells) (formData cells)) ::
  if validateStep (step cells) (formData cells)
  then rounds maxRetries 0 capturedLoading (formData cells) nets
  else [].

(** The actions a run of [handleComplete] dispatches, in order. *)
Fixpoint dispatches (steps : list Step) : list Action :=
  match steps with
  | [] => []
  | Run (Store a) :: rest => a :: dispatches rest
  | _ :: rest => dispatches rest
  end.

(** How many times a run calls [createUser]. *)
Fixpoint creations (steps : list Step) : nat :=
  match steps with
  | [] => 0
  | Run (Call target _) :: rest =>
      (if String.eqb target "createUser" then 1 else 0) + creations rest
  | _ :: rest => creations rest
  end.

(** The errors of the form once the run has set them for the last
    time. *)
Fixpoint lastErrors (shown : list (string * string)) (steps : list Step)
  : list (string * string) :=
  match steps with
  | [] => shown
  | SetErrors errors :: rest => lastErrors errors rest
  | _ :: rest => lastErrors shown rest
  end.

(** What the user can do to the form. *)
Inductive Event : Type :=
| ChangeName (text : string)
| ChangeEmail (text : string)
| ToggleGoal (goal : string)
| ToggleSubject (subject : string)
| ChooseExperience (level : string)
| Next
| Back
| Dismiss
| Complete (capturedLoading : bool) (nets : nat -> Attempt).

Definition withData (cells : Cells) (data : FormData) : Cells :=
  {| step := step cells; formData := data; errors := errors cells |}.

(** The cells after an event, each event being handled by the closure of
    the render that shows the cells. An event whose element is not
    rendered, or is disabled, changes nothing: the inputs of a step are
    rendered at this step only, [Next] below the fourth step and
    [Complete Setup] from the fourth step on, [Back] is disabled at the
    first step, and the error card, with [Dismiss] and [Retry Setup],
    shows when there is a general error. The two buttons that call
    [handleComplete] are disabled while the store is loading; this is
    left out, so that the event is allowed here whenever it is in the
    form. *)
Definition on (cells : Cells) (event : Event) : Cells :=
  let data := formData cells in
  match event with
  | ChangeName text =>
      if Nat.eqb (step cells) 1 then
        withData cells
          {| name := text; email := email data;
             learningGoals := learningGoals data; subjects := subjects data;
             experience := experience data |}
      else cells
  | ChangeEmail text =>
      if Nat.eqb (step cells) 1 then
        withData cells
          {| name := name data; email := text;
             learningGoals := learningGoals data; subjects := subjects data;
             experience := experience data |}
      else cells
  | ToggleGoal goal =>
      if Nat.eqb (step cells) 2 && existsb (String.eqb goal) goalChoices then
        withData cells
          {| name := name data; email := email data;
             learningGoals := toggleArrayItem (learningGoals data) goal;
             subjects := subjects data;
             experience := experience data |}
      else cells
  | ToggleSubject subject =>
      if Nat.eqb (step cells) 3 && existsb (String.eqb subject) subjectChoices then
        withData cells
          {| name := name data; email := email data;
             learningGoals := learningGoals data;
             subjects := toggleArrayItem (subjects data) subject;
             experience := experience data |}
      else cells
  | ChooseExperience level =>
      if Nat.eqb (step cells) 4 && existsb (String.eqb level) levels then
        withData cells
          {| name := name data; email := email data;
             learningGoals := learningGoals data; subjects := subjects data;
             experience := level |}
      else cells
  | Next => if Nat.ltb (step cells) 4 then handleNext cells else cells
  | Back =>
      if Nat.eqb (step cells) 1 then cells
      else {| step := Nat.max 1 (step cells - 1);
              formData := data; errors := errors cells |}
  | Dismiss =>
      if hasError "general" (errors cells)
      then {| step := step cells; formData := data; errors := [] |}
      else cells
  | Complete capturedLoading nets =>
      if negb (Nat.ltb (step cells) 4) || hasError "general" (errors cells)
      then {| step := step cells; formData := data;
              errors := lastErrors (errors cells)
                          (handleComplete cells capturedLoading nets) |}
      else cells
  end.

(** The cells after a sequence of events. *)
Definition after (cells : Cells) (events : list Event) : Cells :=
  fold_left on events cells.

(** The timers a run awaits, in order. *)
Fixpoint waits (steps : list Step) : list Z :=
  match steps with
  | [] => []
  | Wait ms :: rest => ms :: waits rest
  | _ :: rest => waits rest
  end.

(** How many rounds fail in a row, from the round that starts after
    [attempt] failures, among the next [n]. *)
Fixpoint failures (n attempt : nat) (data : FormData) (nets : nat -> Attempt)
  : nat :=
  match n with
  | O => 0
  | S n' =>
      match snd (attemptOnce data (nets attempt)) with
      | Some _ => S (failures n' (S attempt) data nets)
      | None => 0
      end
  end.

(** No white space occurs in [s]. *)
Fixpoint spaceless (s : string) : bool :=
  match s with
  | EmptyString => true
  | String c r => negb (isWhiteSpace c) && spaceless r
  end.

(** A text without white space that is not empty. *)
Definition solid (s : string) : Prop :=
  nonEmpty s = true /\ spaceless s = true.

End Component.
End UserOnboarding.

(* ===================================================================== *)
(** ** Readings of the onboarding form *)
(* ===================================================================== *)

Module Forms.
Import AppContext UserOnboarding.

Section Forms.

Context {R : Runtime}.

(** The text holds, somewhere, a part [u@v.w] whose three parts are not
    empty and hold no white space. *)
Definition holdsAddress (s : string) : Prop :=
  exists before u v w behind,
    s = (before ++ u ++ "@" ++ v ++ "." ++ w ++ behind)%string /\
    solid u /\ solid v /\ solid w.


(** An action on which the reducer cannot throw. *)
Definition safe (action : Action) : bool :=
  match action with
  | SET_STREAMING_MESSAGE _ | ADD_ACHIEVEMENT _ => false
  | _ => true
  end.

(** The loading flag after a sequence of actions. *)
Fixpoint loadingAfter (actions : list Action) (loading : bool) : bool :=
  match actions with
  | [] => loading
  | SET_LOADING payload :: rest => loadingAfter rest payload
  | SET_ERROR _ :: rest => loadingAfter rest false
  | _ :: rest => loadingAfter rest loading
  end.

(** The error after a sequence of actions. *)
Fixpoint errorAfter (actions : list Action) (err : val) : val :=
  match actions with
  | [] => err
  | SET_ERROR payload :: rest => errorAfter rest payload
  | _ :: rest => errorAfter rest err
  end.

(** The user after a sequence of actions. *)
Fixpoint userAfter (actions : list Action) (who : val) : val :=
  match actions with
  | [] => who
  | SET_USER payload :: rest => userAfter rest payload
  | _ :: rest => userAfter rest who
  end.

End Forms.
End Forms.

(* ===================================================================== *)
(** ** Concrete inputs of the properties of the requests and the form *)
(* ===================================================================== *)

Module Trials.
Import AppContext Engine Scenario Cases Requests UserOnboarding.

(** The mentor message of the reply of the scenario. *)
Definition recursion : val (R := runtime) :=
  answered "1700000000003" "2023-11-14T22:13:20.003Z" "Recursion is...".

(** The store with one question in its history. *)
Definition talking : AppState (R := runtime) :=
  withChat fresh [asked] false EmptyString VNull false.

(** The conversation context of this history. *)
Definition askedContext : list (val (R := runtime)) :=
  [VObject [("sender", VString "user");
            ("message", VString "Explain recursion");
            ("timestamp", VString "2023-11-14T22:13:20.001Z")]].

(** The data of a response of the context-aware chat. *)
Definition explained : val (R := runtime) :=
  VObject [("response", VString "A monad is a monoid.")].

(** The result of a session completion that brings two achievements. *)
Definition completed : val (R := runtime) :=
  VObject [("points", VObject [("total", VString "10")]);
           ("new_achievements", VArray [firstChat; streak3])].

(** The form at its last step. *)
Definition filled : Cells :=
  {| step := 4;
     formData := {| name := "Ada";
                    email := "ada@example.org";
                    learningGoals := ["Explore personal interests"];
                    subjects := ["Mathematics & Statistics"];
                    experience := "beginner" |};
     errors := [] |}.

(** Rounds in which the creation of the user rejects. *)
Definition unreachable (attempt : nat) : Attempt (R := runtime) :=
  {| creation := Rejected offline;
     verification := Rejected offline;
     opening := Rejected offline |}.

(** Rounds in which the verification by email alone rejects. *)
Definition unverified (attempt : nat) : Attempt (R := runtime) :=
  {| creation := Resolved learner;
     verification := Rejected offline;
     opening := Resolved algebra |}.

End Trials.

(* ===================================================================== *)
(** ** Concrete streams cut across reads, and two submits in one turn *)
(* ===================================================================== *)

Module Breaks.
Import AppContext Engine Scenario Requests.



(** The cells of the chat component with a second question typed in. *)
Definition typedAgain : ChatInterface.Local :=
  {| ChatInterface.inputMessage := "And a functor?";
     ChatInterface.learningMode := "adaptive";
     ChatInterface.useAdvancedStreaming := false;
     ChatInterface.useContextAwareness := true |}.

(** The context-aware call of a submit of [message] on the fresh state,
    when its two requests reject. *)
Definition unanswered (message : string)
  : list (Step (R := runtime)) * ContextAwareChatInterface.Sent (R := runtime) :=
  @ContextAwareChatInterface.sendContextAwareMessage runtime
    (getOpt (currentSession fresh) "id") (getOpt (user fresh) "id")
    VNull clock message [] (Rejected offline) (Rejected offline).

(** The user message of a call of [sendMessage] with the given text. *)
Definition wondered (text : string) : val (R := runtime) :=
  VObject [("id", VString "1700000000000");
           ("session_id", VString "s1");
           ("message", VString text);
           ("sender", VString "user");
           ("timestamp", VString "2023-11-14T22:13:20.001Z")].

(** What the two fallback calls of [sendMessage] do, each on a response
    that has delivered one chunk frame so far. *)
Definition firstStream : list (Effect (R := runtime)) :=
  fst (@sendMessage runtime sessionId (VString "What is a monad?") clock
         (delivered [frameLine (chunk "A")])).

Definition secondStream : list (Effect (R := runtime)) :=
  fst (@sendMessage runtime sessionId (VString "And a functor?") clock
         (delivered [frameLine (chunk "B")])).

(** The two calls in one turn: each adds its user message, sets the
    typing indicator, clears the streaming text and sends its request
    (its first four effects), and the chunks arrive afterwards. *)
Definition mixed : list (Effect (R := runtime)) :=
  firstn 4 firstStream ++ firstn 4 secondStream
    ++ skipn 4 firstStream ++ skipn 4 secondStream.

End Breaks.

(* ===================================================================== *)
(** * Properties *)
(* ===================================================================== *)

(* ===================================================================== *)
(** ** Facts on strings *)
(* ===================================================================== *)


Section StringFacts.

Lemma append_assoc (a b c : string) :
  ((a ++ b) ++ c)%string = (a ++ (b ++ c))%string.
Proof. induction a as [|x a IH]; simpl; [reflexivity | now rewrite IH]. Qed.

Lemma append_empty_r (a : string) : (a ++ EmptyString)%string = a.
Proof. induction a as [|x a IH]; simpl; [reflexivity | now rewrite IH]. Qed.

Lemma split_nonempty (sep : ascii) (s : string) : split sep s <> [].
Proof.
  destruct s as [|c r]; simpl; [discriminate|].
  destruct (Ascii.eqb c sep); [discriminate|].
  destruct (split sep r); discriminate.
Qed.

(** Splitting a text that has a separator in it: the pieces before the
    separator, then the pieces after it. *)
Lemma split_app (sep : ascii) (x y : string) :
  split sep (x ++ String sep y) = split sep x ++ split sep y.
Proof.
  induction x as [|c x IH]; simpl.
  - now rewrite Ascii.eqb_refl.
  - destruct (Ascii.eqb c sep); [now rewrite IH|].
    rewrite IH. destruct (split sep x) as [|h t] eqn:E; [|reflexivity].
    now apply split_nonempty in E.
Qed.

Lemma split_oneLine (s : string) : oneLine s = true -> split LF s = [s].
Proof.
  induction s as [|c s IH]; simpl; [reflexivity|].
  intros H. apply andb_true_iff in H as [Hc Hs].
  apply negb_true_iff in Hc. rewrite Hc, (IH Hs). reflexivity.
Qed.

Lemma oneLine_app (a b : string) :
  oneLine (a ++ b) = oneLine a && oneLine b.
Proof.
  induction a as [|c a IH]; simpl; [reflexivity|].
  now rewrite IH, andb_assoc.
Qed.

Lemma wholeLines_inv (s : string) :
  wholeLines s = true ->
  s = EmptyString \/ exists x, s = (x ++ String LF EmptyString)%string.
Proof.
  induction s as [|c s IH]; [now left|].
  intros H. right. destruct s as [|d s].
  - simpl in H. apply Ascii.eqb_eq in H. subst c. now exists EmptyString.
  - destruct (IH H) as [E | [x E]]; [discriminate|].
    exists (String c x). simpl. now rewrite <- E.
Qed.

Lemma startsWith_data (p : string) : startsWith ("data: " ++ p) "data: " = true.
Proof.
  unfold startsWith. apply prefix_correct. simpl.
  destruct p; reflexivity.
Qed.

Lemma slice_data (p : string) : slice 6 ("data: " ++ p) = p.
Proof. reflexivity. Qed.

End StringFacts.

(* ===================================================================== *)
(** ** Facts on the read loop, whatever the handling of a frame *)
(* ===================================================================== *)

Section LoopFacts.

Variables Locals Effect : Type.
Variable on_frame : Locals -> string -> list Effect * Locals.

Local Abbreviation on_line := (Stream.on_line on_frame).
Local Abbreviation for_lines := (Stream.for_lines on_frame).
Local Abbreviation read_loop := (Stream.read_loop on_frame).

Lemma andThen_nil (loc : Locals) (next : Locals -> list Effect * Locals) :
  andThen ([], loc) next = next loc.
Proof. unfold andThen. simpl. now destruct (next loc). Qed.

Lemma for_lines_cons (loc : Locals) (line : string) (rest : list string) :
  for_lines loc (line :: rest) =
  andThen (on_line loc line) (fun loc' => for_lines loc' rest).
Proof.
  unfold andThen. simpl. destruct (on_line loc line) as [e1 loc1]. simpl.
  now destruct (Stream.for_lines on_frame loc1 rest).
Qed.

Lemma read_loop_cons (loc : Locals) (chunk : string) (rest : list string) :
  read_loop loc (chunk :: rest) =
  andThen (for_lines loc (split LF chunk)) (fun loc' => read_loop loc' rest).
Proof.
  unfold andThen. simpl.
  destruct (Stream.for_lines on_frame loc (split LF chunk)) as [e1 loc1]. simpl.
  now destruct (Stream.read_loop on_frame loc1 rest).
Qed.

Lemma for_lines_app (l1 l2 : list string) : forall loc,
  for_lines loc (l1 ++ l2) =
  andThen (for_lines loc l1) (fun loc' => for_lines loc' l2).
Proof.
  induction l1 as [|line l1 IH]; intros loc.
  - simpl. now rewrite andThen_nil.
  - rewrite <- app_comm_cons, !for_lines_cons. unfold andThen at 1.
    rewrite IH. unfold andThen. simpl. now rewrite app_assoc.
Qed.

Lemma read_loop_app (v1 v2 : list string) : forall loc,
  read_loop loc (v1 ++ v2) =
  andThen (read_loop loc v1) (fun loc' => read_loop loc' v2).
Proof.
  induction v1 as [|chunk v1 IH]; intros loc.
  - simpl. now rewrite andThen_nil.
  - rewrite <- app_comm_cons, !read_loop_cons. unfold andThen at 1.
    rewrite IH. unfold andThen. simpl. now rewrite app_assoc.
Qed.

(** A line that does not start with the marker is passed over. *)
Lemma on_line_other (loc : Locals) (line : string) :
  startsWith line "data: " = false -> on_line loc line = ([], loc).
Proof. intros H. unfold Stream.on_line. now rewrite H. Qed.

Lemma on_line_frame (loc : Locals) (payload : string) :
  on_line loc ("data: " ++ payload) = on_frame loc payload.
Proof. unfold Stream.on_line. now rewrite startsWith_data, slice_data. Qed.

Lemma for_lines_empty_line (loc : Locals) :
  for_lines loc [EmptyString] = ([], loc).
Proof. reflexivity. Qed.

(** The lines of a text with a line feed in it are handled as the lines
    before the line feed followed by the lines after it. *)
Lemma for_lines_split (loc : Locals) (x y : string) :
  for_lines loc (split LF (x ++ String LF y)) =
  andThen (for_lines loc (split LF x)) (fun loc' => for_lines loc' (split LF y)).
Proof. now rewrite split_app, for_lines_app. Qed.

(** Cutting a read in two right after a line feed changes nothing. *)
Lemma read_loop_cut (loc : Locals) (x y : string) (rest : list string) :
  read_loop loc ((x ++ String LF y)%string :: rest) =
  read_loop loc ((x ++ String LF EmptyString)%string :: y :: rest).
Proof.
  rewrite !read_loop_cons, !for_lines_split. unfold andThen. cbv beta.
  rewrite read_loop_cons. unfold andThen. cbv beta.
  change (split LF EmptyString) with [EmptyString].
  rewrite for_lines_empty_line. cbn [fst snd].
  now rewrite app_nil_r, app_assoc.
Qed.

Lemma read_loop_cut_within (before after : list string) (x y : string) :
  forall loc,
  read_loop loc (before ++ (x ++ String LF y)%string :: after) =
  read_loop loc (before ++ (x ++ String LF EmptyString)%string :: y :: after).
Proof.
  intros loc. rewrite !read_loop_app. unfold andThen.
  now rewrite read_loop_cut.
Qed.

(** Reads that all end where a line ends are handled as the lines of
    the whole text. *)
Lemma read_loop_wholeLines (values : list string) : forall loc,
  Forall (fun v => wholeLines v = true) values ->
  read_loop loc values = for_lines loc (split LF (concat values)).
Proof.
  induction values as [|v values IH]; intros loc H; [reflexivity|].
  inversion H as [|? ? Hv Hrest]; subst.
  rewrite read_loop_cons. simpl concat.
  destruct (wholeLines_inv _ Hv) as [-> | [x ->]].
  - simpl. rewrite andThen_nil. now apply IH.
  - rewrite append_assoc. simpl append.
    rewrite !for_lines_split. unfold andThen. cbv beta.
    change (split LF EmptyString) with [EmptyString].
    rewrite for_lines_empty_line. cbn [fst snd].
    now rewrite app_nil_r, (IH _ Hrest).
Qed.

Lemma frameLine_app (p rest : string) :
  (frameLine p ++ rest)%string = (("data: " ++ p) ++ String LF rest)%string.
Proof.
  unfold frameLine. cbn [append]. do 6 f_equal.
  now rewrite append_assoc.
Qed.

(** The lines of a response made of one-line frames. *)
Lemma split_wire (payloads : list string) :
  Forall (fun p => oneLine p = true) payloads ->
  split LF (wire payloads) =
  map (fun p => ("data: " ++ p)%string) payloads ++ [EmptyString].
Proof.
  induction payloads as [|p payloads IH]; intros H; [reflexivity|].
  inversion H as [|? ? Hp Hrest]; subst.
  unfold wire in *. cbn [map concat].
  rewrite frameLine_app, split_app, (IH Hrest), split_oneLine; [reflexivity|].
  rewrite oneLine_app. now rewrite Hp.
Qed.

End LoopFacts.

(* ===================================================================== *)
(** ** The store *)
(* ===================================================================== *)

Section StoreFacts.

Context {R : Runtime}.

Lemma replay_app (a b : list Action) : forall state,
  replay state (a ++ b) =
  match replay state a with
  | Some state' => replay state' b
  | None => None
  end.
Proof.
  induction a as [|x a IH]; intros state; simpl; [reflexivity|].
  destruct (appReducer state x); [apply IH | reflexivity].
Qed.

Lemma concat_app (a b : list string) :
  concat (a ++ b) = (concat a ++ concat b)%string.
Proof.
  induction a as [|x a IH]; simpl; [reflexivity|].
  now rewrite IH, append_assoc.
Qed.

Lemma payloads_app (a b : list Action) :
  payloads (a ++ b) = payloads a ++ payloads b.
Proof.
  induction a as [|x a IH]; simpl; [reflexivity|].
  destruct x; try exact IH.
  destruct (ToString payload); simpl; now rewrite IH.
Qed.

(** What one action does to the streaming text. *)
Lemma appReducer_streaming (state state' : AppState) (action : Action) :
  appReducer state action = Some state' ->
  streamingMessage state' =
  match action with
  | SET_STREAMING_MESSAGE payload =>
      match ToString payload with
      | Some text => (streamingMessage state ++ text)%string
      | None => streamingMessage state
      end
  | CLEAR_STREAMING_MESSAGE => EmptyString
  | _ => streamingMessage state
  end.
Proof.
  destruct action; simpl; intros H;
    try (injection H as <-; reflexivity).
  - destruct (ToString payload); [injection H as <-; reflexivity | discriminate].
  - destruct (iterate (achievements state)); [injection H as <-; reflexivity | discriminate].
Qed.

Lemma replay_streaming (actions : list Action) :
  forall (state state' : AppState) (earlier : list Action) (base : string),
  replay state actions = Some state' ->
  streamingMessage state = (base ++ concat (payloads earlier))%string ->
  streamingMessage state' =
  ((if clears actions then EmptyString else base)
     ++ concat (payloads (sinceClear earlier actions)))%string.
Proof.
  induction actions as [|a actions IH]; intros state state' earlier base H Hs.
  - injection H as <-. exact Hs.
  - simpl in H. destruct (appReducer state a) as [mid|] eqn:E; [|discriminate].
    pose proof (appReducer_streaming _ _ E) as Hmid.
    destruct a;
      try (simpl; apply (IH mid state' _ base H);
           rewrite Hmid, payloads_app, concat_app; simpl;
           now rewrite append_empty_r).
    + (* SET_STREAMING_MESSAGE *)
      simpl. apply (IH mid state' _ base H).
      rewrite Hmid, payloads_app, concat_app. simpl.
      destruct (ToString payload); simpl.
      * now rewrite Hs, append_empty_r, append_assoc.
      * now rewrite append_empty_r.
    + (* CLEAR_STREAMING_MESSAGE *)
      simpl. specialize (IH mid state' [] EmptyString H).
      rewrite Hmid in IH. specialize (IH eq_refl).
      rewrite IH. now destruct (clears actions).
Qed.

(** C9. In the reducer, [SET_STREAMING_MESSAGE] appends the text of its
    payload to the streaming text and does not replace it; an action
    other than [SET_STREAMING_MESSAGE] and [CLEAR_STREAMING_MESSAGE]
    leaves the streaming text as it is; hence after any sequence of
    dispatched actions the streaming text is the concatenation, in
    dispatch order, of the payloads of the [SET_STREAMING_MESSAGE]
    actions since the most recent [CLEAR_STREAMING_MESSAGE], after the
    text of the starting state when nothing cleared it. *)
Theorem streamingMessage_accumulates
  (state state' : AppState) (actions : list Action) :
  replay state actions = Some state' ->
  (forall (s : AppState) (payload : val) (text : string),
      ToString payload = Some text ->
      exists s', appReducer s (SET_STREAMING_MESSAGE payload) = Some s' /\
                 streamingMessage s' = (streamingMessage s ++ text)%string) /\
  (forall (s s' : AppState) (a : Action),
      touchesStreaming a = false -> appReducer s a = Some s' ->
      streamingMessage s' = streamingMessage s) /\
  streamingMessage state' =
  ((if clears actions then EmptyString else streamingMessage state)
     ++ concat (payloads (sinceClear [] actions)))%string.
Proof.
  intros H. split; [|split].
  - intros s payload text E. simpl. rewrite E.
    eexists. split; reflexivity.
  - intros s s' a Ha E. rewrite (appReducer_streaming _ _ E).
    destruct a; try reflexivity; discriminate.
  - apply (replay_streaming _ _ [] (streamingMessage state) H).
    simpl. now rewrite append_empty_r.
Qed.

End StoreFacts.

(* ===================================================================== *)
(** ** The consumers [sendMessage] and [sendPremiumMessage] *)
(* ===================================================================== *)

Section ConsumerFacts.

Context {R : Runtime}.

Lemma dispatched_app (a b : list Effect) :
  dispatched (a ++ b) = dispatched a ++ dispatched b.
Proof.
  induction a as [|x a IH]; simpl; [reflexivity|].
  destruct x; simpl; now rewrite IH.
Qed.

Lemma ui_after_app (a b : list Effect) (state : AppState) :
  ui_after state (a ++ b) =
  match ui_after state a with
  | Some state' => ui_after state' b
  | None => None
  end.
Proof. unfold ui_after. now rewrite dispatched_app, replay_app. Qed.

Lemma withChat_id (s : AppState) :
  withChat s (messages s) (isTyping s) (streamingMessage s) (error s)
           (isLoading s) = s.
Proof. now destruct s. Qed.

Lemma ui_after_one_chunk (c : string) (s : AppState) msgs typing streaming err loading :
  ui_after (withChat s msgs typing streaming err loading)
           [Dispatch (SET_STREAMING_MESSAGE (VString c))] =
  Some (withChat s msgs typing (streaming ++ c)%string err loading).
Proof. reflexivity. Qed.

Lemma ui_after_chunks (contents : list string) :
  forall (s : AppState) msgs typing streaming err loading,
  ui_after (withChat s msgs typing streaming err loading)
           (chunkEffects contents) =
  Some (withChat s msgs typing (streaming ++ concat contents)%string err loading).
Proof.
  induction contents as [|c contents IH]; intros.
  - cbn [chunkEffects concat]. now rewrite append_empty_r.
  - cbn [chunkEffects concat]. rewrite ui_after_app.
    destruct c as [|x c]; cbn [nonEmpty].
    + change (ui_after (withChat s msgs typing streaming err loading) [])
        with (Some (withChat s msgs typing streaming err loading)).
      cbv iota. now rewrite IH.
    + rewrite ui_after_one_chunk, IH. now rewrite append_assoc.
Qed.

Lemma ui_after_prologue variant sessionId message clock (s : AppState) :
  ui_after s (prologue variant sessionId message clock) =
  Some (withChat s (messages s ++ [userMessage sessionId message clock])
                 true EmptyString (error s) (isLoading s)).
Proof. reflexivity. Qed.

Lemma ui_after_complete (ai : val) (s : AppState) msgs typing streaming err loading :
  ui_after (withChat s msgs typing streaming err loading) (completeEffects ai) =
  Some (withChat s (msgs ++ [ai]) false EmptyString err loading).
Proof. reflexivity. Qed.

Lemma ui_after_error (data : val) (s : AppState) msgs typing streaming err loading :
  ui_after (withChat s msgs typing streaming err loading) (errorEffects data) =
  Some (withChat s msgs false EmptyString (field data "message") false).
Proof. reflexivity. Qed.

Lemma ui_after_failure (e : Error) (s : AppState) msgs typing streaming err loading :
  ui_after (withChat s msgs typing streaming err loading) (on_failure e) =
  Some (withChat s msgs false EmptyString (VString (error_message e)) false).
Proof. reflexivity. Qed.

Section Call.

Variable variant : Variant.
Variables sessionId message : val.
Variable clock : nat -> Z.

Local Abbreviation on_frame := (AppContext.on_frame variant sessionId clock).
Local Abbreviation for_lines := (Stream.for_lines on_frame).

Lemma get_of_field (data : val) (k : string) (s : string) :
  field data k = VString s -> get data "type" = Some (field data "type").
Proof. destruct data; simpl; intros H; try discriminate. reflexivity. Qed.

(** A chunk frame appends its content to [fullResponse] and dispatches it. *)
Lemma on_frame_chunk (loc : Local) (payload content : string) :
  chunkFrame payload content ->
  on_frame loc payload =
  (chunkEffects [content],
   {| fullResponse := (fullResponse loc ++ content)%string; ticks := ticks loc |}).
Proof.
  intros (_ & data & Hparse & Htype & Hcontent).
  unfold AppContext.on_frame. rewrite Hparse, (get_of_field _ _ Htype), Htype, Hcontent.
  simpl. destruct content as [|c content]; simpl.
  - rewrite append_empty_r. now destruct loc.
  - reflexivity.
Qed.

Lemma on_frame_complete (loc : Local) (payload : string) (data ai : val) :
  completeFrame payload data ->
  aiMessage variant sessionId clock loc data = Some ai ->
  on_frame loc payload =
  (completeEffects ai,
   {| fullResponse := fullResponse loc; ticks := S (S (ticks loc)) |}).
Proof.
  intros (_ & Hparse & Htype) Hai.
  unfold AppContext.on_frame. rewrite Hparse, (get_of_field _ _ Htype), Htype.
  simpl. now rewrite Hai.
Qed.

Lemma on_frame_error (loc : Local) (payload : string) (data : val) :
  errorFrame payload data ->
  on_frame loc payload = (errorEffects data, loc).
Proof.
  intros (_ & Hparse & Htype).
  unfold AppContext.on_frame. rewrite Hparse, (get_of_field _ _ Htype), Htype.
  reflexivity.
Qed.


Lemma on_frame_emptyChunk (loc : Local) (payload : string) :
  emptyChunkFrame payload -> on_frame loc payload = ([], loc).
Proof.
  intros (_ & data & Hparse & Htype & Hcontent).
  unfold AppContext.on_frame. rewrite Hparse, (get_of_field _ _ Htype), Htype.
  destruct Hcontent as [-> | [-> | ->]]; reflexivity.
Qed.

(** The lines of chunk frames, one after the other. *)
Lemma for_lines_chunks (frames : list (string * string)) : forall (loc : Local),
  Forall (fun f => chunkFrame (fst f) (snd f)) frames ->
  for_lines loc (map (fun p => ("data: " ++ p)%string) (map fst frames)) =
  (chunkEffects (map snd frames),
   {| fullResponse := (fullResponse loc ++ concat (map snd frames))%string;
      ticks := ticks loc |}).
Proof.
  induction frames as [|[p c] frames IH]; intros loc H.
  - simpl. rewrite append_empty_r. now destruct loc.
  - inversion H as [|? ? Hf Hrest]; subst. simpl in Hf.
    cbn [map fst snd]. rewrite for_lines_cons, on_line_frame.
    rewrite (on_frame_chunk _ Hf). unfold andThen. cbn [fst snd].
    rewrite (IH _ Hrest). cbn [fst snd fullResponse ticks concat chunkEffects].
    now rewrite append_assoc, app_nil_r.
Qed.

End Call.

End ConsumerFacts.

(* ===================================================================== *)
(** ** Streams of whole frames *)
(* ===================================================================== *)

Section FrameStreams.

Variables Locals Effect : Type.
Variable on_frame : Locals -> string -> list Effect * Locals.

(** When every read ends where a line ends, the loop handles the frames
    of the response one after the other. *)
Lemma read_loop_frames (loc : Locals) (values payloads : list string) :
  Forall (fun v => wholeLines v = true) values ->
  Forall (fun p => oneLine p = true) payloads ->
  concat values = wire payloads ->
  Stream.read_loop on_frame loc values =
  Stream.for_lines on_frame loc (map (fun p => ("data: " ++ p)%string) payloads).
Proof.
  intros Hv Hp E.
  rewrite (read_loop_wholeLines on_frame loc Hv), E, (split_wire Hp).
  rewrite for_lines_app. unfold andThen.
  rewrite for_lines_empty_line. cbn [fst snd].
  rewrite app_nil_r. now destruct (Stream.for_lines on_frame loc _).
Qed.

(** Reads that all end where a line ends are handled as one read of the
    whole text. *)
Lemma read_loop_merged (loc : Locals) (values : list string) :
  Forall (fun v => wholeLines v = true) values ->
  Stream.read_loop on_frame loc values =
  Stream.read_loop on_frame loc [concat values].
Proof.
  intros Hv. rewrite (read_loop_wholeLines on_frame loc Hv), read_loop_cons.
  unfold andThen. cbn [Stream.read_loop fst snd]. rewrite app_nil_r.
  now destruct (Stream.for_lines on_frame loc _).
Qed.

End FrameStreams.

Section Accumulation.

Context {R : Runtime}.

Variable variant : Variant.
Variables sessionId message : val.
Variable clock : nat -> Z.

Lemma chunkFrames_oneLine (frames : list (string * string)) :
  Forall (fun f => chunkFrame (fst f) (snd f)) frames ->
  Forall (fun p => oneLine p = true) (map fst frames).
Proof.
  induction 1 as [|f frames Hf _ IH]; simpl; constructor; [|exact IH].
  now destruct Hf.
Qed.

(** Chunk frames followed by one more frame: the lines the loop sees. *)
Lemma lines_chunks_then (frames : list (string * string)) (last : string) (loc : Local) :
  Forall (fun f => chunkFrame (fst f) (snd f)) frames ->
  Stream.for_lines (on_frame variant sessionId clock) loc
    (map (fun p => ("data: " ++ p)%string) (map fst frames ++ [last])) =
  andThen
    (chunkEffects (map snd frames),
     {| fullResponse := (fullResponse loc ++ concat (map snd frames))%string;
        ticks := ticks loc |})
    (fun loc' => on_frame variant sessionId clock loc' last).
Proof.
  intros H. rewrite map_app, for_lines_app, (for_lines_chunks _ _ _ _ H).
  unfold andThen. cbn [fst snd map].
  rewrite for_lines_cons, on_line_frame. unfold andThen. cbn [fst snd Stream.for_lines].
  now rewrite app_nil_r.
Qed.

Lemma consume_chunks_then_complete
  (frames : list (string * string)) (last : string) (data ai : val)
  (values : list string) :
  Forall (fun f => chunkFrame (fst f) (snd f)) frames ->
  completeFrame last data ->
  aiMessage variant sessionId clock
            {| fullResponse := concat (map snd frames); ticks := 2 |} data = Some ai ->
  Forall (fun v => wholeLines v = true) values ->
  concat values = wire (map fst frames ++ [last]) ->
  consume variant sessionId message clock
          (Response true {| reads := values; ending := Done |}) =
  (prologue variant sessionId message clock
     ++ chunkEffects (map snd frames) ++ completeEffects ai,
   Returns (concat (map snd frames))).
Proof.
  intros Hframes Hlast Hai Hvalues Hwire. unfold consume. cbn [reads ending].
  rewrite (read_loop_frames _ _ Hvalues (payloads := map fst frames ++ [last])); trivial.
  - rewrite (lines_chunks_then _ _ Hframes). unfold andThen.
    cbn [fst snd fullResponse ticks append].
    erewrite on_frame_complete by eassumption. cbn [fst snd fullResponse].
    reflexivity.
  - apply Forall_app. split; [now apply chunkFrames_oneLine|].
    constructor; [now destruct Hlast | constructor].
Qed.

Lemma consume_chunks_then_error
  (frames : list (string * string)) (last : string) (data : val)
  (values : list string) :
  Forall (fun f => chunkFrame (fst f) (snd f)) frames ->
  errorFrame last data ->
  Forall (fun v => wholeLines v = true) values ->
  concat values = wire (map fst frames ++ [last]) ->
  consume variant sessionId message clock
          (Response true {| reads := values; ending := Done |}) =
  (prologue variant sessionId message clock
     ++ chunkEffects (map snd frames) ++ errorEffects data,
   Returns (concat (map snd frames))).
Proof.
  intros Hframes Hlast Hvalues Hwire. unfold consume. cbn [reads ending].
  rewrite (read_loop_frames _ _ Hvalues (payloads := map fst frames ++ [last])); trivial.
  - rewrite (lines_chunks_then _ _ Hframes). unfold andThen.
    cbn [fst snd fullResponse ticks append].
    erewrite on_frame_error by eassumption. reflexivity.
  - apply Forall_app. split; [now apply chunkFrames_oneLine|].
    constructor; [now destruct Hlast | constructor].
Qed.


Lemma ui_after_chunks_then_error (state : AppState) (contents : list string) (data : val) :
  ui_after state (prologue variant sessionId message clock
                    ++ chunkEffects contents ++ errorEffects data) =
  Some (withChat state
          (messages state ++ [userMessage sessionId message clock])
          false EmptyString (field data "message") false).
Proof.
  now rewrite ui_after_app, ui_after_prologue, ui_after_app, ui_after_chunks,
    ui_after_error.
Qed.

End Accumulation.

(* ===================================================================== *)
(** ** Chunks followed by a complete frame *)
(* ===================================================================== *)

Section Completed.

Context {R : Runtime}.



Lemma defaulted_not_nullish (context : val) :
  context <> VNull ->
  nullish (match context with VUndefined => VObject [] | _ => context end) = false.
Proof. destruct context; intros H; try reflexivity. now elim H. Qed.


End Completed.

Section CutReply.

#[local] Existing Instance Engine.runtime.


End CutReply.

(* ===================================================================== *)
(** ** Frames put into a stream *)
(* ===================================================================== *)

Section Insertion.

Variables Locals Effect : Type.
Variable on_frame : Locals -> string -> list Effect * Locals.

Local Abbreviation for_lines := (Stream.for_lines on_frame).
Local Abbreviation read_loop := (Stream.read_loop on_frame).

(** The lines of a text into which whole frames are put at the start of
    a line. *)
Lemma split_insert (x y : string) (payloads : list string) :
  wholeLines x = true ->
  Forall (fun p => oneLine p = true) payloads ->
  exists l1 l2,
    split LF (x ++ y) = l1 ++ l2 /\
    split LF (x ++ wire payloads ++ y) =
    l1 ++ map (fun p => ("data: " ++ p)%string) payloads ++ l2.
Proof.
  intros Hx Hp.
  assert (Hw : forall rest,
             split LF (wire payloads ++ rest) =
             map (fun p => ("data: " ++ p)%string) payloads ++ split LF rest).
  { induction Hp as [|p payloads Hp _ IH]; intros rest; [reflexivity|].
    unfold wire in *. cbn [map concat].
    rewrite append_assoc, frameLine_app, split_app, IH, split_oneLine.
    - reflexivity.
    - rewrite oneLine_app. now rewrite Hp. }
  destruct (wholeLines_inv _ Hx) as [-> | [x' ->]].
  - exists [], (split LF y). cbn [append app]. now rewrite Hw.
  - exists (split LF x'), (split LF y).
    rewrite !append_assoc. cbn [append].
    now rewrite !split_app, Hw.
Qed.

(** Frames that change no local and always have the same effects may be
    put into a read at the start of a line: their effects are added in
    their place and nothing else changes. *)
Lemma read_loop_insert (inserted : list Effect) (payloads : list string)
  (x y : string) (before after : list string) (loc : Locals) :
  wholeLines x = true ->
  Forall (fun p => oneLine p = true) payloads ->
  (forall loc', for_lines loc' (map (fun p => ("data: " ++ p)%string) payloads)
                = (inserted, loc')) ->
  exists t1 t2,
    fst (read_loop loc (before ++ (x ++ y)%string :: after)) = t1 ++ t2 /\
    fst (read_loop loc (before ++ (x ++ wire payloads ++ y)%string :: after)) =
    t1 ++ inserted ++ t2 /\
    snd (read_loop loc (before ++ (x ++ wire payloads ++ y)%string :: after)) =
    snd (read_loop loc (before ++ (x ++ y)%string :: after)).
Proof.
  intros Hx Hp Hins.
  destruct (split_insert x y Hx Hp) as (l1 & l2 & E1 & E2).
  rewrite !read_loop_app. unfold andThen. cbv beta.
  rewrite !read_loop_cons, E1, E2.
  repeat (rewrite !for_lines_app; unfold andThen; cbv beta).
  cbn [fst snd]. rewrite Hins. cbn [fst snd].
  set (b := read_loop loc before).
  set (a := for_lines (snd b) l1).
  set (c := for_lines (snd a) l2).
  exists (fst b ++ fst a), (fst c ++ fst (read_loop (snd c) after)).
  repeat split; now rewrite <- ?app_assoc.
Qed.

End Insertion.

(* ===================================================================== *)
(** ** Reads and frame boundaries *)
(* ===================================================================== *)

Section Rechunking.

Context {R : Runtime}.

Lemma consume_cut variant sessionId message clock
  (before after : list string) (x y : string) (ending : BodyEnd) :
  consume variant sessionId message clock
    (Response true {| reads := before ++ (x ++ String LF y)%string :: after;
                      ending := ending |}) =
  consume variant sessionId message clock
    (Response true {| reads := before ++ (x ++ String LF EmptyString)%string
                                        :: y :: after;
                      ending := ending |}).
Proof. unfold consume. cbn [reads]. now rewrite read_loop_cut_within. Qed.

Lemma consume_merged variant sessionId message clock
  (values : list string) (ending : BodyEnd) :
  Forall (fun v => wholeLines v = true) values ->
  consume variant sessionId message clock
    (Response true {| reads := values; ending := ending |}) =
  consume variant sessionId message clock
    (Response true {| reads := [concat values]; ending := ending |}).
Proof.
  intros Hv. unfold consume. cbn [reads].
  now rewrite (read_loop_merged _ _ Hv).
Qed.

(** C2, as the code has it. The consumers keep no partial line from one
    read to the next. What holds is invariance under cuts at line ends:
    cutting any read in two right after a line feed changes neither the
    effects nor the result of [sendMessage], of [sendPremiumMessage] or
    of [startAdvancedStream]; hence a response whose reads all end where
    a line ends is handled as if it came in one read. *)
Theorem cut_after_line_feed_changes_nothing
  (sessionId message context : val) (clock : nat -> Z)
  (before after : list string) (x y : string) (ending : BodyEnd) :
  let whole := Response true
                 {| reads := before ++ (x ++ String LF y)%string :: after;
                    ending := ending |} in
  let cut := Response true
               {| reads := before ++ (x ++ String LF EmptyString)%string
                                   :: y :: after;
                  ending := ending |} in
  sendMessage sessionId message clock whole =
  sendMessage sessionId message clock cut /\
  sendPremiumMessage sessionId message context clock whole =
  sendPremiumMessage sessionId message context clock cut /\
  (forall streamingConfig onStreamComplete user readingSpeed capturedContent session,
      AdvancedStreamingInterface.startAdvancedStream
        message sessionId streamingConfig onStreamComplete user readingSpeed
        capturedContent session whole =
      AdvancedStreamingInterface.startAdvancedStream
        message sessionId streamingConfig onStreamComplete user readingSpeed
        capturedContent session cut) /\
  (forall values : list string,
      Forall (fun v => wholeLines v = true) values ->
      sendMessage sessionId message clock
        (Response true {| reads := values; ending := ending |}) =
      sendMessage sessionId message clock
        (Response true {| reads := [concat values]; ending := ending |}) /\
      sendPremiumMessage sessionId message context clock
        (Response true {| reads := values; ending := ending |}) =
      sendPremiumMessage sessionId message context clock
        (Response true {| reads := [concat values]; ending := ending |})).
Proof.
  intros whole cut. split; [|split; [|split]].
  - apply consume_cut.
  - apply consume_cut.
  - intros. unfold AdvancedStreamingInterface.startAdvancedStream, whole, cut.
    cbn [reads Stream.ending]. now rewrite read_loop_cut_within.
  - intros values Hv. split; now apply consume_merged.
Qed.

End Rechunking.

Section CutFrame.

#[local] Existing Instance Engine.runtime.

(** C2, on a concrete stream: the chunk frame with content [Hi] followed
    by the complete frame. Delivered whole, the call returns [Hi]; with
    the chunk frame cut in the middle of its type key, the same text returns the
    empty string: the first part is refused by [JSON.parse], the second
    is passed over because it does not start with the marker. *)
Lemma cut_frame_is_lost :
  concat Scenario.cutFrame = concat Scenario.wholeFrame /\
  snd (sendMessage Scenario.sessionId Scenario.question
         Scenario.clock (Scenario.delivered Scenario.wholeFrame)) = Returns "Hi" /\
  snd (sendMessage Scenario.sessionId Scenario.question
         Scenario.clock (Scenario.delivered Scenario.cutFrame)) = Returns EmptyString /\
  ui_after Scenario.fresh
    (fst (sendMessage Scenario.sessionId Scenario.question
            Scenario.clock (Scenario.delivered Scenario.wholeFrame))) =
  Some (withChat Scenario.fresh
          [Scenario.asked;
           Scenario.answered "1700000000003" "2023-11-14T22:13:20.003Z" "Hi"]
          false EmptyString VNull false) /\
  ui_after Scenario.fresh
    (fst (sendMessage Scenario.sessionId Scenario.question
            Scenario.clock (Scenario.delivered Scenario.cutFrame))) =
  Some (withChat Scenario.fresh
          [Scenario.asked;
           Scenario.answered "1700000000003" "2023-11-14T22:13:20.003Z" EmptyString]
          false EmptyString VNull false).
Proof. repeat split. Qed.

End CutFrame.

(* ===================================================================== *)
(** ** What any stream leaves in the store *)
(* ===================================================================== *)

Section Shape.

Context {R : Runtime}.

Lemma extendsChat_nil : extendsChat [].
Proof.
  intros s msgs typing streaming err loading.
  exists [], typing, streaming, err, loading. now rewrite app_nil_r.
Qed.

Lemma extendsChat_app (a b : list Effect) :
  extendsChat a -> extendsChat b -> extendsChat (a ++ b).
Proof.
  intros Ha Hb s msgs typing streaming err loading.
  destruct (Ha s msgs typing streaming err loading)
    as (l1 & t1 & x1 & e1 & g1 & E1).
  destruct (Hb s (msgs ++ l1) t1 x1 e1 g1) as (l2 & t2 & x2 & e2 & g2 & E2).
  exists (l1 ++ l2), t2, x2, e2, g2.
  now rewrite ui_after_app, E1, E2, app_assoc.
Qed.

Lemma extendsChat_console (label : string) (e : Caught) :
  extendsChat [ConsoleError label e].
Proof. exact extendsChat_nil. Qed.

Lemma extendsChat_complete (ai : val) : extendsChat (completeEffects ai).
Proof.
  intros s msgs typing streaming err loading.
  exists [ai], false, EmptyString, err, loading. reflexivity.
Qed.

Lemma extendsChat_error (data : val) : extendsChat (errorEffects data).
Proof.
  intros s msgs typing streaming err loading.
  exists [], false, EmptyString, (field data "message"), false.
  now rewrite app_nil_r.
Qed.

Lemma extendsChat_prologue variant sessionId message clock :
  extendsChat (prologue variant sessionId message clock).
Proof.
  intros s msgs typing streaming err loading.
  exists [userMessage sessionId message clock], true, EmptyString, err, loading.
  reflexivity.
Qed.

(** Whatever the frame, the store can apply what the consumer dispatches
    for it. *)
Lemma extendsChat_on_frame variant sessionId clock (loc : Local) (payload : string) :
  extendsChat (fst (on_frame variant sessionId clock loc payload)).
Proof.
  unfold on_frame.
  destruct (JSON_parse payload) as [data|]; [|apply extendsChat_console].
  destruct (get data "type") as [type|]; [|apply extendsChat_console].
  destruct (isString type "chunk" && truthy (field data "content")).
  - destruct (ToString (field data "content")) as [text|] eqn:E;
      [|apply extendsChat_console].
    intros s msgs typing streaming err loading.
    exists [], typing, (streaming ++ text)%string, err, loading.
    unfold ui_after. cbn [fst dispatched replay appReducer]. rewrite E.
    now rewrite app_nil_r.
  - destruct (isString type "complete").
    + destruct (aiMessage variant sessionId clock loc data) as [ai|].
      * apply extendsChat_complete.
      * intros s msgs typing streaming err loading.
        exists [], false, streaming, err, loading. now rewrite app_nil_r.
    + destruct (isString type "error");
        [apply extendsChat_error | apply extendsChat_nil].
Qed.

Lemma extendsChat_for_lines variant sessionId clock (lines : list string) :
  forall loc : Local,
  extendsChat (fst (Stream.for_lines (on_frame variant sessionId clock) loc lines)).
Proof.
  induction lines as [|line lines IH]; intros loc; [apply extendsChat_nil|].
  rewrite for_lines_cons. unfold andThen. cbn [fst].
  apply extendsChat_app; [|apply IH].
  unfold Stream.on_line.
  destruct (startsWith line "data: ");
    [apply extendsChat_on_frame | apply extendsChat_nil].
Qed.

Lemma extendsChat_read_loop variant sessionId clock (values : list string) :
  forall loc : Local,
  extendsChat (fst (Stream.read_loop (on_frame variant sessionId clock) loc values)).
Proof.
  induction values as [|v values IH]; intros loc; [apply extendsChat_nil|].
  rewrite read_loop_cons. unfold andThen. cbn [fst].
  apply extendsChat_app; [apply extendsChat_for_lines | apply IH].
Qed.

(** Every failure path of a consumer: the call throws, and the store
    ends with the typing indicator off, the streaming text cleared, the
    message of the error in [error], and the user message still in the
    history. *)
Lemma consume_failure variant sessionId message clock
  (net : FetchResult) (e : Error) (state : AppState) :
  snd (consume variant sessionId message clock net) = Throws e ->
  exists later,
    ui_after state (fst (consume variant sessionId message clock net)) =
    Some (withChat state
            (messages state ++ userMessage sessionId message clock :: later)
            false EmptyString (VString (error_message e)) false).
Proof.
  unfold consume. destruct net as [e' | [|] body].
  - cbn [fst snd]. intros [= ->]. exists [].
    now rewrite ui_after_app, ui_after_prologue, ui_after_failure.
  - destruct (Stream.read_loop _ _ (reads body)) as [effects loc] eqn:E.
    destruct (ending body) as [|e']; cbn [fst snd]; [discriminate|].
    intros [= ->].
    pose proof (extendsChat_read_loop variant sessionId clock (reads body)
                  {| fullResponse := EmptyString; ticks := 2 |}) as H.
    rewrite E in H. cbn [fst] in H.
    destruct (H state (messages state ++ [userMessage sessionId message clock])
                true EmptyString (error state) (isLoading state))
      as (later & t & x & err & g & E').
    exists later.
    rewrite ui_after_app, ui_after_prologue, ui_after_app, E', ui_after_failure.
    now rewrite <- app_assoc.
  - cbn [fst snd]. intros [= <-]. exists [].
    now rewrite ui_after_app, ui_after_prologue, ui_after_failure.
Qed.

End Shape.

(* ===================================================================== *)
(** ** Error frames and failures of the transport *)
(* ===================================================================== *)

Section Failed.

Context {R : Runtime}.

(** C3, as the code has it. A response made of chunk frames followed by
    an error frame, delivered in reads that end where a frame ends: the
    consumer clears the streaming text, turns the typing indicator off
    and puts the message of the frame in [error]; the history gains the
    user message and no mentor message, so the partial content is not
    kept in the store; the call returns it. *)
Theorem chunks_then_error_clear_partial_content
  (state : AppState) (sessionId message context : val) (clock : nat -> Z)
  (frames : list (string * string)) (last : string) (data : val)
  (values : list string) :
  Forall (fun f => chunkFrame (fst f) (snd f)) frames ->
  errorFrame last data ->
  Forall (fun v => wholeLines v = true) values ->
  concat values = wire (map fst frames ++ [last]) ->
  let text := concat (map snd frames) in
  let net := Response true {| reads := values; ending := Done |} in
  let failed :=
    withChat state (messages state ++ [userMessage sessionId message clock])
             false EmptyString (field data "message") false in
  (snd (sendMessage sessionId message clock net) = Returns text /\
   ui_after state (fst (sendMessage sessionId message clock net)) = Some failed) /\
  (snd (sendPremiumMessage sessionId message context clock net) = Returns text /\
   ui_after state (fst (sendPremiumMessage sessionId message context clock net))
   = Some failed).
Proof.
  intros Hframes Hlast Hvalues Hwire text net failed.
  unfold sendMessage, sendPremiumMessage, net.
  split; (erewrite consume_chunks_then_error by eassumption;
          cbn [fst snd]; now rewrite ui_after_chunks_then_error).
Qed.



(** C10. [sendMessage], which is [consume Regular], and
    [sendPremiumMessage], which is [consume (Premium context)], dispatch
    the user message before they open the request. When the response is
    not OK, or
    [fetch] or a read rejects, the call throws; and whenever the call
    throws, the store ends with the typing indicator off, the streaming
    text cleared, the message of the error in [error], and the user
    message still in the history, after the messages that were there. *)
Theorem user_message_survives_failure
  (state : AppState) (sessionId message : val) (clock : nat -> Z)
  (variant : Variant) :
  let user := userMessage sessionId message clock in
  (forall net, exists rest,
      fst (consume variant sessionId message clock net) =
      Dispatch (ADD_MESSAGE user)
        :: Dispatch (SET_TYPING true)
        :: Dispatch CLEAR_STREAMING_MESSAGE
        :: Fetch (endpoint variant) (request variant sessionId message)
        :: rest) /\
  (forall body,
      snd (consume variant sessionId message clock (Response false body)) =
      Throws (notOk variant)) /\
  (forall e,
      snd (consume variant sessionId message clock (FetchRejects e)) = Throws e) /\
  (forall values e,
      snd (consume variant sessionId message clock
             (Response true {| reads := values; ending := ReadRejects e |})) =
      Throws e) /\
  (forall net e,
      snd (consume variant sessionId message clock net) = Throws e ->
      exists later state',
        ui_after state (fst (consume variant sessionId message clock net)) =
        Some state' /\
        isTyping state' = false /\
        streamingMessage state' = EmptyString /\
        error state' = VString (error_message e) /\
        messages state' = messages state ++ user :: later).
Proof.
  intros user. repeat split.
  - intros net. unfold consume. destruct net as [e | [|] body].
    + eexists. reflexivity.
    + destruct (Stream.read_loop _ _ (reads body)) as [effects loc].
      destruct (ending body); eexists; reflexivity.
    + eexists. reflexivity.
  - intros values e. unfold consume. cbn [reads ending].
    now destruct (Stream.read_loop _ _ values).
  - intros net e T.
    destruct (consume_failure _ _ _ _ _ state T) as (later & E).
    exists later. eexists. split; [exact E|]. repeat split.
Qed.

End Failed.

Section StartedThenFailed.

#[local] Existing Instance Engine.runtime.

(** C3, on a concrete stream: the chunk frame with content [Hi] followed
    by an error frame. The store ends with the user message alone in the
    history and an empty streaming text: [Hi] is visible nowhere, and
    no message is marked as failed. *)
Lemma partial_content_is_dropped :
  ui_after Scenario.fresh
    (fst (sendMessage Scenario.sessionId Scenario.question Scenario.clock
            (Scenario.delivered Scenario.startedThenFailed))) =
  Some (withChat Scenario.fresh [Scenario.asked] false EmptyString
                 (VString "upstream failed") false) /\
  ~ visible (withChat Scenario.fresh [Scenario.asked] false EmptyString
                      (VString "upstream failed") false) "Hi".
Proof.
  split; [reflexivity|].
  intros [H | (msg & [<- | []] & H)]; vm_compute in H; discriminate.
Qed.

End StartedThenFailed.

Section CutFailure.

#[local] Existing Instance Engine.runtime.


End CutFailure.

(* ===================================================================== *)
(** ** Frames that change nothing, and frames after a terminal frame *)
(* ===================================================================== *)

Section Skipped.

Context {R : Runtime}.

(** Frames whose handling changes no local may be put into a read at
    the start of a line: the call settles the same way and does the same
    things, with the effects of the frames added in their place. *)
Lemma consume_insert variant sessionId message clock
  (inserted : list Effect) (payloads : list string)
  (x y : string) (before after : list string) (ending : BodyEnd) :
  wholeLines x = true ->
  Forall (fun p => oneLine p = true) payloads ->
  (forall loc,
      Stream.for_lines (on_frame variant sessionId clock) loc
        (map (fun p => ("data: " ++ p)%string) payloads) = (inserted, loc)) ->
  let without := Response true {| reads := before ++ (x ++ y)%string :: after;
                                  ending := ending |} in
  let within := Response true
                  {| reads := before ++ (x ++ wire payloads ++ y)%string :: after;
                     ending := ending |} in
  snd (consume variant sessionId message clock within) =
  snd (consume variant sessionId message clock without) /\
  exists t1 t2,
    fst (consume variant sessionId message clock without) = t1 ++ t2 /\
    fst (consume variant sessionId message clock within) = t1 ++ inserted ++ t2.
Proof.
  intros Hx Hp Hins without within.
  destruct (@read_loop_insert _ _ (on_frame variant sessionId clock)
              inserted payloads x y before after
              {| fullResponse := EmptyString; ticks := 2 |} Hx Hp Hins)
    as (t1 & t2 & E1 & E2 & E3).
  unfold consume, without, within. cbn [reads Stream.ending].
  destruct (Stream.read_loop _ _ (before ++ (x ++ y)%string :: after))
    as [e1 loc1].
  destruct (Stream.read_loop _ _ (before ++ (x ++ wire payloads ++ y)%string :: after))
    as [e2 loc2].
  cbn [fst snd] in E1, E2, E3. subst e1 e2 loc2.
  destruct ending as [|e]; cbn [fst snd].
  - split; [reflexivity|].
    exists (prologue variant sessionId message clock ++ t1), t2.
    now rewrite <- !app_assoc.
  - split; [reflexivity|].
    exists (prologue variant sessionId message clock ++ t1), (t2 ++ on_failure e).
    now rewrite <- !app_assoc.
Qed.



Lemma for_lines_emptyChunks variant sessionId clock (empties : list string) :
  Forall emptyChunkFrame empties ->
  forall loc : Local,
    Stream.for_lines (on_frame variant sessionId clock) loc
      (map (fun p => ("data: " ++ p)%string) empties) = ([], loc).
Proof.
  induction 1 as [|p empties Hp _ IH]; intros loc; [reflexivity|].
  cbn [map]. rewrite for_lines_cons, on_line_frame.
  rewrite (@on_frame_emptyChunk _ variant sessionId clock loc p Hp).
  unfold andThen. cbn [fst snd]. rewrite IH. reflexivity.
Qed.

Lemma emptyChunks_oneLine (empties : list string) :
  Forall emptyChunkFrame empties ->
  Forall (fun p => oneLine p = true) empties.
Proof.
  induction 1 as [|p empties Hp _ IH]; constructor; [now destruct Hp | exact IH].
Qed.

(** C8. A chunk frame whose content is missing, [null] or the empty
    string has no effect and changes no local of the consumer: nothing
    is dispatched, so neither the streaming text, nor the messages, nor
    the typing indicator change, and [fullResponse] stays as it is. Any
    number of such frames, put into a read at the start of a line, leave
    the effects and the result of [sendMessage] and of
    [sendPremiumMessage] as they are without them. *)
Theorem empty_chunk_frames_are_no_ops
  (sessionId message context : val) (clock : nat -> Z) :
  (forall variant (loc : Local) (payload : string),
      emptyChunkFrame payload ->
      on_frame variant sessionId clock loc payload = ([], loc)) /\
  (forall (empties : list string) (x y : string) (before after : list string)
          (ending : BodyEnd),
      Forall emptyChunkFrame empties ->
      wholeLines x = true ->
      let without := Response true {| reads := before ++ (x ++ y)%string :: after;
                                      ending := ending |} in
      let within := Response true
                      {| reads := before ++ (x ++ wire empties ++ y)%string :: after;
                         ending := ending |} in
      sendMessage sessionId message clock within =
      sendMessage sessionId message clock without /\
      sendPremiumMessage sessionId message context clock within =
      sendPremiumMessage sessionId message context clock without).
Proof.
  split.
  - intros variant loc payload H. now apply on_frame_emptyChunk.
  - intros empties x y before after ending Hempty Hx without within.
    subst without within. unfold sendMessage, sendPremiumMessage.
    set (context' := match context with VUndefined => VObject [] | _ => context end).
    split.
    + destruct (@consume_insert Regular sessionId message clock [] empties
                  x y before after ending Hx (emptyChunks_oneLine Hempty)
                  (@for_lines_emptyChunks Regular sessionId clock empties Hempty))
        as (Es & t1 & t2 & E1 & E2).
      apply injective_projections; [|exact Es].
      now rewrite E1, E2.
    + destruct (@consume_insert (Premium context') sessionId message clock
                  [] empties x y before after ending Hx
                  (emptyChunks_oneLine Hempty)
                  (@for_lines_emptyChunks (Premium context') sessionId clock
                     empties Hempty))
        as (Es & t1 & t2 & E1 & E2).
      apply injective_projections; [|exact Es].
      now rewrite E1, E2.
Qed.

(** C5, as the code has it. The consumers keep no terminal state: after
    a complete frame or an error frame the loop goes on, with
    [fullResponse] as it was. Lines that do not carry the marker are
    passed over; a later chunk frame still appends its content to
    [fullResponse] and to the streaming text; a later complete frame
    adds one more mentor message to the history. *)
Theorem frames_after_a_terminal_frame_are_applied
  (variant : Variant) (sessionId : val) (clock : nat -> Z)
  (loc : Local) (terminal : string) (data : val) :
  completeFrame terminal data \/ errorFrame terminal data ->
  let after := snd (on_frame variant sessionId clock loc terminal) in
  fullResponse after = fullResponse loc /\
  (forall lines,
      Forall (fun l => startsWith l "data: " = false) lines ->
      Stream.for_lines (on_frame variant sessionId clock) after lines = ([], after)) /\
  (forall payload content,
      chunkFrame payload content ->
      on_frame variant sessionId clock after payload =
      (chunkEffects [content],
       {| fullResponse := (fullResponse loc ++ content)%string;
          ticks := ticks after |}) /\
      forall state : AppState,
        ui_after state (chunkEffects [content]) =
        Some (withChat state (messages state) (isTyping state)
                       (streamingMessage state ++ content)%string
                       (error state) (isLoading state))) /\
  (forall payload data' ai,
      completeFrame payload data' ->
      aiMessage variant sessionId clock after data' = Some ai ->
      on_frame variant sessionId clock after payload =
      (completeEffects ai,
       {| fullResponse := fullResponse loc; ticks := S (S (ticks after)) |}) /\
      forall state : AppState,
        ui_after state (completeEffects ai) =
        Some (withChat state (messages state ++ [ai]) false EmptyString
                       (error state) (isLoading state))).
Proof.
  intros Hterminal after.
  assert (Hfull : fullResponse after = fullResponse loc).
  { unfold after, on_frame.
    destruct Hterminal as [(_ & Hparse & Htype) | (_ & Hparse & Htype)];
      rewrite Hparse, (get_of_field _ _ Htype), Htype; cbn.
    - now destruct (aiMessage variant sessionId clock loc data).
    - reflexivity. }
  split; [exact Hfull|]. split; [|split].
  - induction 1 as [|l lines Hl _ IH]; [reflexivity|].
    rewrite for_lines_cons, (@on_line_other _ _ _ _ l Hl). unfold andThen. cbn [fst snd].
    now rewrite IH.
  - intros payload content Hchunk. split.
    + rewrite (@on_frame_chunk _ variant sessionId clock after payload content Hchunk).
      now rewrite Hfull.
    + intros state. rewrite <- (withChat_id state) at 1.
      rewrite ui_after_chunks. cbn [concat]. now rewrite append_empty_r.
  - intros payload data' ai Hcomplete Hai. split.
    + rewrite (@on_frame_complete _ variant sessionId clock after payload data' ai Hcomplete Hai).
      now rewrite Hfull.
    + intros state. rewrite <- (withChat_id state) at 1.
      apply ui_after_complete.
Qed.

End Skipped.

Section AfterComplete.

#[local] Existing Instance Engine.runtime.

(** C5, on concrete streams. After a complete frame, a chunk frame with
    content [late] puts [late] into the streaming text; a second
    complete frame then adds a second mentor message. *)
Lemma terminal_frame_is_not_final :
  ui_after Scenario.fresh
    (fst (sendMessage Scenario.sessionId Scenario.question Scenario.clock
            (Scenario.delivered [frameLine Scenario.complete]))) =
  Some (withChat Scenario.fresh
          [Scenario.asked;
           Scenario.answered "1700000000003" "2023-11-14T22:13:20.003Z" EmptyString]
          false EmptyString VNull false) /\
  ui_after Scenario.fresh
    (fst (sendMessage Scenario.sessionId Scenario.question Scenario.clock
            (Scenario.delivered Scenario.chunkAfterComplete))) =
  Some (withChat Scenario.fresh
          [Scenario.asked;
           Scenario.answered "1700000000003" "2023-11-14T22:13:20.003Z" EmptyString]
          false "late" VNull false) /\
  ui_after Scenario.fresh
    (fst (sendMessage Scenario.sessionId Scenario.question Scenario.clock
            (Scenario.delivered Scenario.completeTwice))) =
  Some (withChat Scenario.fresh
          [Scenario.asked;
           Scenario.answered "1700000000003" "2023-11-14T22:13:20.003Z" EmptyString;
           Scenario.answered "1700000000005" "2023-11-14T22:13:20.005Z" "late"]
          false EmptyString VNull false).
Proof. split; [reflexivity|]. split; reflexivity. Qed.

End AfterComplete.

(* ===================================================================== *)
(** ** [ChatInterface]: one submit at a time *)
(* ===================================================================== *)

Section Submit.

Context {R : Runtime}.

(** C7. A submit made while a reply is streaming in, with an input that
    is empty once trimmed, or without a current session, is rejected:
    [handleSendMessage] prevents the default action of the event and
    returns; it opens no request, dispatches nothing and leaves the
    input as it is. The submit button follows the same policy: the form
    is rendered only when a session is current, and its button is then
    disabled exactly when [handleSendMessage] rejects. *)
Theorem submit_is_rejected_while_streaming
  (state : AppState) (local : ChatInterface.Local)
  (first second : ChatInterface.Settled) :
  isTyping state = true \/
  trim (ChatInterface.inputMessage local) = EmptyString \/
  truthy (currentSession state) = false ->
  ChatInterface.handleSendMessage state local first second =
  [ChatInterface.PreventDefault] /\
  existsb ChatInterface.opensRequest
          (ChatInterface.handleSendMessage state local first second) = false /\
  (ChatInterface.formRendered state = true ->
   ChatInterface.submitDisabled state local = true) /\
  ChatInterface.rejects state local =
  negb (ChatInterface.formRendered state)
  || ChatInterface.submitDisabled state local.
Proof.
  intros H.
  assert (Hr : ChatInterface.rejects state local = true).
  { unfold ChatInterface.rejects.
    destruct H as [-> | [-> | ->]]; cbn;
      now rewrite ?orb_true_r. }
  assert (Hb : ChatInterface.rejects state local =
               negb (ChatInterface.formRendered state)
               || ChatInterface.submitDisabled state local).
  { unfold ChatInterface.rejects, ChatInterface.formRendered,
      ChatInterface.submitDisabled.
    destruct (nonEmpty (trim (ChatInterface.inputMessage local))),
      (truthy (currentSession state)), (isTyping state); reflexivity. }
  split; [|split; [|split; [|exact Hb]]].
  - unfold ChatInterface.handleSendMessage. now rewrite Hr.
  - unfold ChatInterface.handleSendMessage. now rewrite Hr.
  - intros Hf. rewrite Hb, Hf in Hr. exact Hr.
Qed.

End Submit.

Section TwoSubmits.

#[local] Existing Instance Engine.runtime.

(** C7, on a concrete turn. With context awareness on, a submit is
    accepted on the fresh state, and the context-aware call it awaits
    dispatches nothing: the typing indicator stays off and the store is
    still the fresh state when a second question is submitted, which is
    accepted as well. When the two context-aware calls reject, each
    handler falls back to [sendMessage], without looking at the guard
    again, and the two streams run in the same turn: the store holds
    the two questions, and one streaming text made of the chunks of the
    two replies. *)
Lemma second_submit_opens_a_second_stream :
  ChatInterface.rejects Scenario.fresh Scenario.typed = false /\
  Requests.store_after Scenario.fresh
    (fst (Breaks.unanswered "What is a monad?")) = Some Scenario.fresh /\
  isTyping Scenario.fresh = false /\
  ChatInterface.rejects Scenario.fresh Breaks.typedAgain = false /\
  Submits.requests
    (ChatInterface.handleSendMessage Scenario.fresh Scenario.typed
       (ContextAwareChatInterface.settled
          (snd (Breaks.unanswered "What is a monad?")))
       ChatInterface.Resolves) =
  [ChatInterface.SendContextAwareMessage "What is a monad?" [];
   ChatInterface.SendMessage (VString "s1") "What is a monad?"] /\
  Submits.requests
    (ChatInterface.handleSendMessage Scenario.fresh Breaks.typedAgain
       (ContextAwareChatInterface.settled
          (snd (Breaks.unanswered "And a functor?")))
       ChatInterface.Resolves) =
  [ChatInterface.SendContextAwareMessage "And a functor?" [];
   ChatInterface.SendMessage (VString "s1") "And a functor?"] /\
  ui_after Scenario.fresh Breaks.mixed =
  Some (withChat Scenario.fresh
          [Breaks.wondered "What is a monad?";
           Breaks.wondered "And a functor?"]
          true "AB" VNull false).
Proof. repeat split. Qed.

End TwoSubmits.

(* ===================================================================== *)
(** ** The theorems on concrete streams *)
(* ===================================================================== *)

Section OnScenario.

#[local] Existing Instance Engine.runtime.

Import Scenario.

Ltac parsed_frame :=
  split; [reflexivity | eexists; repeat split; reflexivity].

Ltac whole_reads := repeat (constructor; [reflexivity|]); constructor.


(** Two frames in two reads, and in one. *)
Lemma cut_after_line_feed_changes_nothing_witness :
  sendMessage sessionId question clock (delivered wholeFrame) =
  sendMessage sessionId question clock (delivered [concat wholeFrame]).
Proof.
  assert (Hwhole : Forall (fun v => wholeLines v = true) wholeFrame)
    by whole_reads.
  pose proof (@cut_after_line_feed_changes_nothing Engine.runtime sessionId
                question VNull clock [] [] EmptyString EmptyString Done) as H.
  cbv zeta in H. destruct H as (_ & _ & _ & H).
  exact (proj1 (H wholeFrame Hwhole)).
Defined.

(** One chunk, then the error frame. *)
Lemma chunks_then_error_clear_partial_content_witness :
  snd (sendMessage sessionId question clock (delivered startedThenFailed)) =
  Returns "Hi" /\
  ui_after fresh
    (fst (sendMessage sessionId question clock (delivered startedThenFailed))) =
  Some (withChat fresh [asked] false EmptyString (VString "upstream failed") false).
Proof.
  assert (Hchunks : Forall (fun f => chunkFrame (fst f) (snd f))
                      [(chunk "Hi", "Hi")])
    by (repeat (constructor; [parsed_frame|]); constructor).
  assert (Hfailure : errorFrame failure failureData)
    by (repeat split; reflexivity).
  assert (Hwhole : Forall (fun v => wholeLines v = true) startedThenFailed)
    by whole_reads.
  pose proof (@chunks_then_error_clear_partial_content Engine.runtime fresh
                sessionId question VNull clock [(chunk "Hi", "Hi")] failure
                failureData startedThenFailed
                Hchunks Hfailure Hwhole eq_refl) as H.
  cbv zeta in H. exact (proj1 H).
Defined.


(** A chunk frame right after the complete frame. *)
Lemma frames_after_a_terminal_frame_are_applied_witness :
  on_frame Regular sessionId clock
    (snd (on_frame Regular sessionId clock atStart complete)) (chunk "late") =
  (chunkEffects ["late"], {| fullResponse := "late"; ticks := 4 |}).
Proof.
  assert (Hcomplete : completeFrame complete completeData)
    by (repeat split; reflexivity).
  assert (Hlate : chunkFrame (chunk "late") "late") by parsed_frame.
  pose proof (@frames_after_a_terminal_frame_are_applied Engine.runtime
                Regular sessionId clock atStart complete completeData
                (or_introl Hcomplete)) as H.
  cbv zeta in H. destruct H as (_ & _ & H & _).
  exact (proj1 (H (chunk "late") "late" Hlate)).
Defined.


(** A submit while a reply is streaming in. *)
Lemma submit_is_rejected_while_streaming_witness :
  ChatInterface.handleSendMessage streaming typed
    ChatInterface.Resolves ChatInterface.Resolves =
  [ChatInterface.PreventDefault (R := Engine.runtime)] /\
  ChatInterface.submitDisabled streaming typed = true.
Proof.
  pose proof (@submit_is_rejected_while_streaming Engine.runtime streaming
                typed ChatInterface.Resolves ChatInterface.Resolves
                (or_introl eq_refl)) as (H1 & _ & H2 & _).
  split; [exact H1 | exact (H2 eq_refl)].
Defined.

(** A chunk frame with an empty content and one without content, put
    between a chunk frame and the complete frame. *)
Lemma empty_chunk_frames_are_no_ops_witness :
  on_frame Regular sessionId clock atStart bare = ([], atStart) /\
  sendMessage sessionId question clock
    (delivered [(frameLine (chunk "Hi") ++ wire [chunk EmptyString; bare]
                   ++ frameLine complete)%string]) =
  sendMessage sessionId question clock
    (delivered [(frameLine (chunk "Hi") ++ frameLine complete)%string]).
Proof.
  assert (Hbare : emptyChunkFrame bare).
  { split; [reflexivity|]. eexists. split; [reflexivity|].
    split; [reflexivity|]. left. reflexivity. }
  assert (Hempty : emptyChunkFrame (chunk EmptyString)).
  { split; [reflexivity|]. eexists. split; [reflexivity|].
    split; [reflexivity|]. right. right. reflexivity. }
  pose proof (@empty_chunk_frames_are_no_ops Engine.runtime sessionId question
                VNull clock) as (Ha & Hb).
  split.
  - exact (Ha Regular atStart bare Hbare).
  - pose proof (Hb [chunk EmptyString; bare] (frameLine (chunk "Hi"))
                  (frameLine complete) [] [] Done
                  (Forall_cons _ Hempty (Forall_cons _ Hbare (Forall_nil _)))
                  eq_refl) as H.
    cbv zeta in H. exact (proj1 H).
Defined.

(** Five actions on the initial state. *)
Lemma streamingMessage_accumulates_witness :
  replay initialState dispatches =
  Some (withChat initialState [] true "bc" VNull false) /\
  streamingMessage (withChat initialState [] true "bc" VNull false) =
  concat (payloads (sinceClear [] dispatches)).
Proof.
  split; [reflexivity|].
  exact (proj2 (proj2 (@streamingMessage_accumulates Engine.runtime
                         initialState
                         (withChat initialState [] true "bc" VNull false)
                         dispatches eq_refl))).
Defined.

(** [sendMessage] when [fetch] rejects. *)
Lemma user_message_survives_failure_witness :
  exists later state',
    ui_after fresh
      (fst (consume Regular sessionId question clock (FetchRejects offline))) =
    Some state' /\
    isTyping state' = false /\
    streamingMessage state' = EmptyString /\
    error state' = VString "Failed to fetch" /\
    messages state' = messages fresh ++ asked :: later.
Proof.
  pose proof (@user_message_survives_failure Engine.runtime fresh sessionId
                question clock Regular) as H.
  cbv zeta in H. destruct H as (_ & _ & _ & _ & H).
  exact (H (FetchRejects offline) offline eq_refl).
Defined.

End OnScenario.

(* ===================================================================== *)
(** ** The model on some frames *)
(* ===================================================================== *)

Section Examples.

#[local] Existing Instance Engine.runtime.

Import Scenario.

(** The payload [null] parses, and reading its type throws: the inner
    [catch] logs a TypeError. *)
Example frame_null :
  on_frame Regular sessionId clock atStart "null" =
  ([ConsoleError "Error parsing streaming data:" TypeError], atStart).
Proof. reflexivity. Qed.

(** A content that is a number is appended in its decimal form. *)
Example frame_number_content :
  on_frame Regular sessionId clock atStart
    ("{" ++ Engine.literal "type" ++ ":" ++ Engine.literal "chunk" ++ ","
         ++ Engine.literal "content" ++ ":42}") =
  ([Dispatch (SET_STREAMING_MESSAGE (VNumber 42%Z))],
   {| fullResponse := "42"; ticks := 2 |}).
Proof. reflexivity. Qed.

(** A frame of an unknown type does nothing. *)
Example frame_unknown_type :
  on_frame Regular sessionId clock atStart
    (Engine.objectText [("type", "ping")]) = ([], atStart).
Proof. reflexivity. Qed.

(** A line without the marker is passed over, whatever it holds. *)
Example line_without_marker :
  Stream.on_line (on_frame Regular sessionId clock) atStart (chunk "Hi") =
  ([], atStart).
Proof. reflexivity. Qed.

(** On a [null] context and a complete frame that names no mode,
    [sendPremiumMessage] turns the typing indicator off and then fails to
    build the mentor message: the inner [catch] logs a TypeError. *)
Example premium_null_context :
  on_frame (Premium VNull) sessionId clock atStart complete =
  ([Dispatch (SET_TYPING false);
    ConsoleError "Error parsing premium streaming data:" TypeError],
   {| fullResponse := EmptyString; ticks := 4 |}).
Proof. reflexivity. Qed.

(** The guard of [handleSendMessage] lets a typed question through when
    nothing is streaming in: the input is cleared and the request sent. *)
Example submit_accepted :
  ChatInterface.handleSendMessage fresh typed
    ChatInterface.Resolves ChatInterface.Resolves =
  [ChatInterface.PreventDefault;
   ChatInterface.SetInputMessage EmptyString;
   ChatInterface.SendContextAwareMessage "What is a monad?" []].
Proof. reflexivity. Qed.

End Examples.

(* ===================================================================== *)
(** * Further properties *)
(* ===================================================================== *)

(* ===================================================================== *)
(** ** The store: history, sessions, theme, achievements *)
(* ===================================================================== *)

Section StoreHistory.

Import Views.

Context {R : Runtime}.

(** What one action does to the history. *)
Lemma appReducer_messages (state state' : AppState) (action : Action) :
  appReducer state action = Some state' ->
  messages state' =
  match action with
  | SET_MESSAGES payload => payload
  | ADD_MESSAGE payload => messages state ++ [payload]
  | _ => messages state
  end.
Proof.
  destruct action; simpl; intros H; try (injection H as <-; reflexivity).
  - destruct (ToString payload); [injection H as <-; reflexivity | discriminate].
  - destruct (iterate (achievements state)); [injection H as <-; reflexivity | discriminate].
Qed.

(** X1. Whatever is dispatched, as long as no [SET_MESSAGES] is, the
    history only grows at its end: it is the history before, followed by
    the payloads of the [ADD_MESSAGE] actions in dispatch order. No
    other action removes, reorders or rewrites a message. *)
Theorem history_only_grows (actions : list Action) :
  forall state state' : AppState,
  replay state actions = Some state' ->
  setsMessages actions = false ->
  messages state' = messages state ++ addedMessages actions.
Proof.
  induction actions as [|a actions IH]; intros state state' H Hset.
  - injection H as <-. now rewrite app_nil_r.
  - simpl in H. destruct (appReducer state a) as [mid|] eqn:E; [|discriminate].
    pose proof (appReducer_messages _ _ E) as Hmid.
    destruct a; try discriminate;
      try (simpl in *; rewrite (IH mid state' H Hset), Hmid; reflexivity).
    simpl in *. rewrite (IH mid state' H Hset), Hmid, <- app_assoc. reflexivity.
Qed.

Lemma appReducer_sessions (state state' : AppState) (action : Action) :
  appReducer state action = Some state' ->
  sessions state' =
  match action with
  | SET_SESSIONS payload => payload
  | ADD_SESSION payload => payload :: sessions state
  | _ => sessions state
  end.
Proof.
  destruct action; simpl; intros H; try (injection H as <-; reflexivity).
  - destruct (ToString payload); [injection H as <-; reflexivity | discriminate].
  - destruct (iterate (achievements state)); [injection H as <-; reflexivity | discriminate].
Qed.

(** X2. Sessions are listed newest first: as long as no [SET_SESSIONS]
    is dispatched, the list of sessions is the payloads of the
    [ADD_SESSION] actions in reverse dispatch order, followed by the
    sessions that were there. *)
Theorem sessions_newest_first (actions : list Action) :
  forall state state' : AppState,
  replay state actions = Some state' ->
  setsSessions actions = false ->
  sessions state' = rev (addedSessions actions) ++ sessions state.
Proof.
  induction actions as [|a actions IH]; intros state state' H Hset.
  - injection H as <-. reflexivity.
  - simpl in H. destruct (appReducer state a) as [mid|] eqn:E; [|discriminate].
    pose proof (appReducer_sessions _ _ E) as Hmid.
    destruct a; try discriminate;
      try (simpl in *; rewrite (IH mid state' H Hset), Hmid; reflexivity).
    simpl in *. rewrite (IH mid state' H Hset), Hmid, <- app_assoc. reflexivity.
Qed.

Lemma appReducer_darkMode (state state' : AppState) (action : Action) :
  appReducer state action = Some state' ->
  darkMode state' =
  match action with
  | TOGGLE_DARK_MODE => negb (darkMode state)
  | _ => darkMode state
  end.
Proof.
  destruct action; simpl; intros H; try (injection H as <-; reflexivity).
  - destruct (ToString payload); [injection H as <-; reflexivity | discriminate].
  - destruct (iterate (achievements state)); [injection H as <-; reflexivity | discriminate].
Qed.

(** X3. The theme depends on the parity of the toggles alone: after any
    sequence of actions the dark mode is what it was when the sequence
    holds an even number of [TOGGLE_DARK_MODE], and the opposite
    otherwise. *)
Theorem darkMode_parity (actions : list Action) :
  forall state state' : AppState,
  replay state actions = Some state' ->
  darkMode state' =
  if Nat.even (toggles actions) then darkMode state else negb (darkMode state).
Proof.
  induction actions as [|a actions IH]; intros state state' H.
  - injection H as <-. reflexivity.
  - simpl in H. destruct (appReducer state a) as [mid|] eqn:E; [|discriminate].
    pose proof (appReducer_darkMode _ _ E) as Hmid.
    destruct a; try (simpl toggles; rewrite (IH mid state' H), Hmid; reflexivity).
    cbn [toggles]. rewrite (IH mid state' H), Hmid, Nat.even_succ.
    rewrite <- Nat.negb_even.
    destruct (Nat.even (toggles actions)), (darkMode state); reflexivity.
Qed.

End StoreHistory.

Section Achievements.

Import Views.

Context {R : Runtime}.

Lemma appReducer_wellFormed (state : AppState) (action : Action) (old : list val) :
  achievements state = VArray old ->
  wellFormed action = true ->
  exists state',
    appReducer state action = Some state' /\
    achievements state' =
    match action with
    | SET_GAMIFICATION_DATA payload => achievementsOf payload
    | ADD_ACHIEVEMENT payload => VArray (old ++ [payload])
    | _ => VArray old
    end.
Proof.
  intros Hold Hwf.
  destruct action; simpl in *;
    try (eexists; split; [reflexivity | exact Hold]).
  - destruct (ToString payload); [|discriminate].
    eexists; split; [reflexivity | exact Hold].
  - eexists; split; reflexivity.
  - rewrite Hold. simpl. eexists; split; reflexivity.
Qed.

(** X4. The reducer does not throw on well-formed actions: from a state
    whose achievements are an array, any sequence of actions whose
    streaming payloads have a string form and whose gamification data
    carry an array of achievement details, or none, is applied to the
    end, and the achievements are still an array. When the sequence
    does not replace the gamification data, they are the achievements
    that were there followed by the payloads of the [ADD_ACHIEVEMENT]
    actions in dispatch order. *)
Theorem reducer_applies_well_formed_actions (actions : list Action) :
  forall (state : AppState) (old : list val),
  achievements state = VArray old ->
  forallb wellFormed actions = true ->
  exists state',
    replay state actions = Some state' /\
    isArray (achievements state') = true /\
    (setsGamification actions = false ->
     achievements state' = VArray (old ++ addedAchievements actions)).
Proof.
  induction actions as [|a actions IH]; intros state old Hold Hwf.
  - exists state. split; [reflexivity|]. rewrite Hold. split; [reflexivity|].
    intros _. now rewrite app_nil_r.
  - cbn [forallb] in Hwf. apply andb_true_iff in Hwf as [Ha Hrest].
    destruct (appReducer_wellFormed state a Hold Ha) as (mid & E & Hmid).
    cbn [replay]. rewrite E.
    destruct a;
      try (destruct (IH mid old Hmid Hrest) as (state' & Er & Harr & Hadd);
           exists state'; split; [exact Er|]; split; [exact Harr|];
           exact Hadd).
    + (* SET_GAMIFICATION_DATA *)
      cbn [wellFormed] in Ha.
      destruct (achievementsOf payload) as [| | | | |l|] eqn:Ep; try discriminate.
      destruct (IH mid l Hmid Hrest) as (state' & Er & Harr & _).
      exists state'. split; [exact Er|]. split; [exact Harr|].
      discriminate.
    + (* ADD_ACHIEVEMENT *)
      destruct (IH mid (old ++ [payload]) Hmid Hrest) as (state' & Er & Harr & Hadd).
      exists state'. split; [exact Er|]. split; [exact Harr|].
      intros Hset. cbn [addedAchievements]. rewrite (Hadd Hset), <- app_assoc.
      reflexivity.
Qed.

(** X5. Gamification data whose achievement details are truthy and not
    iterable (an object, a number, [true]) are stored as they are, and
    the next [ADD_ACHIEVEMENT] makes the reducer throw. *)
Theorem malformed_achievement_details_break_the_reducer
  (state : AppState) (payload achievement : val) :
  truthy (getOpt (getOpt payload "achievements") "details") = true ->
  iterate (getOpt (getOpt payload "achievements") "details") = None ->
  (exists state',
      appReducer state (SET_GAMIFICATION_DATA payload) = Some state' /\
      achievements state' = getOpt (getOpt payload "achievements") "details") /\
  replay state [SET_GAMIFICATION_DATA payload; ADD_ACHIEVEMENT achievement] = None.
Proof.
  intros Ht Hi. split.
  - eexists. split; [reflexivity|]. cbn [achievements]. unfold or_else.
    now rewrite Ht.
  - cbn [replay appReducer achievements]. unfold or_else. rewrite Ht, Hi.
    reflexivity.
Qed.

End Achievements.

(* ===================================================================== *)
(** ** Chat calls on any response *)
(* ===================================================================== *)

Section AnyResponse.

Import Shapes.

Context {R : Runtime}.

Lemma appendsReplies_nil : appendsReplies [].
Proof.
  intros s msgs typing streaming err loading.
  exists [], typing, streaming, err, loading.
  split; [constructor | now rewrite app_nil_r].
Qed.

Lemma appendsReplies_app (a b : list Effect) :
  appendsReplies a -> appendsReplies b -> appendsReplies (a ++ b).
Proof.
  intros Ha Hb s msgs typing streaming err loading.
  destruct (Ha s msgs typing streaming err loading)
    as (l1 & t1 & x1 & e1 & g1 & M1 & E1).
  destruct (Hb s (msgs ++ l1) t1 x1 e1 g1)
    as (l2 & t2 & x2 & e2 & g2 & M2 & E2).
  exists (l1 ++ l2), t2, x2, e2, g2. split.
  - apply Forall_app. now split.
  - now rewrite ui_after_app, E1, E2, app_assoc.
Qed.

Lemma aiMessage_isMentor variant sessionId clock (loc : Local) (data ai : val) :
  aiMessage variant sessionId clock loc data = Some ai -> isMentor ai.
Proof.
  unfold aiMessage. destruct variant as [|context].
  - intros [= <-]. reflexivity.
  - destruct (if truthy (field data "mode") then _ else _); [|discriminate].
    intros [= <-]. reflexivity.
Qed.

Lemma appendsReplies_on_frame variant sessionId clock (loc : Local) (payload : string) :
  appendsReplies (fst (on_frame variant sessionId clock loc payload)).
Proof.
  unfold on_frame.
  destruct (JSON_parse payload) as [data|]; [|apply appendsReplies_nil].
  destruct (get data "type") as [type|]; [|apply appendsReplies_nil].
  destruct (isString type "chunk" && truthy (field data "content")).
  - destruct (ToString (field data "content")) as [text|] eqn:E;
      [|apply appendsReplies_nil].
    intros s msgs typing streaming err loading.
    exists [], typing, (streaming ++ text)%string, err, loading.
    split; [constructor|].
    unfold ui_after. cbn [fst dispatched replay appReducer]. rewrite E.
    now rewrite app_nil_r.
  - destruct (isString type "complete").
    + destruct (aiMessage variant sessionId clock loc data) as [ai|] eqn:E.
      * intros s msgs typing streaming err loading.
        exists [ai], false, EmptyString, err, loading.
        split; [|reflexivity].
        constructor; [exact (aiMessage_isMentor _ _ _ _ _ E) | constructor].
      * intros s msgs typing streaming err loading.
        exists [], false, streaming, err, loading.
        split; [constructor | now rewrite app_nil_r].
    + destruct (isString type "error"); [|apply appendsReplies_nil].
      intros s msgs typing streaming err loading.
      exists [], false, EmptyString, (field data "message"), false.
      split; [constructor | now rewrite app_nil_r].
Qed.

Lemma appendsReplies_read_loop variant sessionId clock (values : list string) :
  forall loc : Local,
  appendsReplies
    (fst (Stream.read_loop (on_frame variant sessionId clock) loc values)).
Proof.
  assert (L : forall lines (loc : Local),
             appendsReplies
               (fst (Stream.for_lines (on_frame variant sessionId clock) loc lines))).
  { induction lines as [|line lines IH]; intros loc; [apply appendsReplies_nil|].
    rewrite for_lines_cons. unfold andThen. cbn [fst].
    apply appendsReplies_app; [|apply IH].
    unfold Stream.on_line.
    destruct (startsWith line "data: ");
      [apply appendsReplies_on_frame | apply appendsReplies_nil]. }
  induction values as [|v values IH]; intros loc; [apply appendsReplies_nil|].
  rewrite read_loop_cons. unfold andThen. cbn [fst].
  apply appendsReplies_app; [apply L | apply IH].
Qed.

Lemma appendsReplies_failure (e : Error) : appendsReplies (on_failure e).
Proof.
  intros s msgs typing streaming err loading.
  exists [], false, EmptyString, (VString (error_message e)), false.
  split; [constructor | now rewrite app_nil_r].
Qed.

Lemma consume_tail_appends variant sessionId message clock (net : FetchResult) :
  appendsReplies (skipn 1 (fst (consume variant sessionId message clock net))).
Proof.
  unfold consume. destruct net as [e | [|] body].
  - cbn. apply (@appendsReplies_app [_; _; _] _); [|apply appendsReplies_failure].
    intros s msgs typing streaming err loading.
    exists [], true, EmptyString, err, loading.
    split; [constructor | now rewrite app_nil_r].
  - pose proof (appendsReplies_read_loop variant sessionId clock (reads body)
                  {| fullResponse := EmptyString; ticks := 2 |}) as L.
    destruct (Stream.read_loop _ _ (reads body)) as [effects loc].
    cbn [fst] in L.
    assert (P : appendsReplies
                  [Dispatch (SET_TYPING true); Dispatch CLEAR_STREAMING_MESSAGE;
                   Fetch (endpoint variant) (request variant sessionId message)]).
    { intros s msgs typing streaming err loading.
      exists [], true, EmptyString, err, loading.
      split; [constructor | now rewrite app_nil_r]. }
    destruct (ending body) as [|e]; cbn.
    + now apply (@appendsReplies_app [_; _; _] _).
    + apply (@appendsReplies_app [_; _; _] _); [exact P|].
      apply appendsReplies_app; [exact L | apply appendsReplies_failure].
  - cbn. apply (@appendsReplies_app [_; _; _] _); [|apply appendsReplies_failure].
    intros s msgs typing streaming err loading.
    exists [], true, EmptyString, err, loading.
    split; [constructor | now rewrite app_nil_r].
Qed.

Lemma consume_head variant sessionId message clock (net : FetchResult) :
  fst (consume variant sessionId message clock net) =
  [Dispatch (ADD_MESSAGE (userMessage sessionId message clock))]
    ++ skipn 1 (fst (consume variant sessionId message clock net)).
Proof.
  unfold consume. destruct net as [e | [|] body]; [reflexivity| |reflexivity].
  destruct (Stream.read_loop _ _ (reads body)) as [effects loc].
  now destruct (ending body).
Qed.

Lemma ui_after_user_message (state : AppState) (user : val) :
  ui_after state [Dispatch (ADD_MESSAGE user)] =
  Some (withChat state (messages state ++ [user]) (isTyping state)
                 (streamingMessage state) (error state) (isLoading state)).
Proof. now destruct state. Qed.

(** X6. Whatever the network does, the store can apply everything a
    chat call dispatches, and the call changes nothing but the history,
    the typing indicator, the streaming text, the error and the loading
    flag: the user, the sessions, the current session, the theme, the
    progress and the gamification data stay as they are. The history
    keeps the messages it had, in order, followed by the user message
    and then by messages of the mentor only. *)
Theorem chat_call_only_extends_the_history
  (variant : Variant) (sessionId message : val) (clock : nat -> Z)
  (net : FetchResult) (state : AppState) :
  exists later typing streaming err loading,
    Forall isMentor later /\
    ui_after state (fst (consume variant sessionId message clock net)) =
    Some (withChat state
            (messages state ++ userMessage sessionId message clock :: later)
            typing streaming err loading).
Proof.
  destruct (@consume_tail_appends variant sessionId message clock net state
              (messages state ++ [userMessage sessionId message clock])
              (isTyping state) (streamingMessage state) (error state)
              (isLoading state))
    as (later & t & x & err & g & M & U).
  exists later, t, x, err, g. split; [exact M|].
  rewrite consume_head, ui_after_app, ui_after_user_message, U, <- app_assoc.
  reflexivity.
Qed.

End AnyResponse.

Section Returned.

Import Shapes.

Context {R : Runtime}.

Variable variant : Variant.
Variables sessionId message : val.
Variable clock : nat -> Z.

Local Abbreviation handle := (on_frame variant sessionId clock).

Lemma on_frame_streamed (loc : Local) (payload : string) :
  fullResponse (snd (handle loc payload)) =
  (fullResponse loc
     ++ concat (payloads (dispatched (fst (handle loc payload)))))%string.
Proof.
  unfold on_frame.
  destruct (JSON_parse payload) as [data|]; [|cbn; now rewrite append_empty_r].
  destruct (get data "type") as [type|]; [|cbn; now rewrite append_empty_r].
  destruct (isString type "chunk" && truthy (field data "content")).
  - destruct (ToString (field data "content")) as [text|] eqn:E.
    + cbn. rewrite E. cbn. now rewrite append_empty_r.
    + cbn. now rewrite append_empty_r.
  - destruct (isString type "complete").
    + destruct (aiMessage variant sessionId clock loc data);
        cbn; now rewrite append_empty_r.
    + destruct (isString type "error"); cbn; now rewrite append_empty_r.
Qed.

Lemma for_lines_streamed (lines : list string) : forall loc : Local,
  fullResponse (snd (Stream.for_lines handle loc lines)) =
  (fullResponse loc
     ++ concat (payloads (dispatched (fst (Stream.for_lines handle loc lines)))))%string.
Proof.
  induction lines as [|line lines IH]; intros loc.
  - cbn. now rewrite append_empty_r.
  - rewrite for_lines_cons. unfold andThen. cbn [fst snd].
    rewrite IH, dispatched_app, payloads_app, concat_app.
    unfold Stream.on_line. destruct (startsWith line "data: ").
    + now rewrite on_frame_streamed, append_assoc.
    + cbn. reflexivity.
Qed.

Lemma read_loop_streamed (values : list string) : forall loc : Local,
  fullResponse (snd (Stream.read_loop handle loc values)) =
  (fullResponse loc
     ++ concat (payloads (dispatched (fst (Stream.read_loop handle loc values)))))%string.
Proof.
  induction values as [|v values IH]; intros loc.
  - cbn. now rewrite append_empty_r.
  - rewrite read_loop_cons. unfold andThen. cbn [fst snd].
    rewrite IH, dispatched_app, payloads_app, concat_app.
    now rewrite for_lines_streamed, append_assoc.
Qed.

(** X7. On any response whose body ends, whatever its lines hold, the
    text a chat call returns is the text it has streamed to the store:
    the payloads of the [SET_STREAMING_MESSAGE] actions it dispatched,
    as text, in dispatch order. *)
Theorem returned_text_is_streamed_text (values : list string) :
  snd (consume variant sessionId message clock
         (Response true {| reads := values; ending := Done |})) =
  Returns
    (concat (payloads (dispatched
       (fst (consume variant sessionId message clock
               (Response true {| reads := values; ending := Done |})))))).
Proof.
  unfold consume. cbn [reads ending].
  pose proof (read_loop_streamed values
                {| fullResponse := EmptyString; ticks := 2 |}) as H.
  destruct (Stream.read_loop _ _ values) as [effects loc].
  cbn [fst snd fullResponse] in *. rewrite H.
  now rewrite dispatched_app, payloads_app.
Qed.

(** X10. Only the lines that carry the marker count: two responses
    whose marked lines are the same, in the same order, and that end the
    same way, make a chat call do the same things and settle the same
    way, however the text between these lines differs and however the
    lines are grouped into reads. *)
Theorem only_marked_lines_count (values values' : list string) (ending : BodyEnd) :
  markedLines values = markedLines values' ->
  consume variant sessionId message clock
    (Response true {| reads := values; ending := ending |}) =
  consume variant sessionId message clock
    (Response true {| reads := values'; ending := ending |}).
Proof.
  assert (F : forall lines (loc : Local),
             Stream.for_lines handle loc lines =
             Stream.for_lines handle loc
               (filter (fun line => startsWith line "data: ") lines)).
  { induction lines as [|line lines IH]; intros loc; [reflexivity|].
    cbn [filter]. destruct (startsWith line "data: ") eqn:E.
    - rewrite !for_lines_cons. unfold andThen. now rewrite IH.
    - rewrite for_lines_cons, (@on_line_other _ _ _ _ line E).
      unfold andThen. cbn [fst snd]. rewrite IH.
      now destruct (Stream.for_lines handle loc _). }
  assert (L : forall vs (loc : Local),
             Stream.read_loop handle loc vs =
             Stream.for_lines handle loc (flat_map (split LF) vs)).
  { induction vs as [|v vs IH]; intros loc; [reflexivity|].
    cbn [flat_map]. rewrite read_loop_cons, for_lines_app. unfold andThen.
    now rewrite IH. }
  intros H. unfold consume. cbn [reads].
  rewrite !L, (F (flat_map (split LF) values)), (F (flat_map (split LF) values')).
  unfold markedLines in H. now rewrite H.
Qed.

End Returned.

Section TwoConsumers.

Import Shapes.

Context {R : Runtime}.

Variables sessionId message : val.
Variable clock : nat -> Z.

Lemma sameAction_refl (a : Action) : sameAction a a.
Proof. destruct a; cbn; trivial. Qed.

Lemma sameAction_all_refl (l : list Action) : Forall2 sameAction l l.
Proof. induction l; constructor; [apply sameAction_refl | assumption]. Qed.

(** The two consumers keep the same locals on every frame, and when the
    context is an object they dispatch the same actions, but for the
    mentor message itself. *)
Lemma on_frame_agree (context : val) (loc : Local) (payload : string) :
  snd (on_frame Regular sessionId clock loc payload) =
  snd (on_frame (Premium context) sessionId clock loc payload) /\
  (nullish context = false ->
   Forall2 sameAction
     (dispatched (fst (on_frame Regular sessionId clock loc payload)))
     (dispatched (fst (on_frame (Premium context) sessionId clock loc payload)))).
Proof.
  unfold on_frame.
  destruct (JSON_parse payload) as [data|]; [|split; [reflexivity | constructor]].
  destruct (get data "type") as [type|]; [|split; [reflexivity | constructor]].
  destruct (isString type "chunk" && truthy (field data "content")).
  - destruct (ToString (field data "content"));
      (split; [reflexivity | intros _; apply sameAction_all_refl]).
  - destruct (isString type "complete").
    + split.
      * destruct (aiMessage Regular _ _ _ _), (aiMessage (Premium context) _ _ _ _);
          reflexivity.
      * intros Hc. unfold aiMessage, get. rewrite Hc.
        destruct (truthy (field data "mode")); cbn;
          repeat constructor.
    + destruct (isString type "error");
        (split; [reflexivity | intros _; apply sameAction_all_refl]).
Qed.

Lemma read_loop_agree (context : val) (values : list string) : forall loc : Local,
  snd (Stream.read_loop (on_frame Regular sessionId clock) loc values) =
  snd (Stream.read_loop (on_frame (Premium context) sessionId clock) loc values) /\
  (nullish context = false ->
   Forall2 sameAction
     (dispatched (fst (Stream.read_loop (on_frame Regular sessionId clock) loc values)))
     (dispatched (fst (Stream.read_loop (on_frame (Premium context) sessionId clock)
                         loc values)))).
Proof.
  assert (L : forall lines (loc : Local),
             snd (Stream.for_lines (on_frame Regular sessionId clock) loc lines) =
             snd (Stream.for_lines (on_frame (Premium context) sessionId clock) loc lines) /\
             (nullish context = false ->
              Forall2 sameAction
                (dispatched (fst (Stream.for_lines (on_frame Regular sessionId clock)
                                    loc lines)))
                (dispatched (fst (Stream.for_lines
                                    (on_frame (Premium context) sessionId clock)
                                    loc lines))))).
  { induction lines as [|line lines IH]; intros loc;
      [split; [reflexivity | constructor]|].
    rewrite !for_lines_cons. unfold andThen. cbn [fst snd].
    assert (S1 : snd (Stream.on_line (on_frame Regular sessionId clock) loc line) =
                 snd (Stream.on_line (on_frame (Premium context) sessionId clock)
                        loc line) /\
                 (nullish context = false ->
                  Forall2 sameAction
                    (dispatched (fst (Stream.on_line
                                        (on_frame Regular sessionId clock) loc line)))
                    (dispatched (fst (Stream.on_line
                                        (on_frame (Premium context) sessionId clock)
                                        loc line))))).
    { unfold Stream.on_line. destruct (startsWith line "data: ");
        [apply on_frame_agree | split; [reflexivity | constructor]]. }
    destruct S1 as [S1 D1]. rewrite <- S1.
    destruct (IH (snd (Stream.on_line (on_frame Regular sessionId clock) loc line)))
      as [S2 D2].
    split; [exact S2|]. intros Hc. rewrite !dispatched_app.
    apply Forall2_app; [now apply D1 | now apply D2]. }
  induction values as [|v values IH]; intros loc;
    [split; [reflexivity | constructor]|].
  rewrite !read_loop_cons. unfold andThen. cbn [fst snd].
  destruct (L (split LF v) loc) as [S1 D1]. rewrite <- S1.
  destruct (IH (snd (Stream.for_lines (on_frame Regular sessionId clock) loc
                       (split LF v)))) as [S2 D2].
  split; [exact S2|]. intros Hc. rewrite !dispatched_app.
  apply Forall2_app; [now apply D1 | now apply D2].
Qed.

(** X8. On a rejected [fetch] and on any response that is OK,
    [sendMessage] and [sendPremiumMessage] settle the same way, with the
    same text or the same error; and when the context is not [null]
    they dispatch the same actions in the same order, but for the fields
    of the mentor messages. *)
Theorem both_consumers_agree (context : val) (net : FetchResult) :
  (forall body, net <> Response false body) ->
  snd (sendMessage sessionId message clock net) =
  snd (sendPremiumMessage sessionId message context clock net) /\
  (context <> VNull ->
   Forall2 sameAction
     (dispatched (fst (sendMessage sessionId message clock net)))
     (dispatched (fst (sendPremiumMessage sessionId message context clock net)))).
Proof.
  intros Hok. unfold sendMessage, sendPremiumMessage.
  set (context' := match context with VUndefined => VObject [] | _ => context end).
  unfold consume. destruct net as [e | [|] body].
  - split; [reflexivity|]. intros _. cbn. repeat constructor.
  - destruct (read_loop_agree context' (reads body)
                {| fullResponse := EmptyString; ticks := 2 |}) as [S D].
    destruct (Stream.read_loop (on_frame Regular sessionId clock) _ (reads body))
      as [e1 l1].
    destruct (Stream.read_loop (on_frame (Premium context') sessionId clock) _
                (reads body)) as [e2 l2].
    cbn [fst snd] in S, D. subst l2.
    destruct (ending body) as [|e]; cbn [fst snd].
    + split; [reflexivity|]. intros Hc.
      cbn. constructor; [exact I|]. do 2 (constructor; [reflexivity|]).
      apply D. now apply defaulted_not_nullish.
    + split; [reflexivity|]. intros Hc.
      cbn. constructor; [exact I|]. do 2 (constructor; [reflexivity|]).
      rewrite !dispatched_app. apply Forall2_app.
      * apply D. now apply defaulted_not_nullish.
      * apply sameAction_all_refl.
  - now elim (Hok body).
Qed.

(** X9. A response made of chunk frames alone, delivered in reads that
    end where a line ends, whose body ends without a complete frame or
    an error frame: the call returns the concatenated contents, but
    nothing turns the typing indicator off or clears the streaming text,
    so the input of the chat stays disabled and no mentor message is
    added. *)
Theorem stream_without_terminal_frame_keeps_typing
  (variant : Variant) (state : AppState)
  (frames : list (string * string)) (values : list string) :
  Forall (fun f => chunkFrame (fst f) (snd f)) frames ->
  Forall (fun v => wholeLines v = true) values ->
  concat values = wire (map fst frames) ->
  let net := Response true {| reads := values; ending := Done |} in
  snd (consume variant sessionId message clock net) =
  Returns (concat (map snd frames)) /\
  exists state',
    ui_after state (fst (consume variant sessionId message clock net)) =
    Some state' /\
    state' = withChat state
               (messages state ++ [userMessage sessionId message clock])
               true (concat (map snd frames)) (error state) (isLoading state) /\
    ChatInterface.inputDisabled state' = true.
Proof.
  intros Hframes Hvalues Hwire net. unfold net, consume. cbn [reads ending].
  rewrite (@read_loop_frames _ _ (on_frame variant sessionId clock) _ values
             (map fst frames) Hvalues (chunkFrames_oneLine Hframes) Hwire).
  rewrite (@for_lines_chunks _ variant sessionId clock frames _ Hframes).
  cbn [fst snd fullResponse append]. split; [reflexivity|].
  eexists. split; [|split; [reflexivity|reflexivity]].
  now rewrite ui_after_app, ui_after_prologue, ui_after_chunks.
Qed.

End TwoConsumers.

(* ===================================================================== *)
(** ** [ChatInterface]: a submit that is accepted *)
(* ===================================================================== *)

Section Accepted.

Import Submits.

Context {R : Runtime}.

(** X11. A submit that passes the guard prevents the default action of
    the event, clears the input, and then opens at most two requests,
    each carrying the trimmed input, which is not empty. It opens none
    exactly in the advanced streaming mode with context awareness off:
    the typed message is then dropped. The second request, if any, is
    the fallback call to [sendMessage], made only when the first attempt
    failed. *)
Theorem accepted_submit_sends_the_trimmed_input
  (state : AppState) (local : ChatInterface.Local)
  (first second : ChatInterface.Settled) :
  ChatInterface.rejects state local = false ->
  let steps := ChatInterface.handleSendMessage state local first second in
  let message := trim (ChatInterface.inputMessage local) in
  nonEmpty message = true /\
  (exists rest,
      steps = ChatInterface.PreventDefault
                :: ChatInterface.SetInputMessage EmptyString :: rest) /\
  Forall (fun s => carried s = Some message) (requests steps) /\
  length (requests steps) <= 2 /\
  (requests steps = [] <->
   ChatInterface.useContextAwareness local = false /\
   ChatInterface.useAdvancedStreaming local = true) /\
  (existsb isFallback steps = true ->
   first = ChatInterface.Rejects \/
   ChatInterface.conversationContext (messages state) = None).
Proof.
  intros Hr steps message. subst steps message.
  unfold ChatInterface.handleSendMessage. rewrite Hr.
  split.
  { unfold ChatInterface.rejects in Hr.
    destruct (nonEmpty (trim (ChatInterface.inputMessage local)));
      [reflexivity | discriminate]. }
  split; [eexists; reflexivity|].
  destruct (ChatInterface.useContextAwareness local),
    (ChatInterface.useAdvancedStreaming local),
    (ChatInterface.conversationContext (messages state)) as [context|],
    first, second;
    cbn;
    (split; [repeat constructor|]);
    (split; [repeat constructor|]);
    (split;
     [split;
      [intros H; first [discriminate H | split; reflexivity]
      |intros [H1 H2]; first [discriminate H1 | discriminate H2 | reflexivity]]
     |]);
    first [discriminate | intros _; left; reflexivity | intros _; right; reflexivity].
Qed.

End Accepted.

Section ContextOfHistory.

Import Shapes.

Context {R : Runtime}.

Lemma conversationContext_objects (msgs : list val) :
  Forall (fun m => nullish m = false) msgs ->
  exists context,
    ChatInterface.conversationContext msgs = Some context /\
    length context = length msgs.
Proof.
  induction 1 as [|m msgs Hm _ (context & E & L)].
  - exists []. split; reflexivity.
  - cbn [ChatInterface.conversationContext]. unfold get at 1.
    rewrite Hm, E. eexists. split; [reflexivity|]. cbn. now rewrite L.
Qed.

Lemma isMentor_not_nullish (m : val) : isMentor m -> nullish m = false.
Proof. unfold isMentor. destruct m; cbn; intros H; try discriminate; reflexivity. Qed.

(** X12. The history a chat call leaves can always be turned into the
    conversation context of the next context-aware submit: when no
    message of the history was [null] or [undefined] before the call,
    none is after it, whatever the response held, and
    [handleSendMessage] maps the history to a context with one entry per
    message, without throwing. *)
Theorem history_after_a_chat_call_maps_to_a_context
  (variant : Variant) (sessionId message : val) (clock : nat -> Z)
  (net : FetchResult) (state state' : AppState) :
  Forall (fun m => nullish m = false) (messages state) ->
  ui_after state (fst (consume variant sessionId message clock net)) = Some state' ->
  Forall (fun m => nullish m = false) (messages state') /\
  exists context,
    ChatInterface.conversationContext (messages state') = Some context /\
    length context = length (messages state').
Proof.
  intros Hold Hui.
  destruct (@consume_tail_appends _ variant sessionId message clock net state
              (messages state ++ [userMessage sessionId message clock])
              (isTyping state) (streamingMessage state) (error state)
              (isLoading state))
    as (later & t & x & err & g & M & U).
  rewrite consume_head, ui_after_app, ui_after_user_message, U in Hui.
  injection Hui as <-. cbn [messages withChat].
  assert (H : Forall (fun m => nullish m = false)
                ((messages state ++ [userMessage sessionId message clock]) ++ later)).
  { apply Forall_app. split.
    - apply Forall_app. split; [exact Hold|]. now constructor.
    - eapply Forall_impl; [|exact M]. apply isMentor_not_nullish. }
  split; [exact H | now apply conversationContext_objects].
Qed.

End ContextOfHistory.

(* ===================================================================== *)
(** ** [AdvancedStreamingInterface]: what a stream leaves *)
(* ===================================================================== *)

Section AdvancedStream.

Import AdvancedViews.

Context {R : Runtime}.

Lemma updates_app (a b : list AdvancedStreamingInterface.Effect) :
  updates (a ++ b) = updates a ++ updates b.
Proof.
  induction a as [|x a IH]; [reflexivity|]. destruct x; cbn; now rewrite IH.
Qed.

Lemma completions_app (a b : list AdvancedStreamingInterface.Effect) :
  completions (a ++ b) = completions a ++ completions b.
Proof.
  induction a as [|x a IH]; [reflexivity|]. destruct x; cbn; now rewrite IH.
Qed.

Lemma after_app (a b : list AdvancedStreamingInterface.Effect)
  (state : AdvancedStreamingInterface.State) :
  after state (a ++ b) =
  match after state a with
  | Some state' => after state' b
  | None => None
  end.
Proof.
  unfold after. rewrite updates_app. generalize (updates a) as us.
  intros us. revert state.
  induction us as [|u us IH]; intros state; [reflexivity|].
  cbn. destruct (AdvancedStreamingInterface.apply state u); [apply IH | reflexivity].
Qed.

Section Call.

Variables message sessionId streamingConfig : val.
Variable onStreamComplete : bool.
Variable user : val.
Variable readingSpeed : string.
Variable capturedContent : string.

Local Abbreviation handle :=
  (AdvancedStreamingInterface.on_frame onStreamComplete capturedContent).

Lemma advanced_chunk (payload content : string) :
  chunkFrame payload content ->
  forall state,
  exists state',
    after state (fst (handle tt payload)) = Some state' /\
    AdvancedStreamingInterface.streamContent state' =
    (AdvancedStreamingInterface.streamContent state ++ content)%string /\
    AdvancedStreamingInterface.isStreaming state' =
    AdvancedStreamingInterface.isStreaming state /\
    completions (fst (handle tt payload)) = [].
Proof.
  intros (_ & data & Hparse & Htype & Hcontent) state.
  unfold AdvancedStreamingInterface.on_frame,
    AdvancedStreamingInterface.handleStreamChunk.
  rewrite Hparse, (get_of_field _ _ Htype), Htype, Hcontent.
  cbn. eexists. repeat split.
Qed.

Lemma advanced_chunks (frames : list (string * string)) :
  Forall (fun f => chunkFrame (fst f) (snd f)) frames ->
  forall state,
  exists state',
    after state
      (fst (Stream.for_lines handle tt
              (map (fun p => ("data: " ++ p)%string) (map fst frames)))) =
    Some state' /\
    AdvancedStreamingInterface.streamContent state' =
    (AdvancedStreamingInterface.streamContent state
       ++ concat (map snd frames))%string /\
    AdvancedStreamingInterface.isStreaming state' =
    AdvancedStreamingInterface.isStreaming state /\
    completions
      (fst (Stream.for_lines handle tt
              (map (fun p => ("data: " ++ p)%string) (map fst frames)))) = [].
Proof.
  induction 1 as [|[p c] frames Hf _ IH]; intros state.
  - exists state. cbn. now rewrite append_empty_r.
  - cbn [map fst snd]. rewrite for_lines_cons, on_line_frame.
    unfold andThen. cbn [fst snd].
    cbn [fst snd] in Hf.
    destruct (advanced_chunk Hf state) as (mid & E1 & C1 & S1 & K1).
    assert (U : snd (handle tt p) = tt) by now destruct (snd (handle tt p)).
    rewrite U.
    destruct (IH mid) as (state' & E2 & C2 & S2 & K2).
    exists state'. rewrite after_app, E1, E2, completions_app, K1, K2.
    repeat split.
    + rewrite C2, C1. cbn [concat]. now rewrite append_assoc.
    + now rewrite S2, S1.
Qed.

Lemma advanced_complete (payload : string) (data : val) :
  completeFrame payload data ->
  forall state,
  exists state',
    after state (fst (handle tt payload)) = Some state' /\
    AdvancedStreamingInterface.streamContent state' =
    AdvancedStreamingInterface.streamContent state /\
    AdvancedStreamingInterface.isStreaming state' = false /\
    completions (fst (handle tt payload)) =
    if onStreamComplete
    then [VObject [("content", VString capturedContent);
                   ("metadata", field data "metadata")]]
    else [].
Proof.
  intros (_ & Hparse & Htype) state.
  unfold AdvancedStreamingInterface.on_frame,
    AdvancedStreamingInterface.handleStreamChunk.
  rewrite Hparse, (get_of_field _ _ Htype), Htype. cbn.
  destruct (truthy (getOpt (field data "metadata") "fact_checks")),
    onStreamComplete; cbn; eexists; repeat split.
Qed.

(** X13. An advanced stream whose two requests succeed and whose
    response is made of chunk frames followed by one complete frame,
    delivered in reads that end where a frame ends: the component ends
    with the concatenated contents as its stream content and with the
    streaming flag off. [onStreamComplete], when given, is called once,
    with the content the closure captured when the stream started and
    not with the content that was streamed. *)
Theorem advanced_stream_completes
  (frames : list (string * string)) (last : string) (data : val)
  (values : list string) (session : Body) (request : val) (id : string)
  (state : AdvancedStreamingInterface.State) :
  AdvancedStreamingInterface.sessionRequest sessionId streamingConfig user
    readingSpeed = Some request ->
  ToString sessionId = Some id ->
  Forall (fun f => chunkFrame (fst f) (snd f)) frames ->
  completeFrame last data ->
  Forall (fun v => wholeLines v = true) values ->
  concat values = wire (map fst frames ++ [last]) ->
  let effects :=
    AdvancedStreamingInterface.startAdvancedStream message sessionId
      streamingConfig onStreamComplete user readingSpeed capturedContent
      (Response true session)
      (Response true {| reads := values; ending := Done |}) in
  (exists state',
      after state effects = Some state' /\
      AdvancedStreamingInterface.streamContent state' = concat (map snd frames) /\
      AdvancedStreamingInterface.isStreaming state' = false) /\
  completions effects =
  if onStreamComplete
  then [VObject [("content", VString capturedContent);
                 ("metadata", field data "metadata")]]
  else [].
Proof.
  intros Hreq Hid Hframes Hlast Hvalues Hwire effects. subst effects.
  unfold AdvancedStreamingInterface.startAdvancedStream.
  rewrite Hreq, Hid. cbn [reads ending].
  rewrite (@read_loop_frames _ _ handle tt values (map fst frames ++ [last])
             Hvalues).
  2:{ apply Forall_app. split; [now apply chunkFrames_oneLine|].
      constructor; [now destruct Hlast | constructor]. }
  2:{ exact Hwire. }
  rewrite map_app, for_lines_app. unfold andThen. cbn [fst snd map].
  set (chunks := Stream.for_lines handle tt
                   (map (fun p => ("data: " ++ p)%string) (map fst frames))).
  assert (U : snd chunks = tt) by now destruct (snd chunks).
  rewrite U, for_lines_cons, on_line_frame. unfold andThen.
  cbn [fst snd Stream.for_lines]. rewrite !app_nil_r.
  set (start := {| AdvancedStreamingInterface.isStreaming := true;
                   AdvancedStreamingInterface.streamContent := EmptyString;
                   AdvancedStreamingInterface.streamMetadata := VObject [];
                   AdvancedStreamingInterface.canInterrupt :=
                     AdvancedStreamingInterface.canInterrupt state;
                   AdvancedStreamingInterface.factChecks := VArray [] |}).
  destruct (advanced_chunks Hframes start) as (mid & E1 & C1 & S1 & K1).
  destruct (advanced_complete Hlast mid) as (state' & E2 & C2 & S2 & K2).
  fold chunks in E1, K1.
  split.
  - exists state'.
    change (AdvancedStreamingInterface.prologue ++ ?a :: ?b :: ?c)
      with (AdvancedStreamingInterface.prologue ++ [a; b] ++ c).
    rewrite after_app.
    change (after state AdvancedStreamingInterface.prologue) with (Some start).
    cbv iota. rewrite (after_app [_; _]).
    change (after start [_; _]) with (Some start). cbv iota.
    rewrite after_app, E1, E2.
    repeat split; [now rewrite C2, C1 | exact S2].
  - change (AdvancedStreamingInterface.prologue ++ ?a :: ?b :: ?c)
      with (AdvancedStreamingInterface.prologue ++ [a; b] ++ c).
    rewrite !completions_app, K1, K2. reflexivity.
Qed.

End Call.

End AdvancedStream.

Section AdvancedFailure.

Import AdvancedViews.

Context {R : Runtime}.

Variables message sessionId streamingConfig : val.
Variable onStreamComplete : bool.
Variable user : val.
Variable readingSpeed : string.
Variable capturedContent : string.

Local Abbreviation start :=
  (AdvancedStreamingInterface.startAdvancedStream message sessionId
     streamingConfig onStreamComplete user readingSpeed capturedContent).

Lemma after_failure (before : list AdvancedStreamingInterface.Effect)
  (state state' : AdvancedStreamingInterface.State) :
  after state (before ++ AdvancedStreamingInterface.on_failure) = Some state' ->
  AdvancedStreamingInterface.isStreaming state' = false.
Proof.
  rewrite after_app. destruct (after state before) as [mid|]; [|discriminate].
  cbn. now intros [= <-].
Qed.

(** X14. An advanced stream that fails turns the streaming flag off.
    When the user or the configuration is [null], when a request
    rejects or is not OK, or when the session id has no string form, the
    component ends with the streaming flag off, an empty stream content,
    no fact checks and no metadata, and [onStreamComplete] is not
    called. When a read of the body rejects, the flag is off as well,
    whatever was streamed before. *)
Theorem advanced_stream_failure_turns_streaming_off
  (session chat : FetchResult) (state : AdvancedStreamingInterface.State) :
  (AdvancedStreamingInterface.sessionRequest sessionId streamingConfig user
     readingSpeed = None \/
   (forall body, session <> Response true body) \/
   ToString sessionId = None \/
   (forall body, chat <> Response true body) ->
   after state (start session chat) =
   Some {| AdvancedStreamingInterface.isStreaming := false;
           AdvancedStreamingInterface.streamContent := EmptyString;
           AdvancedStreamingInterface.streamMetadata := VObject [];
           AdvancedStreamingInterface.canInterrupt :=
             AdvancedStreamingInterface.canInterrupt state;
           AdvancedStreamingInterface.factChecks := VArray [] |} /\
   completions (start session chat) = []) /\
  (forall values e state',
      chat = Response true {| reads := values; ending := ReadRejects e |} ->
      after state (start session chat) = Some state' ->
      AdvancedStreamingInterface.isStreaming state' = false).
Proof.
  split.
  - intros H. unfold AdvancedStreamingInterface.startAdvancedStream.
    destruct (AdvancedStreamingInterface.sessionRequest _ _ _ _) as [request|];
      [|split; reflexivity].
    destruct H as [H | H]; [discriminate|].
    destruct session as [e | [|] body]; try (split; reflexivity).
    destruct H as [H | H]; [now elim (H body)|].
    destruct (ToString sessionId) as [id|]; [|split; reflexivity].
    destruct H as [H | H]; [discriminate|].
    destruct chat as [e | [|] body']; try (split; reflexivity).
    now elim (H body').
  - intros values e state' -> H.
    unfold AdvancedStreamingInterface.startAdvancedStream in H.
    destruct (AdvancedStreamingInterface.sessionRequest _ _ _ _) as [request|];
      [|exact (@after_failure AdvancedStreamingInterface.prologue state state' H)].
    assert (One : forall f,
               after state (AdvancedStreamingInterface.prologue
                              ++ f :: AdvancedStreamingInterface.on_failure)
               = Some state' ->
               AdvancedStreamingInterface.isStreaming state' = false).
    { intros f Hf.
      apply (@after_failure (AdvancedStreamingInterface.prologue ++ [f]) state state').
      rewrite <- app_assoc. exact Hf. }
    destruct session as [e' | [|] body]; try exact (One _ H).
    destruct (ToString sessionId) as [id|]; [|exact (One _ H)].
    cbn [reads ending] in H.
    match type of H with
    | after _ (_ ++ ?f :: ?g :: ?l ++ _) = _ =>
        apply (@after_failure
                 (AdvancedStreamingInterface.prologue ++ [f; g] ++ l) state state')
    end.
    rewrite <- !app_assoc. exact H.
Qed.

(** X15. Unlike the consumers of the store, the advanced stream does not
    test the content of a chunk frame: a chunk frame without content
    appends the text [undefined] to the stream content, and one whose
    content is [null] appends [null]. *)
Theorem advanced_chunk_without_content_appends_undefined
  (payload : string) (data : val) (state : AdvancedStreamingInterface.State) :
  JSON_parse payload = Some data ->
  field data "type" = VString "chunk" ->
  field data "content" = VUndefined \/ field data "content" = VNull ->
  exists state',
    after state
      (fst (AdvancedStreamingInterface.on_frame onStreamComplete capturedContent
              tt payload)) = Some state' /\
    AdvancedStreamingInterface.streamContent state' =
    (AdvancedStreamingInterface.streamContent state
       ++ match field data "content" with
          | VNull => "null"
          | _ => "undefined"
          end)%string.
Proof.
  intros Hparse Htype Hcontent.
  unfold AdvancedStreamingInterface.on_frame,
    AdvancedStreamingInterface.handleStreamChunk.
  rewrite Hparse, (get_of_field _ _ Htype), Htype.
  destruct Hcontent as [-> | ->]; cbn; eexists; split; reflexivity.
Qed.

End AdvancedFailure.

(* ===================================================================== *)
(** ** The request actions and the handlers that call them *)
(* ===================================================================== *)

Section RequestFacts.

Import Requests Mixes.

Context {R : Runtime}.

Lemma stored_app (a b : list Step) : stored (a ++ b) = stored a ++ stored b.
Proof.
  induction a as [|x a IH]; [reflexivity|]. destruct x; cbn; now rewrite IH.
Qed.

Lemma chunkEffects_app (a b : list string) :
  chunkEffects (a ++ b) = chunkEffects a ++ chunkEffects b.
Proof.
  induction a as [|c a IH]; [reflexivity|].
  cbn [app chunkEffects]. now rewrite IH, app_assoc.
Qed.

Lemma aiMessage_fields variant sessionId clock (loc : Local) (data ai : val) :
  aiMessage variant sessionId clock loc data = Some ai ->
  field ai "session_id" = sessionId /\
  field ai "message" = VString (fullResponse loc) /\
  field ai "sender" = VString "mentor".
Proof.
  unfold aiMessage. destruct variant as [|context].
  - intros [= <-]. repeat split.
  - destruct (if truthy (field data "mode") then _ else _); [|discriminate].
    intros [= <-]. repeat split.
Qed.

(** X16. A reply that is streaming in when a new session is created
    lands in the new session. On a response made of chunk frames
    followed by a complete frame from which the mentor message can be
    built, delivered in reads that end where a line ends, if the
    actions of a [createSession] that resolves reach the store between
    two frames, the store ends with the new session current, and with a
    history that holds one message: the reply of the mentor to the
    question asked in the session before, which carries the id of that
    session and the whole streamed text, with the chunks handled before
    the session was created. *)
Theorem reply_in_flight_lands_in_the_new_session
  (variant : Variant) (sessionId message : val) (clock : nat -> Z)
  (frames : list (string * string)) (last : string) (data ai : val)
  (values : list string) :
  Forall (fun f => chunkFrame (fst f) (snd f)) frames ->
  completeFrame last data ->
  aiMessage variant sessionId clock
            {| fullResponse := concat (map snd frames); ticks := 2 |} data = Some ai ->
  Forall (fun v => wholeLines v = true) values ->
  concat values = wire (map fst frames ++ [last]) ->
  forall (handled coming : list string),
  map snd frames = handled ++ coming ->
  fst (consume variant sessionId message clock
         (Response true {| reads := values; ending := Done |})) =
  (prologue variant sessionId message clock ++ chunkEffects handled)
    ++ (chunkEffects coming ++ completeEffects ai) /\
  field ai "session_id" = sessionId /\
  field ai "message" = VString (concat (handled ++ coming)) /\
  forall (state : AppState) (sessionData session : val),
    replay state
      (interleaved
         (prologue variant sessionId message clock ++ chunkEffects handled)
         (fst (createSession sessionData (Resolved session)))
         (chunkEffects coming ++ completeEffects ai)) =
    Some (withChat (withSession state session) [ai] false EmptyString
                   (error state) false).
Proof.
  intros Hframes Hlast Hai Hvalues Hwire handled coming Hsplit.
  destruct (aiMessage_fields _ _ _ _ _ Hai) as (Hid & Htext & _).
  cbn [fullResponse] in Htext. rewrite Hsplit in Htext.
  repeat split; trivial.
  - rewrite (consume_chunks_then_complete variant sessionId message clock
               Hframes Hlast Hai Hvalues Hwire).
    cbn [fst]. now rewrite Hsplit, chunkEffects_app, <- !app_assoc.
  - intros state sessionData session. unfold interleaved.
    rewrite replay_app.
    change (replay state (dispatched ?e)) with (ui_after state e).
    rewrite ui_after_app, ui_after_prologue, ui_after_chunks.
    rewrite replay_app.
    change (replay ?s (stored (fst (createSession sessionData (Resolved session)))))
      with (Some (withChat (withSession state session) [] true
                           (EmptyString ++ concat handled)%string
                           (error state) false)).
    cbv iota.
    change (replay ?s (dispatched ?e)) with (ui_after s e).
    now rewrite ui_after_app, ui_after_chunks, ui_after_complete.
Qed.

(** What a quick-start handler leaves, whatever it asks for. *)
Lemma quickStart_store
  (state : AppState) (subject : string) (objectives : list string)
  (net : Outcome val) :
  let steps := Welcome.quickStart state subject objectives net in
  exists state',
    store_after state steps = Some state' /\
    Welcome.startDisabled state' = false /\
    (truthy (getOpt (user state) "id") = false ->
     calls steps = [] /\
     state' = withChat state (messages state) (isTyping state)
                (streamingMessage state)
                (VString "User not found. Please refresh and try again.")
                false) /\
    (truthy (getOpt (user state) "id") = true ->
     (exists data, calls steps = [("createSession", data)] /\
                   field data "user_id" = field (user state) "id") /\
     state' =
       match net with
       | Resolved session =>
           withChat (withSession state session) [] (isTyping state)
             (streamingMessage state) (error state) false
       | Rejected _ =>
           withChat state (messages state) (isTyping state)
             (streamingMessage state)
             (VString "Failed to create session. Please try again.") false
       end).
Proof.
  intros steps. subst steps. unfold Welcome.quickStart.
  destruct (truthy (getOpt (user state) "id")); cbn [negb].
  - destruct net as [session | e].
    + exists (withChat (withSession state session) [] (isTyping state)
                (streamingMessage state) (error state) false).
      split; [reflexivity|]. split; [reflexivity|].
      split; [discriminate|]. intros _.
      split; [eexists; split; reflexivity | reflexivity].
    + exists (withChat state (messages state) (isTyping state)
                (streamingMessage state)
                (VString "Failed to create session. Please try again.") false).
      split; [reflexivity|]. split; [reflexivity|].
      split; [discriminate|]. intros _.
      split; [eexists; split; reflexivity | reflexivity].
  - exists (withChat state (messages state) (isTyping state)
              (streamingMessage state)
              (VString "User not found. Please refresh and try again.") false).
    split; [reflexivity|]. split; [reflexivity|].
    split; [intros _; split; reflexivity | discriminate].
Qed.

(** X17. The two quick-start buttons of the welcome card always end
    with the loading flag off, so that they are enabled again. Without
    a user id they call nothing and report that the user was not found.
    With one they ask for one session, for this user; when the call
    resolves the session is current and first in the list, the history
    is empty and an error reported earlier is still there; when it
    rejects, the store keeps the fixed text of the handler and not the
    message of the error, which [createSession] had reported first. *)
Theorem quick_start_turns_loading_off
  (state : AppState) (subject : string) (net : Outcome val) :
  Forall
    (fun steps =>
       exists state',
         store_after state steps = Some state' /\
         Welcome.startDisabled state' = false /\
         (truthy (getOpt (user state) "id") = false ->
          calls steps = [] /\
          state' = withChat state (messages state) (isTyping state)
                     (streamingMessage state)
                     (VString "User not found. Please refresh and try again.")
                     false) /\
         (truthy (getOpt (user state) "id") = true ->
          (exists data, calls steps = [("createSession", data)] /\
                        field data "user_id" = field (user state) "id") /\
          state' =
            match net with
            | Resolved session =>
                withChat (withSession state session) [] (isTyping state)
                  (streamingMessage state) (error state) false
            | Rejected _ =>
                withChat state (messages state) (isTyping state)
                  (streamingMessage state)
                  (VString "Failed to create session. Please try again.")
                  false
            end))
    [Welcome.startLearning state net; Welcome.startSubject state subject net].
Proof.
  constructor; [apply quickStart_store|].
  constructor; [apply quickStart_store | constructor].
Qed.

(** The store after [handleSessionSelect], case by case. *)
Lemma store_after_select (state : AppState) (session : val)
  (net : Outcome (list val)) :
  store_after state (fst (Sidebar.handleSessionSelect session net)) =
  Some match get session "id", net with
       | None, _ => withCurrent state session
       | Some _, Resolved loaded =>
           withChat (withCurrent state session) loaded (isTyping state)
             (streamingMessage state) (error state) (isLoading state)
       | Some _, Rejected e =>
           withChat (withCurrent state session) (messages state)
             (isTyping state) (streamingMessage state)
             (VString (error_message e)) false
       end.
Proof.
  unfold Sidebar.handleSessionSelect.
  destruct (get session "id") as [id|]; [|reflexivity].
  destruct net; reflexivity.
Qed.

(** X18. Selecting a session makes it current before its messages are
    asked for, and nothing is undone when they do not come: when the
    call rejects, or when the session is [null], the selected session is
    current while the history is still the one that was shown before;
    the handler rejects, with the error of the call or a TypeError. Only
    when the call resolves is the history replaced, by the messages
    loaded. *)
Theorem failed_select_keeps_the_former_history
  (state : AppState) (session : val) (net : Outcome (list val)) :
  exists state',
    store_after state (fst (Sidebar.handleSessionSelect session net)) =
    Some state' /\
    currentSession state' = session /\
    sessions state' = sessions state /\
    match snd (Sidebar.handleSessionSelect session net) with
    | Sidebar.Loaded =>
        nullish session = false /\ net = Resolved (messages state') /\
        error state' = error state
    | Sidebar.LoadRejects e =>
        nullish session = false /\ net = Rejected e /\
        messages state' = messages state /\
        error state' = VString (error_message e) /\
        isLoading state' = false
    | Sidebar.NoSession =>
        nullish session = true /\
        calls (fst (Sidebar.handleSessionSelect session net)) = [] /\
        messages state' = messages state /\
        ChatInterface.formRendered state' = false
    end.
Proof.
  rewrite store_after_select. eexists. split; [reflexivity|].
  unfold Sidebar.handleSessionSelect, get.
  destruct (nullish session) eqn:Hs.
  - repeat split. destruct session; try discriminate; reflexivity.
  - destruct net; repeat split.
Qed.

(** X19. After a select whose call rejected, the next context-aware
    submit sends the history of the session shown before as the
    conversation context of the selected session. *)
Theorem stale_history_is_sent_as_context
  (state : AppState) (session : val) (e : Error)
  (local : ChatInterface.Local) (first second : ChatInterface.Settled)
  (context : list val) :
  truthy session = true ->
  isTyping state = false ->
  nonEmpty (trim (ChatInterface.inputMessage local)) = true ->
  ChatInterface.useContextAwareness local = true ->
  ChatInterface.conversationContext (messages state) = Some context ->
  exists state' rest,
    store_after state
      (fst (Sidebar.handleSessionSelect session (Rejected e))) = Some state' /\
    currentSession state' = session /\
    ChatInterface.handleSendMessage state' local first second =
    ChatInterface.PreventDefault
      :: ChatInterface.SetInputMessage EmptyString
      :: ChatInterface.SendContextAwareMessage
           (trim (ChatInterface.inputMessage local)) context
      :: rest.
Proof.
  intros Hs Ht Hi Hc Hm. rewrite store_after_select.
  assert (Hn : nullish session = false)
    by (destruct session; try discriminate; reflexivity).
  unfold get. rewrite Hn.
  eexists. eexists. split; [reflexivity|]. split; [reflexivity|].
  unfold ChatInterface.handleSendMessage, ChatInterface.rejects.
  cbn [currentSession isTyping messages withChat withCurrent].
  rewrite Hs, Ht, Hi, Hc, Hm. cbn [negb orb]. reflexivity.
Qed.

(** X20. A confirmed logout empties the user, the current session, the
    sessions and the history, and keeps everything else: the
    gamification data, the achievements, the streak, the rewards and
    the progress of the user who left, the error, the typing indicator
    and the streaming text. The chat form is no longer rendered and
    every submit is turned down. A logout that is not confirmed
    dispatches nothing. *)
Theorem logout_keeps_the_gamification_data
  (state : AppState) (local : ChatInterface.Local)
  (first second : ChatInterface.Settled) :
  store_after state (Sidebar.handleLogout true) = Some (loggedOut state) /\
  Forall (fun read : AppState -> val => read (loggedOut state) = read state)
    [gamificationData; achievements; streak; rewards; progress; error] /\
  isTyping (loggedOut state) = isTyping state /\
  streamingMessage (loggedOut state) = streamingMessage state /\
  ChatInterface.formRendered (loggedOut state) = false /\
  ChatInterface.handleSendMessage (loggedOut state) local first second =
  [ChatInterface.PreventDefault] /\
  stored (Sidebar.handleLogout false) = [].
Proof.
  split; [reflexivity|]. split; [repeat constructor|].
  repeat split.
  unfold ChatInterface.handleSendMessage, ChatInterface.rejects.
  cbn [currentSession loggedOut truthy negb]. now rewrite orb_true_r.
Qed.

End RequestFacts.

(* ===================================================================== *)
(** ** The gamification actions *)
(* ===================================================================== *)

Section GamificationFacts.

Import Requests Mixes.

Context {R : Runtime}.

Lemma reportsNothing_app (a b : list Action) :
  reportsNothing (a ++ b) = reportsNothing a && reportsNothing b.
Proof.
  induction a as [|x a IH]; [reflexivity|]. destruct x; cbn; trivial.
Qed.

Lemma whenTruthy_reportsNothing (v : val) (update : val -> Action) :
  (forall x, reportsNothing [update x] = true) ->
  reportsNothing (stored (whenTruthy v update)) = true.
Proof.
  intros H. unfold whenTruthy. destruct (truthy v); [apply H | reflexivity].
Qed.

Lemma added_reportsNothing (l : list val) :
  reportsNothing (stored (map (fun a => Store (ADD_ACHIEVEMENT a)) l)) = true.
Proof. induction l; [reflexivity | exact IHl]. Qed.

Lemma newAchievements_reportsNothing (result : val) :
  reportsNothing (stored (fst (newAchievements result))) = true.
Proof.
  unfold newAchievements.
  destruct (truthy (field result "new_achievements")); [|reflexivity].
  destruct (field result "new_achievements"); try reflexivity.
  apply added_reportsNothing.
Qed.

(** The achievements of a result reach the store in order. *)
Lemma replay_added (added : list val) : forall (state : AppState) (old : list val),
  achievements state = VArray old ->
  exists state',
    replay state (stored (map (fun a => Store (ADD_ACHIEVEMENT a)) added)) =
    Some state' /\
    achievements state' = VArray (old ++ added) /\
    streak state' = streak state /\ rewards state' = rewards state /\
    error state' = error state /\ messages state' = messages state.
Proof.
  induction added as [|a added IH]; intros state old Hold.
  - exists state. rewrite app_nil_r. repeat split. exact Hold.
  - cbn [map stored replay appReducer]. rewrite Hold. cbn [iterate].
    match goal with
    | |- context [replay ?mid _] =>
        destruct (IH mid (old ++ [a]) eq_refl) as (state' & E & A & S & W & X & M)
    end.
    exists state'. rewrite E, A, <- app_assoc. repeat split; assumption.
Qed.

(** X21. The achievements a session completion or a mastered concept
    brings are appended to those of the store in the order of the
    response. When the result of [recordSessionCompletion] or
    [recordConceptMastery] carries an array of new achievements and the
    achievements of the store are an array, the action resolves with
    the result, reports no error, and the store ends with the earlier
    achievements followed by the new ones, and with the rewards (and,
    for a session completion, the streak) merged with those of the
    result when they are truthy. *)
Theorem new_achievements_are_appended_in_order
  (userId sessionId context concept subject difficulty result : val)
  (id : string) (added old : list val) (state : AppState) :
  ToString userId = Some id ->
  field result "new_achievements" = VArray added ->
  achievements state = VArray old ->
  let completion :=
    recordSessionCompletion userId sessionId context (Resolved result) in
  let mastery :=
    recordConceptMastery userId concept subject difficulty (Resolved result) in
  let merged (before value : val) :=
    if truthy value then spread2 before value else before in
  (snd completion = Resolved result /\
   reportsNothing (stored (fst completion)) = true /\
   exists state',
     store_after state (fst completion) = Some state' /\
     achievements state' = VArray (old ++ added) /\
     streak state' = merged (streak state) (field result "streak") /\
     rewards state' = merged (rewards state) (field result "points") /\
     error state' = error state) /\
  (snd mastery = Resolved result /\
   reportsNothing (stored (fst mastery)) = true /\
   exists state',
     store_after state (fst mastery) = Some state' /\
     achievements state' = VArray (old ++ added) /\
     streak state' = streak state /\
     rewards state' = merged (rewards state) (field result "points") /\
     error state' = error state).
Proof.
  intros Hid Hadded Hold completion mastery merged.
  subst completion mastery merged.
  assert (Hn : nullish result = false)
    by (destruct result; try discriminate; reflexivity).
  unfold recordSessionCompletion, recordConceptMastery, newAchievements.
  rewrite Hid, Hn, Hadded. cbn [truthy fst snd].
  split.
  - split; [reflexivity|]. split.
    + cbn [stored]. rewrite !stored_app, !reportsNothing_app.
      rewrite !whenTruthy_reportsNothing by reflexivity.
      now rewrite added_reportsNothing.
    + unfold store_after. cbn [stored]. rewrite !stored_app, !replay_app.
      unfold whenTruthy.
      destruct (truthy (field result "streak")),
        (truthy (field result "points")); cbn [app stored replay appReducer];
        match goal with
        | |- context [replay ?mid (stored (map _ added))] =>
            destruct (@replay_added added mid old Hold)
              as (state' & E & A & S & W & X & M)
        end;
        exists state'; rewrite E; repeat split; assumption.
  - split; [reflexivity|]. split.
    + cbn [stored]. rewrite !stored_app, !reportsNothing_app.
      rewrite !whenTruthy_reportsNothing by reflexivity.
      now rewrite added_reportsNothing.
    + unfold store_after. cbn [stored]. rewrite !stored_app, !replay_app.
      unfold whenTruthy.
      destruct (truthy (field result "points")); cbn [app stored replay appReducer];
        match goal with
        | |- context [replay ?mid (stored (map _ added))] =>
            destruct (@replay_added added mid old Hold)
              as (state' & E & A & S & W & X & M)
        end;
        exists state'; rewrite E; repeat split; assumption.
Qed.

(** X22. The gamification actions never reject. Whatever the user id
    and however the request settles, [loadGamificationData],
    [recordSessionCompletion] and [recordConceptMastery] resolve: either
    with the data of the response, having reported no error, or with
    [undefined], the last action they dispatch being [SET_ERROR] with
    their fixed text, after the updates dispatched before the failure. *)
Theorem gamification_actions_never_reject
  (userId sessionId context concept subject difficulty : val)
  (net : Outcome val) :
  let settles (run : Run val) (text : string) :=
    (exists data, net = Resolved data /\ snd run = Resolved data /\
                  reportsNothing (stored (fst run)) = true) \/
    (snd run = Resolved VUndefined /\ endsWithError (stored (fst run)) text) in
  settles (loadGamificationData userId net)
          "Failed to load gamification data" /\
  settles (recordSessionCompletion userId sessionId context net)
          "Failed to record session completion" /\
  settles (recordConceptMastery userId concept subject difficulty net)
          "Failed to record concept mastery".
Proof.
  intros settles. subst settles. cbv beta.
  unfold loadGamificationData, recordSessionCompletion, recordConceptMastery.
  destruct (ToString userId) as [id|].
  2:{ repeat split; right; (split; [reflexivity | now exists []]). }
  destruct net as [result | e].
  2:{ repeat split; right; (split; [reflexivity | now exists []]). }
  split; [left; exists result; repeat split|].
  destruct (nullish result).
  { split; right; (split; [reflexivity | now exists []]). }
  pose proof (newAchievements_reportsNothing result) as Hnew.
  split.
  - destruct (snd (newAchievements result)); cbn [fst snd stored].
    + left. exists result. repeat split.
      rewrite !stored_app, !reportsNothing_app, Hnew.
      now rewrite !whenTruthy_reportsNothing by reflexivity.
    + right. split; [reflexivity|]. rewrite app_assoc, stored_app.
      eexists. reflexivity.
  - destruct (snd (newAchievements result)); cbn [fst snd stored].
    + left. exists result. repeat split.
      rewrite !stored_app, !reportsNothing_app, Hnew.
      now rewrite !whenTruthy_reportsNothing by reflexivity.
    + right. split; [reflexivity|]. rewrite stored_app.
      eexists. reflexivity.
Qed.

End GamificationFacts.

(* ===================================================================== *)
(** ** The context-aware chat *)
(* ===================================================================== *)

Section ContextAwareFacts.

Import Requests Shapes ContextAwareChatInterface.

Context {R : Runtime}.

Variables sessionId userId adaptiveSettings : val.
Variable clock : nat -> Z.

Lemma analyzeContext_stores_nothing (message : string) (context : list val)
  (net : Outcome val) :
  stored (analyzeContext sessionId userId message context net) = [].
Proof.
  unfold analyzeContext. destruct (negb (nonEmpty (trim message))); [reflexivity|].
  destruct net as [data | e]; [|reflexivity].
  destruct (nullish data); [reflexivity|].
  destruct (nullish (field data "recommendations")); reflexivity.
Qed.

(** X23. On the context-aware path, which is the default one, the
    question never reaches the history. Whatever the two requests
    answer, [sendContextAwareMessage] changes nothing in the store but
    the history, to which it adds at most one message, a message of the
    mentor: the typing indicator is not turned on, no user message is
    added, no error is reported. The reply is added exactly when the
    call answers; it fails, with nothing dispatched, when the request
    rejects and when the data of the response is [null]. *)
Theorem context_aware_reply_comes_without_the_question
  (message : string) (context : list val) (analysis chat : Outcome val)
  (state : AppState) :
  let run :=
    sendContextAwareMessage sessionId userId adaptiveSettings clock message
      context analysis chat in
  exists added,
    store_after state (fst run) =
    Some (withChat state (messages state ++ added) (isTyping state)
            (streamingMessage state) (error state) (isLoading state)) /\
    Forall isMentor added /\
    match snd run with
    | Answers data =>
        chat = Resolved data /\
        exists reply, added = [reply] /\
                      field reply "message" = field data "response"
    | Fails e => chat = Rejected e /\ added = []
    | FailsTypeError =>
        (exists data, chat = Resolved data /\ nullish data = true) /\
        added = []
    end.
Proof.
  intros run. subst run. unfold sendContextAwareMessage, store_after.
  destruct chat as [data | e].
  - unfold onMessage, get. destruct (nullish data) eqn:Hn; cbn [fst snd].
    + exists []. rewrite stored_app, analyzeContext_stores_nothing.
      cbn [stored app replay]. rewrite app_nil_r, withChat_id.
      repeat split; [constructor | now exists data].
    + eexists [_].
      rewrite !stored_app, analyzeContext_stores_nothing.
      cbn [stored app replay appReducer].
      split; [now destruct state|].
      split; [repeat constructor|].
      split; [reflexivity|]. eexists. split; reflexivity.
  - exists []. cbn [fst snd].
    rewrite stored_app, analyzeContext_stores_nothing.
    cbn [stored app replay]. rewrite app_nil_r, withChat_id.
    repeat split. constructor.
Qed.

End ContextAwareFacts.

Section DefaultSubmit.

Import Requests Shapes Submits ContextAwareChatInterface.

Context {R : Runtime}.

(** X30. In the default mode a submit falls back to [sendMessage]
    exactly when the context-aware call fails. For a submit that passes
    the guard with context awareness on, [handleSendMessage] awaiting
    [sendContextAwareMessage] with the ids of the current session and
    of the user: when the call answers, the context-aware request is
    the only one and the store gets the reply of the mentor and not the
    question; when it fails, because the request rejects or the data of
    the response is [null], the question is sent again through
    [sendMessage]. *)
Theorem default_submit_falls_back_exactly_on_failure
  (state : AppState) (local : ChatInterface.Local)
  (adaptiveSettings : val) (clock : nat -> Z)
  (analysis chat : Outcome val) (second : ChatInterface.Settled)
  (context : list val) :
  ChatInterface.rejects state local = false ->
  ChatInterface.useContextAwareness local = true ->
  ChatInterface.conversationContext (messages state) = Some context ->
  let message := trim (ChatInterface.inputMessage local) in
  let run :=
    sendContextAwareMessage (getOpt (currentSession state) "id")
      (getOpt (user state) "id") adaptiveSettings clock message context
      analysis chat in
  let steps :=
    ChatInterface.handleSendMessage state local (settled (snd run)) second in
  match snd run with
  | Answers data =>
      requests steps = [ChatInterface.SendContextAwareMessage message context] /\
      exists reply,
        store_after state (fst run) =
        Some (withChat state (messages state ++ [reply]) (isTyping state)
                (streamingMessage state) (error state) (isLoading state)) /\
        isMentor reply /\ field reply "message" = field data "response"
  | Fails _ | FailsTypeError =>
      requests steps =
      [ChatInterface.SendContextAwareMessage message context;
       ChatInterface.SendMessage (field (currentSession state) "id") message] /\
      stored (fst run) = []
  end.
Proof.
  intros Hr Hc Hm message run steps. subst steps run message.
  unfold ChatInterface.handleSendMessage. rewrite Hr, Hc, Hm.
  unfold sendContextAwareMessage, store_after.
  destruct chat as [data | e].
  - unfold onMessage, get. destruct (nullish data); cbn [fst snd settled].
    + split; [now destruct second|].
      now rewrite stored_app, analyzeContext_stores_nothing.
    + split; [reflexivity|]. eexists.
      rewrite !stored_app, analyzeContext_stores_nothing.
      cbn [stored app replay appReducer].
      split; [now destruct state|]. split; reflexivity.
  - cbn [fst snd settled]. split; [now destruct second|].
    now rewrite stored_app, analyzeContext_stores_nothing.
Qed.

End DefaultSubmit.

(* ===================================================================== *)
(** ** Regular expressions: the matcher and the strings of a pattern *)
(* ===================================================================== *)

Section RegexFacts.

Import Regex.

Lemma append_empty (s t : string) :
  (s ++ t)%string = EmptyString -> s = EmptyString /\ t = EmptyString.
Proof. destruct s; cbn; [now intros -> | discriminate]. Qed.

Lemma nullable_denotes (r : regex) :
  nullable r = true <-> denotes r EmptyString.
Proof.
  split.
  - induction r as [| |p|a IHa b IHb|a IHa b IHb|a IHa]; cbn; intros H;
      try discriminate.
    + constructor.
    + apply andb_true_iff in H as [Ha Hb].
      exact (denotes_seq (IHa Ha) (IHb Hb)).
    + apply orb_true_iff in H as [H | H];
        [apply denotes_left | apply denotes_right]; auto.
    + constructor.
  - intros H. remember EmptyString as s eqn:E.
    induction H as [|p c Hp|a b s t Ha IHa Hb IHb|a b s Ha IHa|a b s Hb IHb
                    |a|a s t Ha IHa Hs IHs]; cbn; try reflexivity.
    + discriminate.
    + apply append_empty in E as [Es Et]. now rewrite (IHa Es), (IHb Et).
    + now rewrite IHa.
    + rewrite IHb by assumption. apply orb_true_r.
Qed.

Lemma derive_sound (r : regex) : forall (c : ascii) (s : string),
  denotes (derive c r) s -> denotes r (String c s).
Proof.
  induction r as [| |p|a IHa b IHb|a IHa b IHb|a IHa]; cbn; intros c s H.
  - inversion H.
  - inversion H.
  - destruct (p c) eqn:Hp; inversion H; subst. now constructor.
  - destruct (nullable a) eqn:Hn.
    + inversion H as [| | |? ? ? H1|? ? ? H1| |]; subst.
      * inversion H1 as [| |? ? s1 t Ha Hb| | | |]; subst.
        exact (denotes_seq (IHa _ _ Ha) Hb).
      * apply nullable_denotes in Hn.
        exact (denotes_seq Hn (IHb _ _ H1)).
    + inversion H as [| |? ? s1 t Ha Hb| | | |]; subst.
      exact (denotes_seq (IHa _ _ Ha) Hb).
  - inversion H; subst; [apply denotes_left | apply denotes_right]; auto.
  - inversion H as [| |? ? s1 t Ha Hs| | | |]; subst.
    exact (denotes_more (IHa _ _ Ha) Hs).
Qed.

Lemma derive_complete (r : regex) (w : string) :
  denotes r w ->
  forall (c : ascii) (s : string), w = String c s -> denotes (derive c r) s.
Proof.
  induction 1 as [|p c0 Hp|a b s1 t Ha IHa Hb IHb|a b s1 Ha IHa|a b s1 Hb IHb
                  |a|a s1 t Ha IHa Hs IHs]; intros c s E; cbn.
  - discriminate.
  - injection E as -> <-. rewrite Hp. constructor.
  - destruct s1 as [|c1 s1]; cbn in E.
    + apply nullable_denotes in Ha. rewrite Ha.
      apply denotes_right. now apply IHb.
    + injection E as -> <-.
      pose proof (denotes_seq (IHa _ _ eq_refl) Hb) as H.
      destruct (nullable a); [now apply denotes_left | exact H].
  - apply denotes_left. now apply IHa.
  - apply denotes_right. now apply IHb.
  - discriminate.
  - destruct s1 as [|c1 s1]; cbn in E.
    + now apply IHs.
    + injection E as -> <-. exact (denotes_seq (IHa _ _ eq_refl) Hs).
Qed.

(** The matcher accepts the strings of the pattern, and no other. *)
Lemma matches_denotes (s : string) : forall r : regex,
  matches r s = true <-> denotes r s.
Proof.
  induction s as [|c s IH]; intros r; cbn.
  - apply nullable_denotes.
  - rewrite IH. split; [apply derive_sound|].
    intros H. exact (derive_complete H eq_refl).
Qed.

Lemma denotes_any (s : string) : denotes (Star any) s.
Proof.
  induction s as [|c s IH]; [constructor|].
  change (String c s) with (String c EmptyString ++ s)%string.
  apply denotes_more; [now constructor | exact IH].
Qed.

(** [r.test(s)] holds when some part of [s] is a string of [r]. *)
Lemma test_denotes (r : regex) (s : string) :
  test r s = true <->
  exists before part behind,
    s = (before ++ part ++ behind)%string /\ denotes r part.
Proof.
  unfold test. rewrite matches_denotes. split.
  - intros H. inversion H as [| |? ? before rest _ Hrest| | | |]; subst.
    inversion Hrest as [| |? ? part behind Hpart _| | | |]; subst.
    now exists before, part, behind.
  - intros (before & part & behind & -> & H).
    apply denotes_seq; [apply denotes_any|].
    apply denotes_seq; [exact H | apply denotes_any].
Qed.

End RegexFacts.

(* ===================================================================== *)
(** ** The onboarding form *)
(* ===================================================================== *)

Section ValidationFacts.

Import Regex UserOnboarding Forms.

Lemma star_spaceless (r : regex) (s : string) :
  denotes r s -> r = Star nonSpace -> spaceless s = true.
Proof.
  induction 1 as [|p c Hp|a b s t Ha IHa Hb IHb|a b s Ha IHa|a b s Hb IHb
                  |a|a s t Ha IHa Hs IHs]; intros E; try discriminate.
  - reflexivity.
  - injection E as ->. inversion Ha as [|p c Hp| | | | |]; subst.
    cbn. now rewrite Hp, (IHs eq_refl).
Qed.

Lemma spaceless_star (s : string) :
  spaceless s = true -> denotes (Star nonSpace) s.
Proof.
  induction s as [|c s IH]; cbn; intros H; [constructor|].
  apply andb_true_iff in H as [Hc Hs].
  change (String c s) with (String c EmptyString ++ s)%string.
  apply denotes_more; [now constructor | now apply IH].
Qed.

(** The strings of [\S+]. *)
Lemma plus_solid (s : string) : denotes (Plus nonSpace) s <-> solid s.
Proof.
  unfold Plus, solid. split.
  - intros H. inversion H as [| |? ? x y Hx Hy| | | |]; subst.
    inversion Hx as [|p c Hp| | | | |]; subst. cbn.
    now rewrite Hp, (star_spaceless Hy eq_refl).
  - intros [Hn Hs]. destruct s as [|c s]; [discriminate|].
    cbn in Hs. apply andb_true_iff in Hs as [Hc Hs].
    change (String c s) with (String c EmptyString ++ s)%string.
    apply denotes_seq; [now constructor | now apply spaceless_star].
Qed.

(** The strings of a pattern that is one character. *)
Lemma class_one (c : ascii) (s : string) :
  denotes (Class (Ascii.eqb c)) s <-> s = String c EmptyString.
Proof.
  split.
  - intros H. inversion H as [|p x Hx| | | | |]; subst.
    apply Ascii.eqb_eq in Hx. now subst.
  - intros ->. constructor. apply Ascii.eqb_refl.
Qed.

(** What the pattern of [validateStep] accepts. *)
Lemma test_emailPattern (s : string) :
  test emailPattern s = true <-> holdsAddress s.
Proof.
  rewrite test_denotes. unfold holdsAddress, emailPattern. split.
  - intros (before & part & behind & -> & H).
    inversion H as [| |? ? u r1 Hu H1| | | |]; subst.
    inversion H1 as [| |? ? x r2 Hx H2| | | |]; subst.
    inversion H2 as [| |? ? v r3 Hv H3| | | |]; subst.
    inversion H3 as [| |? ? y w Hy Hw| | | |]; subst.
    apply class_one in Hx, Hy. subst x y.
    apply plus_solid in Hu, Hv, Hw.
    exists before, u, v, w, behind.
    split; [|exact (conj Hu (conj Hv Hw))].
    now rewrite !append_assoc.
  - intros (before & u & v & w & behind & -> & Hu & Hv & Hw).
    exists before, (u ++ "@" ++ v ++ "." ++ w)%string, behind. split.
    + now rewrite !append_assoc.
    + apply denotes_seq; [now apply plus_solid|].
      apply (@denotes_seq _ _ "@"); [now apply class_one|].
      apply denotes_seq; [now apply plus_solid|].
      apply (@denotes_seq _ _ "."); [now apply class_one|].
      now apply plus_solid.
Qed.

Lemma trimStart_keeps (before rest : string) (c : ascii) :
  isWhiteSpace c = false ->
  exists c' rest',
    trimStart (before ++ String c rest) = String c' rest' /\
    isWhiteSpace c' = false.
Proof.
  intros Hc. induction before as [|x before IH]; cbn.
  - rewrite Hc. now exists c, rest.
  - destruct (isWhiteSpace x) eqn:Hx; [exact IH|].
    now exists x, (before ++ String c rest)%string.
Qed.

Lemma trim_keeps (before rest : string) (c : ascii) :
  isWhiteSpace c = false ->
  nonEmpty (trim (before ++ String c rest)) = true.
Proof.
  intros Hc. unfold trim.
  destruct (@trimStart_keeps before rest c Hc) as (c' & rest' & -> & Hc').
  cbn. rewrite Hc'. now destruct (trimEnd rest').
Qed.

Lemma holdsAddress_not_blank (s : string) :
  holdsAddress s -> nonEmpty (trim s) = true.
Proof.
  intros (before & u & v & w & behind & -> & [Hn Hs] & _).
  destruct u as [|c u]; [discriminate|].
  cbn in Hs. apply andb_true_iff in Hs as [Hc _].
  apply negb_true_iff in Hc. cbn [append].
  now apply trim_keeps.
Qed.

(** X24. The first step of the form is passed exactly when the name is
    not blank and the email holds, somewhere, a part [u@v.w] whose three
    parts are not empty and hold no white space. The pattern is not
    anchored: white space and any other text around such a part are
    accepted. *)
Theorem first_step_checks_name_and_address (data : FormData) :
  validateStep 1 data = true <->
  nonEmpty (trim (name data)) = true /\ holdsAddress (email data).
Proof.
  unfold validateStep, newErrors. cbn [Nat.eqb].
  rewrite <- test_emailPattern.
  destruct (nonEmpty (trim (name data))); cbn [app].
  - destruct (nonEmpty (trim (email data))) eqn:Hb; cbn [negb app].
    + destruct (test emailPattern (email data)); cbn [negb app];
        split; try discriminate; try tauto.
    + split; [discriminate|]. intros [_ H].
      apply test_emailPattern, holdsAddress_not_blank in H. congruence.
  - split; [discriminate | now intros [H _]].
Qed.

End ValidationFacts.

Section FormFacts.

Import UserOnboarding Forms.

Context {R : Runtime}.

Lemma existsb_eqb (item : string) (l : list string) :
  existsb (String.eqb item) l = true <-> In item l.
Proof.
  rewrite existsb_exists. split.
  - intros (x & Hx & E). apply String.eqb_eq in E. now subst.
  - intros H. exists item. split; [exact H | apply String.eqb_refl].
Qed.

Lemma filter_other (item : string) (l : list string) :
  ~ In item l -> filter (fun i => negb (String.eqb i item)) l = l.
Proof.
  induction l as [|x l IH]; [reflexivity|]. cbn. intros H.
  destruct (String.eqb x item) eqn:E.
  - apply String.eqb_eq in E. tauto.
  - cbn. rewrite IH; [reflexivity | tauto].
Qed.

Lemma In_filter_other (item other : string) (l : list string) :
  In other (filter (fun i => negb (String.eqb i item)) l) <->
  In other l /\ other <> item.
Proof.
  rewrite filter_In, negb_true_iff, String.eqb_neq. tauto.
Qed.

(** X25. [toggleArrayItem] flips the item and nothing else: the item is
    in the result exactly when it was not in the array, every other item
    is kept or left out as it was, and an array without repeats stays
    without repeats. Toggling twice gives the array back when the item
    was not in it, and moves the item to the end when it was: the first
    subject of the form is the one selected longest ago. *)
Theorem toggleArrayItem_flips_the_item (array : list string) (item : string) :
  (In item (toggleArrayItem array item) <-> ~ In item array) /\
  (forall other, other <> item ->
     (In other (toggleArrayItem array item) <-> In other array)) /\
  (NoDup array -> NoDup (toggleArrayItem array item)) /\
  toggleArrayItem (toggleArrayItem array item) item =
  if existsb (String.eqb item) array
  then filter (fun i => negb (String.eqb i item)) array ++ [item]
  else array.
Proof.
  unfold toggleArrayItem.
  destruct (existsb (String.eqb item) array) eqn:E.
  - apply existsb_eqb in E.
    assert (N : ~ In item (filter (fun i => negb (String.eqb i item)) array))
      by (rewrite In_filter_other; tauto).
    split; [tauto|]. split; [|split].
    + intros other Ho. rewrite In_filter_other. tauto.
    + intros Hd. now apply NoDup_filter.
    + destruct (existsb _ (filter _ array)) eqn:E'; [|reflexivity].
      apply existsb_eqb in E'. tauto.
  - assert (N : ~ In item array)
      by (intros H; apply existsb_eqb in H; congruence).
    split; [|split; [|split]].
    + split; [intros _; exact N|]. intros _. apply in_or_app. right. now left.
    + intros other Ho. rewrite in_app_iff. cbn. intuition congruence.
    + intros Hd. apply NoDup_app; [exact Hd | repeat constructor; tauto |].
      intros x Hx [<- | []]. exact (N Hx).
    + assert (E' : existsb (String.eqb item) (array ++ [item]) = true)
        by (apply existsb_eqb, in_or_app; right; now left).
      rewrite E', filter_app, (@filter_other item array N). cbn.
      rewrite String.eqb_refl. cbn. apply app_nil_r.
Qed.



Lemma validateStep_1_ext (d d' : FormData) :
  name d = name d' -> email d = email d' ->
  validateStep 1 d = validateStep 1 d'.
Proof.
  unfold validateStep, newErrors. cbn [Nat.eqb]. now intros -> ->.
Qed.

Lemma validateStep_2_ext (d d' : FormData) :
  learningGoals d = learningGoals d' -> validateStep 2 d = validateStep 2 d'.
Proof.
  unfold validateStep, newErrors. cbn [Nat.eqb]. now intros ->.
Qed.

Lemma validateStep_3_ext (d d' : FormData) :
  subjects d = subjects d' -> validateStep 3 d = validateStep 3 d'.
Proof.
  unfold validateStep, newErrors. cbn [Nat.eqb]. now intros ->.
Qed.




End FormFacts.

(* ===================================================================== *)
(** ** The onboarding form: the setup *)
(* ===================================================================== *)

Section SetupFacts.

Import Requests UserOnboarding Forms.

Context {R : Runtime}.

Lemma creations_app (a b : list Step) :
  creations (a ++ b) = creations a + creations b.
Proof.
  induction a as [|x a IH]; [reflexivity|].
  destruct x as [[| |]| |]; cbn; rewrite IH; try reflexivity.
  now rewrite Nat.add_assoc.
Qed.

Lemma lastErrors_app (a b : list Step) : forall shown,
  lastErrors shown (a ++ b) = lastErrors (lastErrors shown a) b.
Proof.
  induction a as [|x a IH]; intros shown; [reflexivity|].
  destruct x as [[| |]| |]; cbn; apply IH.
Qed.

Lemma dispatches_app (a b : list Step) :
  dispatches (a ++ b) = dispatches a ++ dispatches b.
Proof.
  induction a as [|x a IH]; [reflexivity|].
  destruct x as [[| |]| |]; cbn; now rewrite IH.
Qed.

Lemma creations_run_other (steps : list Requests.Step) :
  (forall target data, In (Call target data) steps -> target <> "createUser") ->
  creations (map Run steps) = 0.
Proof.
  induction steps as [|x steps IH]; intros H; [reflexivity|].
  destruct x as [a|target data|cell v]; cbn.
  - apply IH. intros t d Hin. apply (H t d). now right.
  - destruct (String.eqb target "createUser") eqn:E.
    + apply String.eqb_eq in E. now elim (H target data (or_introl eq_refl)).
    + apply IH. intros t d Hin. apply (H t d). now right.
  - apply IH. intros t d Hin. apply (H t d). now right.
Qed.

Lemma lastErrors_run (steps : list Requests.Step) (shown : list (string * string)) :
  lastErrors shown (map Run steps) = shown.
Proof. induction steps as [|x steps IH]; [reflexivity | exact IH]. Qed.

(** Each round calls [createUser] once, and leaves no error in the
    form. *)
Lemma attemptOnce_round (data : FormData) (net : Attempt)
  (shown : list (string * string)) :
  creations (fst (attemptOnce data net)) = 1 /\
  lastErrors shown (fst (attemptOnce data net)) = [].
Proof.
  unfold attemptOnce.
  assert (S0 : forall net',
             creations (map Run (fst (createUser (userData data) net'))) = 1)
    by (intros [user | e]; reflexivity).
  destruct (creation net) as [createdUser | e] eqn:Ec; cbn [fst].
  - destruct (Nat.ltb 0 (length (subjects data)) && truthy _); cbn [fst];
      rewrite ?creations_app, ?lastErrors_app, ?lastErrors_run, S0;
      (split; [|reflexivity]);
      cbn [creations Nat.add]; rewrite ?creations_run_other;
      try reflexivity.
    + intros t d. destruct (opening net); cbn;
        intuition (try discriminate); congruence.
    + intros t d. destruct (verification net); cbn;
        intuition (try discriminate); congruence.
    + intros t d. destruct (verification net); cbn;
        intuition (try discriminate); congruence.
  - rewrite creations_app, lastErrors_app, lastErrors_run, S0.
    split; reflexivity.
Qed.

Lemma finally_quiet (capturedLoading : bool) (attempt : nat)
  (shown : list (string * string)) :
  creations (finally capturedLoading attempt) = 0 /\
  lastErrors shown (finally capturedLoading attempt) = shown.
Proof.
  unfold finally.
  destruct (Nat.leb maxRetries attempt || negb capturedLoading); split; reflexivity.
Qed.

(** The loop needs no more rounds than [maxRetries]. *)
Lemma rounds_fuel (capturedLoading : bool) (data : FormData)
  (nets : nat -> Attempt) (fuel : nat) : forall attempt,
  maxRetries - attempt <= fuel ->
  rounds fuel attempt capturedLoading data nets =
  rounds (maxRetries - attempt) attempt capturedLoading data nets.
Proof.
  induction fuel as [|fuel IH]; intros attempt H.
  - now replace (maxRetries - attempt) with 0 by lia.
  - destruct (Nat.ltb attempt maxRetries) eqn:E.
    + assert (Hlt : attempt < maxRetries) by now apply Nat.ltb_lt.
      replace (maxRetries - attempt) with (S (maxRetries - S attempt)) by lia.
      cbn [rounds]. rewrite E.
      destruct (attemptOnce data (nets attempt)) as [steps [e|]]; [|reflexivity].
      rewrite (IH (S attempt)); [reflexivity | lia].
    + cbn [rounds]. rewrite E. apply Nat.ltb_ge in E.
      now replace (maxRetries - attempt) with 0 by lia.
Qed.

(** X27. The setup of the onboarding form makes at most three rounds,
    and each round starts from the beginning. Once the step shown
    passes its validation, [handleComplete] calls [createUser] once in
    each round, also when an earlier round had created the user and
    failed later; it stops at the first round that fails nowhere; the
    general error is shown exactly when three rounds have failed, with
    the message of the last failure, and otherwise the form is left
    without error. The loop never needs more than [maxRetries]
    rounds. *)
Theorem setup_retries_from_the_start
  (cells : Cells) (capturedLoading : bool) (nets : nat -> Attempt) :
  validateStep (step cells) (formData cells) = true ->
  let data := formData cells in
  let steps := handleComplete cells capturedLoading nets in
  let failed := failures maxRetries 0 data nets in
  creations steps = Nat.min maxRetries (S failed) /\
  (failed < maxRetries -> lastErrors (errors cells) steps = []) /\
  (failed = maxRetries ->
   exists e, snd (attemptOnce data (nets 2)) = Some e /\
             lastErrors (errors cells) steps = general e) /\
  (forall fuel, maxRetries <= fuel ->
     rounds fuel 0 capturedLoading data nets =
     rounds maxRetries 0 capturedLoading data nets).
Proof.
  intros Hv data steps failed. subst steps failed.
  split; [|split; [|split]].
  4:{ intros fuel H. now rewrite (@rounds_fuel capturedLoading data nets fuel 0) by lia. }
  all: unfold handleComplete; rewrite Hv; fold data;
    cbn [rounds failures maxRetries Nat.ltb Nat.leb creations lastErrors];
    pose proof (fun shown => attemptOnce_round data (nets 0) shown) as R0;
    pose proof (fun shown => attemptOnce_round data (nets 1) shown) as R1;
    pose proof (fun shown => attemptOnce_round data (nets 2) shown) as R2;
    pose proof (finally_quiet capturedLoading) as F;
    destruct (attemptOnce data (nets 0)) as [s0 [e0|]];
    [destruct (attemptOnce data (nets 1)) as [s1 [e1|]];
     [destruct (attemptOnce data (nets 2)) as [s2 [e2|]]|]|];
    cbn [fst snd] in *;
    rewrite ?creations_app, ?lastErrors_app;
    cbn [creations lastErrors];
    rewrite ?creations_app, ?lastErrors_app;
    cbn [creations lastErrors];
    rewrite ?(proj1 (R0 [])), ?(proj1 (R1 [])), ?(proj1 (R2 [])),
      ?(proj2 (R0 _)), ?(proj2 (R1 _)), ?(proj2 (R2 _)),
      ?(proj1 (F _ [])), ?(proj2 (F _ _)).
  all: unfold maxRetries; try reflexivity; try (intros H; lia);
    try (intros _; reflexivity).
  intros _. now exists e2.
Qed.

Lemma loadingAfter_app (a b : list Action) : forall loading,
  loadingAfter (a ++ b) loading = loadingAfter b (loadingAfter a loading).
Proof.
  induction a as [|x a IH]; intros loading; [reflexivity|].
  destruct x; cbn; apply IH.
Qed.

Lemma errorAfter_app (a b : list Action) : forall err,
  errorAfter (a ++ b) err = errorAfter b (errorAfter a err).
Proof.
  induction a as [|x a IH]; intros err; [reflexivity|].
  destruct x; cbn; apply IH.
Qed.

Lemma userAfter_app (a b : list Action) : forall who,
  userAfter (a ++ b) who = userAfter b (userAfter a who).
Proof.
  induction a as [|x a IH]; intros who; [reflexivity|].
  destruct x; cbn; apply IH.
Qed.

(** The reducer applies safe actions, and what they leave in the loading
    flag, the error and the user can be read off the actions. *)
Lemma replay_safe (actions : list Action) : forall state : AppState,
  forallb safe actions = true ->
  exists state',
    replay state actions = Some state' /\
    isLoading state' = loadingAfter actions (isLoading state) /\
    error state' = errorAfter actions (error state) /\
    user state' = userAfter actions (user state).
Proof.
  induction actions as [|a actions IH]; intros state H.
  - exists state. repeat split.
  - cbn [forallb] in H. apply andb_true_iff in H as [Ha H].
    destruct a; try discriminate Ha;
      cbn [replay appReducer loadingAfter errorAfter userAfter];
      match goal with
      | |- context [replay ?mid actions] =>
          destruct (IH mid H) as (state' & E & L & X & U)
      end;
      exists state'; (split; [exact E|]);
      cbn [isLoading error user] in L, X, U; repeat split; assumption.
Qed.

Lemma dispatches_run (steps : list Requests.Step) :
  dispatches (map Run steps) = stored steps.
Proof.
  induction steps as [|x steps IH]; [reflexivity|].
  destruct x; cbn; now rewrite IH.
Qed.

(** The actions of a round are safe, and leave the loading flag off. *)
Lemma attemptOnce_actions (data : FormData) (net : Attempt) (loading : bool) :
  forallb safe (dispatches (fst (attemptOnce data net))) = true /\
  loadingAfter (dispatches (fst (attemptOnce data net))) loading = false.
Proof.
  unfold attemptOnce.
  destruct (creation net) as [createdUser | e]; cbn [fst].
  - destruct (Nat.ltb 0 (length (subjects data)) && truthy _); cbn [fst];
      rewrite ?dispatches_app, ?dispatches_run;
      destruct (verification net), (opening net); split; reflexivity.
  - rewrite dispatches_app, dispatches_run. split; reflexivity.
Qed.

Lemma finally_actions (capturedLoading : bool) (attempt : nat) :
  forallb safe (dispatches (finally capturedLoading attempt)) = true /\
  loadingAfter (dispatches (finally capturedLoading attempt)) false = false /\
  (forall err, errorAfter (dispatches (finally capturedLoading attempt)) err = err) /\
  (forall who, userAfter (dispatches (finally capturedLoading attempt)) who = who).
Proof.
  unfold finally.
  destruct (Nat.leb maxRetries attempt || negb capturedLoading);
    repeat split.
Qed.

Lemma rounds_actions (capturedLoading : bool) (data : FormData)
  (nets : nat -> Attempt) (fuel : nat) : forall (attempt : nat) (loading : bool),
  forallb safe (dispatches (rounds fuel attempt capturedLoading data nets)) = true /\
  loadingAfter (dispatches (rounds fuel attempt capturedLoading data nets)) loading =
  if Nat.ltb 0 fuel && Nat.ltb attempt maxRetries then false else loading.
Proof.
  induction fuel as [|fuel IH]; intros attempt loading; [split; reflexivity|].
  cbn [rounds]. change (Nat.ltb 0 (S fuel)) with true. cbn [andb].
  destruct (Nat.ltb attempt maxRetries) eqn:E; [|split; reflexivity].
  pose proof (attemptOnce_actions data (nets attempt) loading) as [S1 L1].
  destruct (attemptOnce data (nets attempt)) as [steps [e|]]; cbn [fst] in S1, L1.
  - destruct (finally_actions capturedLoading (S attempt)) as (S2 & L2 & _).
    destruct (IH (S attempt) false) as [S3 L3].
    rewrite !dispatches_app, !forallb_app, !loadingAfter_app, S1, L1, S2, S3.
    destruct (Nat.leb maxRetries (S attempt)); cbn [dispatches forallb loadingAfter andb];
      rewrite L2, L3; (split; [reflexivity|]);
      now destruct (Nat.ltb 0 fuel && Nat.ltb (S attempt) maxRetries).
  - destruct (finally_actions capturedLoading attempt) as (S2 & L2 & _).
    rewrite !dispatches_app, !forallb_app, !loadingAfter_app, S1, L1, S2, L2.
    split; reflexivity.
Qed.

(** X28. Whatever the requests answer, the setup ends with the loading
    flag off. When the step shown passes its validation, the store
    applies every action that [handleComplete] and the actions it calls
    dispatch, in one, two or three rounds, and is left with [isLoading]
    false, whatever the closure had captured; when the validation fails,
    nothing is dispatched. *)
Theorem setup_always_turns_loading_off
  (cells : Cells) (capturedLoading : bool) (nets : nat -> Attempt)
  (state : AppState) :
  exists state',
    replay state (dispatches (handleComplete cells capturedLoading nets)) =
    Some state' /\
    isLoading state' =
    (if validateStep (step cells) (formData cells) then false
     else isLoading state) /\
    (validateStep (step cells) (formData cells) = false -> state' = state).
Proof.
  unfold handleComplete.
  destruct (validateStep (step cells) (formData cells)).
  - destruct (rounds_actions capturedLoading (formData cells) nets maxRetries 0
                (isLoading state)) as [S L].
    cbn [dispatches].
    destruct (replay_safe _ state S) as (state' & E & Hl & _).
    exists state'. split; [exact E|]. split; [|discriminate].
    now rewrite Hl, L.
  - exists state. repeat split.
Qed.

(** X29. A setup that succeeds can leave an error in the store. When the
    first round creates the user and the verification by email rejects,
    the round goes on with the user as created; if it then fails
    nowhere, the setup ends after this round with the user stored, the
    loading flag off and no error in the form, while the store keeps the
    message of the failed verification as its error. *)
Theorem failed_verification_is_reported_after_success
  (cells : Cells) (capturedLoading : bool) (nets : nat -> Attempt)
  (state : AppState) (createdUser : val) (e : Error) :
  validateStep (step cells) (formData cells) = true ->
  creation (nets 0) = Resolved createdUser ->
  verification (nets 0) = Rejected e ->
  snd (attemptOnce (formData cells) (nets 0)) = None ->
  let steps := handleComplete cells capturedLoading nets in
  creations steps = 1 /\
  lastErrors (errors cells) steps = [] /\
  exists state',
    replay state (dispatches steps) = Some state' /\
    user state' = createdUser /\
    error state' = VString (error_message e) /\
    isLoading state' = false.
Proof.
  intros Hv Hc He Hok steps. subst steps.
  unfold handleComplete. rewrite Hv.
  cbn [rounds maxRetries Nat.ltb Nat.leb creations lastErrors dispatches].
  pose proof (attemptOnce_round (formData cells) (nets 0)) as Hr.
  pose proof (attemptOnce_actions (formData cells) (nets 0)) as Ha.
  assert (Hu : forall who err,
             userAfter (dispatches (fst (attemptOnce (formData cells) (nets 0)))) who
             = createdUser /\
             errorAfter (dispatches (fst (attemptOnce (formData cells) (nets 0)))) err
             = VString (error_message e)).
  { intros who err. revert Hok. unfold attemptOnce. rewrite Hc, He.
    destruct (Nat.ltb 0 (length (subjects (formData cells))) && truthy _);
      cbn [fst snd]; rewrite ?dispatches_app, ?dispatches_run.
    - destruct (opening (nets 0)); [|discriminate]. intros _. split; reflexivity.
    - intros _. split; reflexivity. }
  destruct (attemptOnce (formData cells) (nets 0)) as [s0 thrown].
  cbn [fst snd] in *. subst thrown.
  destruct (finally_quiet capturedLoading 0 []) as [F1 F2].
  destruct (finally_actions capturedLoading 0) as (S2 & L2 & X2 & U2).
  rewrite creations_app, lastErrors_app, (proj1 (Hr [])), (proj2 (Hr _)), F1, F2.
  split; [reflexivity|]. split; [reflexivity|].
  assert (S : forallb safe (dispatches (s0 ++ finally capturedLoading 0)) = true).
  { rewrite dispatches_app, forallb_app, (proj1 (Ha false)), S2. reflexivity. }
  destruct (replay_safe _ state S) as (state' & E & Hl & Hx & Hw).
  exists state'. split; [exact E|].
  rewrite Hw, Hx, Hl, dispatches_app, userAfter_app, errorAfter_app,
    loadingAfter_app.
  destruct (Hu (user state) (error state)) as [Hu1 Hu2].
  rewrite U2, X2, Hu1, Hu2, (proj2 (Ha (isLoading state))), L2.
  repeat split.
Qed.

End SetupFacts.

(* ===================================================================== *)
(** ** The further properties on concrete inputs *)
(* ===================================================================== *)

Section OnCases.

#[local] Existing Instance Engine.runtime.

Import Scenario Cases Views Shapes Submits AdvancedViews.

(** One turn of the chat on the fresh state. *)
Lemma history_only_grows_witness :
  replay fresh turn =
  Some (withChat fresh [asked; greeted] false EmptyString VNull false) /\
  messages (withChat fresh [asked; greeted] false EmptyString VNull false) =
  messages fresh ++ addedMessages turn.
Proof.
  split; [reflexivity|].
  exact (@history_only_grows Engine.runtime turn fresh
           (withChat fresh [asked; greeted] false EmptyString VNull false)
           eq_refl eq_refl).
Defined.

(** Two sessions created from the initial state: the second one comes
    first. *)
Lemma sessions_newest_first_witness :
  replay initialState created = Some twoSessions /\
  sessions twoSessions = rev (addedSessions created) ++ sessions initialState.
Proof.
  split; [reflexivity|].
  exact (@sessions_newest_first Engine.runtime created initialState
           twoSessions eq_refl eq_refl).
Defined.

(** Three toggles from the dark theme give the light one. *)
Lemma darkMode_parity_witness :
  replay initialState flipped = Some light /\
  darkMode light = negb (darkMode initialState).
Proof.
  split; [reflexivity|].
  exact (@darkMode_parity Engine.runtime flipped initialState light eq_refl).
Defined.

(** Two achievements earned from the initial state. *)
Lemma reducer_applies_well_formed_actions_witness :
  exists state',
    replay initialState earned = Some state' /\
    isArray (achievements state') = true /\
    (setsGamification earned = false ->
     achievements state' = VArray ([] ++ addedAchievements earned)).
Proof.
  exact (@reducer_applies_well_formed_actions Engine.runtime earned
           initialState [] eq_refl eq_refl).
Defined.

(** Achievement details that are an object. *)
Lemma malformed_achievement_details_break_the_reducer_witness :
  replay initialState [SET_GAMIFICATION_DATA keyed; ADD_ACHIEVEMENT firstChat] =
  None.
Proof.
  exact (proj2 (@malformed_achievement_details_break_the_reducer
                  Engine.runtime initialState keyed firstChat
                  eq_refl eq_refl)).
Defined.

(** The same two frames through both consumers. *)
Lemma both_consumers_agree_witness :
  snd (sendMessage sessionId question clock (delivered wholeFrame)) =
  snd (sendPremiumMessage sessionId question (VObject []) clock
         (delivered wholeFrame)).
Proof.
  assert (Hok : forall body, delivered wholeFrame <> Response false body)
    by (intros body; discriminate).
  exact (proj1 (@both_consumers_agree Engine.runtime sessionId question clock
                  (VObject []) (delivered wholeFrame) Hok)).
Defined.

(** The three chunks of the reply, and then the end of the body. *)
Lemma stream_without_terminal_frame_keeps_typing_witness :
  snd (consume Regular sessionId question clock
         (delivered (map frameLine (map fst reply)))) =
  Returns "Recursion is..." /\
  ui_after fresh
    (fst (consume Regular sessionId question clock
            (delivered (map frameLine (map fst reply))))) =
  Some (withChat fresh [asked] true "Recursion is..." VNull false).
Proof.
  assert (Hreply : Forall (fun f => chunkFrame (fst f) (snd f)) reply)
    by (repeat (constructor;
                [split; [reflexivity | eexists; repeat split; reflexivity]|]);
        constructor).
  assert (Hwhole : Forall (fun v => wholeLines v = true)
                     (map frameLine (map fst reply)))
    by (repeat (constructor; [reflexivity|]); constructor).
  pose proof (@stream_without_terminal_frame_keeps_typing Engine.runtime
                sessionId question clock Regular fresh reply
                (map frameLine (map fst reply)) Hreply Hwhole eq_refl) as H.
  cbv zeta in H. destruct H as (E & state' & U & -> & _).
  split; [exact E | exact U].
Defined.

(** Comment lines and event lines between the frames. *)
Lemma only_marked_lines_count_witness :
  consume Regular sessionId question clock
    (Response true {| reads := noisy; ending := Done |}) =
  consume Regular sessionId question clock
    (Response true {| reads := wholeFrame; ending := Done |}).
Proof.
  exact (@only_marked_lines_count Engine.runtime Regular sessionId question
           clock noisy wholeFrame Done eq_refl).
Defined.

(** The typed question, when the context-aware call rejects. *)
Lemma accepted_submit_sends_the_trimmed_input_witness :
  ChatInterface.rejects fresh typed = false /\
  Forall (fun s => carried s = Some "What is a monad?")
    (requests (ChatInterface.handleSendMessage fresh typed
                 ChatInterface.Rejects ChatInterface.Resolves)).
Proof.
  split; [reflexivity|].
  pose proof (@accepted_submit_sends_the_trimmed_input Engine.runtime fresh
                typed ChatInterface.Rejects ChatInterface.Resolves eq_refl) as H.
  cbv zeta in H. exact (proj1 (proj2 (proj2 H))).
Defined.

(** The history after a rejected [fetch]. *)
Lemma history_after_a_chat_call_maps_to_a_context_witness :
  exists context,
    ChatInterface.conversationContext [asked : val] = Some context /\
    length context = 1.
Proof.
  exact (proj2 (@history_after_a_chat_call_maps_to_a_context Engine.runtime
                  Regular sessionId question clock (FetchRejects offline)
                  fresh
                  (withChat fresh [asked] false EmptyString
                            (VString "Failed to fetch") false)
                  (Forall_nil _) eq_refl)).
Defined.

(** The reply of the scenario through the advanced stream. *)
Lemma advanced_stream_completes_witness :
  (exists state',
      after idle
        (AdvancedStreamingInterface.startAdvancedStream question sessionId
           VUndefined true learner "normal" "earlier" (Response true empty)
           (delivered (map frameLine (map fst reply ++ [complete])))) =
      Some state' /\
      AdvancedStreamingInterface.streamContent state' = "Recursion is..." /\
      AdvancedStreamingInterface.isStreaming state' = false) /\
  completions
    (AdvancedStreamingInterface.startAdvancedStream question sessionId
       VUndefined true learner "normal" "earlier" (Response true empty)
       (delivered (map frameLine (map fst reply ++ [complete])))) =
  [VObject [("content", VString "earlier"); ("metadata", VUndefined)]].
Proof.
  assert (Hreply : Forall (fun f => chunkFrame (fst f) (snd f)) reply)
    by (repeat (constructor;
                [split; [reflexivity | eexists; repeat split; reflexivity]|]);
        constructor).
  assert (Hcomplete : completeFrame complete completeData)
    by (repeat split; reflexivity).
  assert (Hwhole : Forall (fun v => wholeLines v = true)
                     (map frameLine (map fst reply ++ [complete])))
    by (repeat (constructor; [reflexivity|]); constructor).
  pose proof (@advanced_stream_completes Engine.runtime question sessionId
                VUndefined true learner "normal" "earlier" reply complete
                completeData (map frameLine (map fst reply ++ [complete]))
                empty sessionBody "s1" idle
                eq_refl eq_refl Hreply Hcomplete Hwhole eq_refl) as H.
  cbv zeta in H. exact H.
Defined.

(** A rejected request for the streaming session, and a read that
    rejects after one chunk. *)
Lemma advanced_stream_failure_turns_streaming_off_witness :
  completions
    (AdvancedStreamingInterface.startAdvancedStream question sessionId
       VUndefined true learner "normal" "earlier" (FetchRejects offline)
       (delivered [])) = [] /\
  AdvancedStreamingInterface.isStreaming stopped = false.
Proof.
  pose proof (@advanced_stream_failure_turns_streaming_off Engine.runtime
                question sessionId VUndefined true learner "normal" "earlier")
    as H.
  split.
  - refine (proj2 (proj1 (H (FetchRejects offline) (delivered []) idle) _)).
    right. left. intros body. discriminate.
  - exact (proj2 (H (Response true empty) (Response true broken) idle)
             [frameLine (chunk "Hi")] offline stopped eq_refl eq_refl).
Defined.

(** The chunk frame without content. *)
Lemma advanced_chunk_without_content_appends_undefined_witness :
  exists state',
    after idle
      (fst (AdvancedStreamingInterface.on_frame true "earlier" tt bare)) =
    Some state' /\
    AdvancedStreamingInterface.streamContent state' = "earlierundefined".
Proof.
  exact (@advanced_chunk_without_content_appends_undefined Engine.runtime
           true "earlier" bare bareData idle eq_refl eq_refl
           (or_introl eq_refl)).
Defined.

End OnCases.

Section OnTrials.

#[local] Existing Instance Engine.runtime.

Import Scenario Cases Trials Requests Mixes UserOnboarding Forms.

(** The reply of the scenario, with a session created after its first
    chunk. *)
Lemma reply_in_flight_lands_in_the_new_session_witness :
  replay fresh
    (interleaved
       (prologue Regular sessionId question clock ++ chunkEffects ["Recur"])
       (fst (createSession VNull (Resolved algebra)))
       (chunkEffects ["sion is"; "..."] ++ completeEffects recursion)) =
  Some (withChat (withSession fresh algebra) [recursion] false EmptyString
                 VNull false).
Proof.
  assert (Hreply : Forall (fun f => chunkFrame (fst f) (snd f)) reply)
    by (repeat (constructor;
                [split; [reflexivity | eexists; repeat split; reflexivity]|]);
        constructor).
  assert (Hcomplete : completeFrame complete completeData)
    by (repeat split; reflexivity).
  assert (Hwhole : Forall (fun v => wholeLines v = true)
                     (map frameLine (map fst reply ++ [complete])))
    by (repeat (constructor; [reflexivity|]); constructor).
  pose proof (@reply_in_flight_lands_in_the_new_session Engine.runtime Regular
                sessionId question clock reply complete completeData recursion
                (map frameLine (map fst reply ++ [complete]))
                Hreply Hcomplete eq_refl Hwhole eq_refl
                ["Recur"] ["sion is"; "..."] eq_refl) as (_ & _ & _ & H).
  exact (H fresh VNull algebra).
Defined.

(** A question typed after a select whose messages did not come. *)
Lemma stale_history_is_sent_as_context_witness :
  exists state' rest,
    store_after talking
      (fst (Sidebar.handleSessionSelect algebra (Rejected offline))) =
    Some state' /\
    currentSession state' = algebra /\
    ChatInterface.handleSendMessage state' typed
      ChatInterface.Resolves ChatInterface.Resolves =
    ChatInterface.PreventDefault
      :: ChatInterface.SetInputMessage EmptyString
      :: ChatInterface.SendContextAwareMessage
           (trim (ChatInterface.inputMessage typed)) askedContext
      :: rest.
Proof.
  exact (@stale_history_is_sent_as_context Engine.runtime talking algebra
           offline typed ChatInterface.Resolves ChatInterface.Resolves
           askedContext eq_refl eq_refl eq_refl eq_refl eq_refl).
Defined.

(** Two achievements brought by a session completion. *)
Lemma new_achievements_are_appended_in_order_witness :
  snd (recordSessionCompletion (VString "u1") sessionId VUndefined
         (Resolved completed)) = Resolved completed /\
  exists state',
    store_after initialState
      (fst (recordSessionCompletion (VString "u1") sessionId VUndefined
              (Resolved completed))) = Some state' /\
    achievements state' = VArray [firstChat; streak3].
Proof.
  pose proof (@new_achievements_are_appended_in_order Engine.runtime
                (VString "u1") sessionId VUndefined VNull VNull VUndefined
                completed "u1" [firstChat; streak3] [] initialState
                eq_refl eq_refl eq_refl) as H.
  cbv zeta in H. destruct H as [(E & _ & state' & U & A & _) _].
  split; [exact E|]. exists state'. split; [exact U | exact A].
Defined.

(** Three rounds in which the server cannot be reached. *)
Lemma setup_retries_from_the_start_witness :
  creations (handleComplete filled false unreachable) = 3 /\
  lastErrors [] (handleComplete filled false unreachable) = general offline.
Proof.
  pose proof (@setup_retries_from_the_start Engine.runtime filled false
                unreachable eq_refl) as H.
  cbv zeta in H. destruct H as (C & _ & G & _).
  split; [exact C|].
  destruct (G eq_refl) as (e & E & L).
  injection E as <-. exact L.
Defined.

(** A user created, a verification that rejects, a session opened. *)
Lemma failed_verification_is_reported_after_success_witness :
  exists state',
    replay initialState (dispatches (handleComplete filled false unverified)) =
    Some state' /\
    user state' = learner /\
    error state' = VString "Failed to fetch" /\
    isLoading state' = false.
Proof.
  pose proof (@failed_verification_is_reported_after_success Engine.runtime
                filled false unverified initialState learner offline
                eq_refl eq_refl eq_refl eq_refl) as H.
  cbv zeta in H. exact (proj2 (proj2 H)).
Defined.

(** The typed question, answered by the context-aware chat. *)
Lemma default_submit_falls_back_exactly_on_failure_witness :
  Submits.requests
    (ChatInterface.handleSendMessage fresh typed
       (ContextAwareChatInterface.settled
          (snd (ContextAwareChatInterface.sendContextAwareMessage
                  (getOpt (currentSession fresh) "id")
                  (getOpt (user fresh) "id") VNull clock
                  (trim (ChatInterface.inputMessage typed)) []
                  (Rejected offline) (Resolved explained))))
       ChatInterface.Resolves) =
  [ChatInterface.SendContextAwareMessage "What is a monad?" []] /\
  exists reply,
    store_after fresh
      (fst (ContextAwareChatInterface.sendContextAwareMessage
              (getOpt (currentSession fresh) "id")
              (getOpt (user fresh) "id") VNull clock
              (trim (ChatInterface.inputMessage typed)) []
              (Rejected offline) (Resolved explained))) =
    Some (withChat fresh (messages fresh ++ [reply]) (isTyping fresh)
            (streamingMessage fresh) (error fresh) (isLoading fresh)) /\
    Shapes.isMentor reply /\
    field reply "message" = field explained "response".
Proof.
  exact (@default_submit_falls_back_exactly_on_failure Engine.runtime fresh
           typed VNull clock (Rejected offline) (Resolved explained)
           ChatInterface.Resolves [] eq_refl eq_refl eq_refl).
Defined.

End OnTrials.
